(** * WeKnora chat adapters: a shallow embedding of [internal/models/chat]

    The development embeds the two chat back ends of the repository, the
    remote OpenAI-compatible adapter ([remote_api.go]) and the local Ollama
    adapter, together with the data types they exchange, and proves the
    properties of request shaping, tool-call accumulation and stream
    termination that the specification states about them.

    Conventions of the embedding:
    - a Go [string] is a [string] of bytes;
    - a Go [int] is a [Z]; the adapters only compare them, except for the
      token counts of the local adapter, whose sum and difference are
      wrapped into 64 bits;
    - a Go [float64] / [float32] is a [spec_float] of the IEEE binary64 /
      binary32 format;
    - a Go [map[K]V] is a [gmap K V]; reading a missing key gives the zero
      value, written [default zero (m !! k)];
    - a slice is a [list]; a [nil] slice and an empty slice are both [[]];
    - a pointer that may be [nil] ([*bool], [*int], [*ChatOptions]) is an
      [option];
    - the events a worker goroutine sends on its channel are the [list] of
      them, in sending order; what is written to the logger is a [list] of
      log entries carried by a small writer monad. *)

From Stdlib Require Import ZArith.
From Stdlib.Floats Require Import SpecFloat.
From stdpp Require Import gmap strings list fin_maps sorting.

(** ** Go primitives *)

Definition nonEmpty (s : string) : bool := negb (String.eqb s "").

(** [float64] and [float32] values, and the conversion [float32(x)]
    (round to nearest even into binary32). *)
Definition float64 := spec_float.
Definition float32 := spec_float.

Definition float64_zero : float64 := S754_zero false.
Definition float32_zero : float32 := S754_zero false.

(** [x > 0] on [float64]; false on NaN. *)
Definition float64_gt0 (x : float64) : bool := SFltb float64_zero x.

Definition to_float32 (x : float64) : float32 :=
  match x with
  | S754_finite s m e => binary_normalize 24 128 (cond_Zopp s (Zpos m)) e s
  | _ => x
  end.

(** [interface{}] values stored in the option bags and JSON schemas. *)
#[warnings="-register-all"]
Inductive any :=
| anyBool (b : bool)
| anyInt (z : Z)
| anyFloat64 (f : float64)
| anyString (s : string)
| anySlice (l : list any)
| anyMap (m : list (string * any)).

(** Go [error] values: those handed over by a collaborator, and those built
    by [fmt.Errorf] in this package. *)
Inductive error :=
| ErrExternal (msg : string)
| ErrMsg (msg : string)
| ErrStatus (code : Z)
| ErrWrap (context : string) (cause : error).

(** ** Package [types] *)

Module types.

Module FunctionCall.
Record t := mk { Name : string; Arguments : string }.
End FunctionCall.

Module LLMToolCall.
Record t := mk { ID : string; Type_ : string; Function : FunctionCall.t }.
End LLMToolCall.

Inductive ResponseType := ResponseTypeAnswer | ResponseTypeToolCall.

Module StreamResponse.
Record t := mk {
  ResponseType_ : ResponseType;
  Content : string;
  Done : bool;
  ToolCalls : list LLMToolCall.t;
  Data : gmap string any
}.
End StreamResponse.

Module Usage.
Record t := mk { PromptTokens : Z; CompletionTokens : Z; TotalTokens : Z }.
End Usage.

Module ChatResponse.
Record t := mk {
  Content : string;
  FinishReason : string;
  Usage_ : Usage.t;
  ToolCalls : list LLMToolCall.t
}.
End ChatResponse.

End types.

(** ** Package [openai] (github.com/sashabaranov/go-openai): the wire types
    the remote adapter fills in and reads back. *)

Module openai.

Module FunctionCall.
Record t := mk { Name : string; Arguments : string }.
End FunctionCall.

Module ToolCall.
Record t := mk {
  Index : option Z;
  ID : string;
  Type_ : string;
  Function : FunctionCall.t
}.
End ToolCall.

Module ChatCompletionMessage.
Record t := mk {
  Role : string;
  Content : string;
  Name : string;
  ToolCalls : list ToolCall.t;
  ToolCallID : string
}.
End ChatCompletionMessage.

Module FunctionDefinition.
Record t := mk {
  Name : string;
  Description : string;
  Parameters : option (gmap string any)
}.
End FunctionDefinition.

Module Tool.
Record t := mk { Type_ : string; Function : FunctionDefinition.t }.
End Tool.

(** The [ToolChoice any] field of a request: absent, a plain string, or
    the structured [openai.ToolChoice{Type, Function{Name}}]. *)
Inductive ToolChoiceValue :=
| ToolChoiceString (s : string)
| ToolChoiceStruct (type_ : string) (functionName : string).

Module ChatCompletionRequest.
Record t := mk {
  Model : string;
  Messages : list ChatCompletionMessage.t;
  Stream : bool;
  Temperature : float32;
  TopP : float32;
  MaxTokens : Z;
  MaxCompletionTokens : Z;
  FrequencyPenalty : float32;
  PresencePenalty : float32;
  Tools : list Tool.t;
  ToolChoice : option ToolChoiceValue;
  ChatTemplateKwargs : gmap string any
}.
End ChatCompletionRequest.

Module ChatCompletionChoice.
Record t := mk { Message : ChatCompletionMessage.t; FinishReason : string }.
End ChatCompletionChoice.

Module Usage.
Record t := mk { PromptTokens : Z; CompletionTokens : Z; TotalTokens : Z }.
End Usage.

Module ChatCompletionResponse.
Record t := mk { Choices : list ChatCompletionChoice.t; Usage_ : Usage.t }.
End ChatCompletionResponse.

Module ChatCompletionStreamChoiceDelta.
Record t := mk { Content : string; ToolCalls : list ToolCall.t }.
End ChatCompletionStreamChoiceDelta.

Module ChatCompletionStreamChoice.
Record t := mk {
  Delta : ChatCompletionStreamChoiceDelta.t;
  FinishReason : string
}.
End ChatCompletionStreamChoice.

Module ChatCompletionStreamResponse.
Record t := mk { Choices : list ChatCompletionStreamChoice.t }.
End ChatCompletionStreamResponse.

(** A [*ChatCompletionStream] as the worker sees it: the chunks that
    [Recv] returns successfully, then the error ([io.EOF] or a transport
    error) of the first failing [Recv]. *)
Module ChatCompletionStream.
Record t := mk {
  chunks : list ChatCompletionStreamResponse.t;
  recvErr : error
}.
End ChatCompletionStream.

End openai.

(** ** Package [chat]: the shared message model ([chat.go]) *)

Module chat.

Module FunctionDef.
Record t := mk {
  Name : string;
  Description : string;
  Parameters : option (gmap string any)
}.
End FunctionDef.

Module Tool.
Record t := mk { Type_ : string; Function : FunctionDef.t }.
End Tool.

Module ChatOptions.
Record t := mk {
  Temperature : float64;
  TopP : float64;
  Seed : Z;
  MaxTokens : Z;
  MaxCompletionTokens : Z;
  FrequencyPenalty : float64;
  PresencePenalty : float64;
  Thinking : option bool;
  Tools : list Tool.t;
  ToolChoice : string
}.
End ChatOptions.

Module FunctionCall.
Record t := mk { Name : string; Arguments : string }.
End FunctionCall.

Module ToolCall.
Record t := mk { ID : string; Type_ : string; Function : FunctionCall.t }.
End ToolCall.

Module Message.
Record t := mk {
  Role : string;
  Content : string;
  Name : string;
  ToolCallID : string;
  ToolCalls : list ToolCall.t
}.
End Message.

Module ChatConfig.
Record t := mk {
  Source : string;
  BaseURL : string;
  ModelName : string;
  APIKey : string;
  ModelID : string
}.
End ChatConfig.

End chat.

(** ** Package [ollamaapi] (github.com/ollama/ollama/api): the wire types of
    the local runtime. [Tools] of a request and [ToolCalls] of a message are
    fields of the library types; they are listed because the adapter leaves
    them at their zero value. *)

Module ollamaapi.

Module ToolCall.
Record t := mk { FunctionName : string; FunctionArguments : gmap string any }.
End ToolCall.

Module Tool.
Record t := mk {
  Type_ : string;
  FunctionName : string;
  FunctionDescription : string;
  FunctionParameters : option (gmap string any)
}.
End Tool.

Module Message.
Record t := mk {
  Role : string;
  Content : string;
  ToolCalls : list ToolCall.t
}.
End Message.

Module ThinkValue.
Record t := mk { Value : bool }.
End ThinkValue.

Module ChatRequest.
Record t := mk {
  Model : string;
  Messages : list Message.t;
  Stream : option bool;
  Options : gmap string any;
  Think : option ThinkValue.t;
  Tools : list Tool.t
}.
End ChatRequest.

Module ChatResponse.
Record t := mk {
  Message_ : Message.t;
  Done : bool;
  PromptEvalCount : Z;
  EvalCount : Z
}.
End ChatResponse.

End ollamaapi.

(** ** Package [strings] of the Go library, on byte strings *)

Module strings.

Fixpoint HasPrefix (s prefix : string) : bool :=
  match prefix, s with
  | EmptyString, _ => true
  | String p prefix', String c s' => Ascii.eqb c p && HasPrefix s' prefix'
  | String _ _, EmptyString => false
  end.

Fixpoint Contains (s substr : string) : bool :=
  HasPrefix s substr ||
  match s with
  | EmptyString => false
  | String _ s' => Contains s' substr
  end.

(** [strings.ToLower] has two paths. A string whose bytes are all below
    [utf8.RuneSelf] (0x80) is lower-cased byte by byte: the letters A to Z
    are shifted to a to z. Any other string goes through
    [strings.Map(unicode.ToLower, s)], which decodes the runes and consults
    the case tables of Go's [unicode] package (U+212A KELVIN SIGN, for one,
    becomes k). Those tables are not part of the program: [mapToLower]
    stands for that library call, and everything that lower-cases a string
    is stated for whatever it returns. *)
Class CaseTables := { mapToLower : string → string }.

Fixpoint isASCII (s : string) : bool :=
  match s with
  | EmptyString => true
  | String c s' => (Ascii.N_of_ascii c <? 128)%N && isASCII s'
  end.

Definition toLowerByte (c : Ascii.ascii) : Ascii.ascii :=
  let n := Ascii.N_of_ascii c in
  if ((65 <=? n) && (n <=? 90))%N then Ascii.ascii_of_N (n + 32) else c.

(** The ASCII path; it returns the string itself when it has no upper-case
    letter. *)
Fixpoint lowerASCII (s : string) : string :=
  match s with
  | EmptyString => EmptyString
  | String c s' => String (toLowerByte c) (lowerASCII s')
  end.

Definition ToLower `{CaseTables} (s : string) : string :=
  if isASCII s then lowerASCII s else mapToLower s.

End strings.

(** ** Package [logger] *)

Module logger.

Inductive Entry :=
| Infof (format : string) (args : list string)
| Errorf (format : string) (err : error).

End logger.

(** ** Package [http] and the request of the raw call *)

(** [QwenChatCompletionRequest]: the generic request with the top-level
    [enable_thinking] field ([*bool], omitted when [nil]). *)
Module QwenChatCompletionRequest.
Record t := mk {
  ChatCompletionRequest : openai.ChatCompletionRequest.t;
  EnableThinking : option bool
}.
End QwenChatCompletionRequest.

Module http.

Definition StatusOK : Z := 200.

Module Request.
Record t := mk {
  Method : string;
  URL : string;
  Header : gmap string string;
  Body : string
}.
End Request.

Module Response.
Record t := mk { StatusCode : Z; Body : string }.
End Response.

End http.

(** ** Effects

    What a call does besides returning: it writes log entries and calls its
    collaborators. A computation returns its value together with the list of
    these effects in program order. *)

Inductive Effect :=
| Log (e : logger.Entry)
| ClientCreateChatCompletion (req : openai.ChatCompletionRequest.t)
| ClientCreateChatCompletionStream (req : openai.ChatCompletionRequest.t)
| HTTPClientDo (req : http.Request.t)
| OllamaEnsureModelAvailable (modelName : string)
| OllamaChat (req : ollamaapi.ChatRequest.t).

Definition Traced (A : Type) : Type := list Effect * A.

Definition ret {A} (a : A) : Traced A := ([], a).

Definition bind {A B} (m : Traced A) (k : A → Traced B) : Traced B :=
  let '(l1, a) := m in
  let '(l2, b) := k a in
  (l1 ++ l2, b).

Definition emit (e : Effect) : Traced unit := ([e], tt).

Definition effects {A} (m : Traced A) : list Effect := m.1.
Definition value {A} (m : Traced A) : A := m.2.

Notation "'let*' x ':=' m 'in' k" := (bind m (λ x, k))
  (at level 10, x pattern, m at level 100, k at level 200, only parsing).

(** The errors that reached the log. *)
Definition loggedErrors (l : list Effect) : list error :=
  omap (λ e, match e with Log (logger.Errorf _ err) => Some err | _ => None end) l.

Definition isClientCall (e : Effect) : bool :=
  match e with
  | ClientCreateChatCompletion _ | ClientCreateChatCompletionStream _ => true
  | _ => false
  end.

Definition httpRequests (l : list Effect) : list http.Request.t :=
  omap (λ e, match e with HTTPClientDo r => Some r | _ => None end) l.

(** ** The remote adapter ([remote_api.go]) *)

Module RemoteAPIChat.

Import types openai.

(** The receiver. Its [client] field is the collaborator reached through
    [World.t] below. *)
Record t := mk {
  modelName : string;
  modelID : string;
  baseURL : string;
  apiKey : string
}.

(** The collaborators of the adapter: the generic client, [encoding/json]
    and [net/http]. Each answers the call it is handed. *)
Module World.
Record t := mk {
  CreateChatCompletion :
    ChatCompletionRequest.t → error + ChatCompletionResponse.t;
  CreateChatCompletionStream :
    ChatCompletionRequest.t → error + ChatCompletionStream.t;
  jsonMarshal : QwenChatCompletionRequest.t → error + string;
  (** the error of [http.NewRequestWithContext method url body], if any;
      without one the request carries that method, URL and body *)
  NewRequestWithContext : string → string → string → option error;
  Do : http.Request.t → error + http.Response.t;
  jsonDecode : string → error + ChatCompletionResponse.t
}.
End World.

Definition NewRemoteAPIChat (chatConfig : chat.ChatConfig.t) : error + t :=
  inr {| modelName := chat.ChatConfig.ModelName chatConfig;
         modelID := chat.ChatConfig.ModelID chatConfig;
         baseURL := chat.ChatConfig.BaseURL chatConfig;
         apiKey := chat.ChatConfig.APIKey chatConfig |}.

(** *** Request building *)

Definition convertMessages (c : t) (messages : list chat.Message.t)
  : list ChatCompletionMessage.t :=
  map (λ msg,
    let content :=
      if nonEmpty (chat.Message.Content msg)
      then chat.Message.Content msg else "" in
    let toolCalls :=
      if (0 <? length (chat.Message.ToolCalls msg))%nat then
        map (λ tc,
          {| ToolCall.Index := None;
             ToolCall.ID := chat.ToolCall.ID tc;
             ToolCall.Type_ := chat.ToolCall.Type_ tc;
             ToolCall.Function :=
               {| FunctionCall.Name :=
                    chat.FunctionCall.Name (chat.ToolCall.Function tc);
                  FunctionCall.Arguments :=
                    chat.FunctionCall.Arguments (chat.ToolCall.Function tc) |} |})
          (chat.Message.ToolCalls msg)
      else [] in
    let isTool := String.eqb (chat.Message.Role msg) "tool" in
    {| ChatCompletionMessage.Role := chat.Message.Role msg;
       ChatCompletionMessage.Content := content;
       ChatCompletionMessage.Name :=
         if isTool then chat.Message.Name msg else "";
       ChatCompletionMessage.ToolCalls := toolCalls;
       ChatCompletionMessage.ToolCallID :=
         if isTool then chat.Message.ToolCallID msg else "" |})
    messages.

Definition isAliyunQwen3Model (c : t) : bool :=
  strings.HasPrefix (modelName c) "qwen3-" &&
  String.eqb (baseURL c) "https://dashscope.aliyuncs.com/compatible-mode/v1".

Definition isDeepSeekModel `{strings.CaseTables} (c : t) : bool :=
  strings.Contains (strings.ToLower (modelName c)) "deepseek".

(** The [Tools] of the options as [openai.Tool]s. *)
Definition convertTools (tools : list chat.Tool.t) : list Tool.t :=
  if (0 <? length tools)%nat then
    map (λ tool,
      let f := chat.Tool.Function tool in
      {| Tool.Type_ := chat.Tool.Type_ tool;
         Tool.Function :=
           {| FunctionDefinition.Name := chat.FunctionDef.Name f;
              FunctionDefinition.Description := chat.FunctionDef.Description f;
              FunctionDefinition.Parameters :=
                match chat.FunctionDef.Parameters f with
                | Some p => Some p
                | None => None
                end |} |})
      tools
  else [].

(** The [ToolChoice] branch of [buildChatCompletionRequest]: what is
    assigned to [req.ToolChoice] ([None] when the field is left unset). *)
Definition buildToolChoice `{strings.CaseTables} (c : t) (toolChoice : string)
  : Traced (option ToolChoiceValue) :=
  if nonEmpty toolChoice then
    if isDeepSeekModel c then
      let* _ := emit (Log (logger.Infof "deepseek model, skip tool_choice" [])) in
      ret None
    else if String.eqb toolChoice "none" || String.eqb toolChoice "required"
            || String.eqb toolChoice "auto" then
      ret (Some (ToolChoiceString toolChoice))
    else
      ret (Some (ToolChoiceStruct "function" toolChoice))
  else ret None.

Definition buildChatCompletionRequest `{strings.CaseTables} (c : t)
    (messages : list chat.Message.t)
    (opts : option chat.ChatOptions.t) (isStream : bool)
  : Traced ChatCompletionRequest.t :=
  let positive64 (x : float64) : float32 :=
    if float64_gt0 x then to_float32 x else float32_zero in
  let positiveInt (n : Z) : Z := if (0 <? n)%Z then n else 0%Z in
  match opts with
  | Some o =>
      let thinking := default false (chat.ChatOptions.Thinking o) in
      let* toolChoice := buildToolChoice c (chat.ChatOptions.ToolChoice o) in
      ret {| ChatCompletionRequest.Model := modelName c;
             ChatCompletionRequest.Messages := convertMessages c messages;
             ChatCompletionRequest.Stream := isStream;
             ChatCompletionRequest.Temperature :=
               positive64 (chat.ChatOptions.Temperature o);
             ChatCompletionRequest.TopP := positive64 (chat.ChatOptions.TopP o);
             ChatCompletionRequest.MaxTokens :=
               positiveInt (chat.ChatOptions.MaxTokens o);
             ChatCompletionRequest.MaxCompletionTokens :=
               positiveInt (chat.ChatOptions.MaxCompletionTokens o);
             ChatCompletionRequest.FrequencyPenalty :=
               positive64 (chat.ChatOptions.FrequencyPenalty o);
             ChatCompletionRequest.PresencePenalty :=
               positive64 (chat.ChatOptions.PresencePenalty o);
             ChatCompletionRequest.Tools :=
               convertTools (chat.ChatOptions.Tools o);
             ChatCompletionRequest.ToolChoice := toolChoice;
             ChatCompletionRequest.ChatTemplateKwargs :=
               {[ "enable_thinking" := anyBool thinking ]} |}
  | None =>
      ret {| ChatCompletionRequest.Model := modelName c;
             ChatCompletionRequest.Messages := convertMessages c messages;
             ChatCompletionRequest.Stream := isStream;
             ChatCompletionRequest.Temperature := float32_zero;
             ChatCompletionRequest.TopP := float32_zero;
             ChatCompletionRequest.MaxTokens := 0;
             ChatCompletionRequest.MaxCompletionTokens := 0;
             ChatCompletionRequest.FrequencyPenalty := float32_zero;
             ChatCompletionRequest.PresencePenalty := float32_zero;
             ChatCompletionRequest.Tools := [];
             ChatCompletionRequest.ToolChoice := None;
             ChatCompletionRequest.ChatTemplateKwargs :=
               {[ "enable_thinking" := anyBool false ]} |}
  end.

Definition buildQwenChatCompletionRequest `{strings.CaseTables} (c : t)
    (messages : list chat.Message.t) (opts : option chat.ChatOptions.t)
    (isStream : bool)
  : Traced QwenChatCompletionRequest.t :=
  let* req := buildChatCompletionRequest c messages opts isStream in
  ret {| QwenChatCompletionRequest.ChatCompletionRequest := req;
         QwenChatCompletionRequest.EnableThinking :=
           if negb isStream then Some false else None |}.

(** *** Non-streaming chat *)

(** The conversion of the first choice and the usage into the response;
    the source writes it out in [Chat] and again in [chatWithQwen]. *)
Definition convertChoice (choice : ChatCompletionChoice.t) (usage : Usage.t)
  : ChatResponse.t :=
  let message := ChatCompletionChoice.Message choice in
  {| ChatResponse.Content := ChatCompletionMessage.Content message;
     ChatResponse.FinishReason := ChatCompletionChoice.FinishReason choice;
     ChatResponse.Usage_ :=
       {| types.Usage.PromptTokens := Usage.PromptTokens usage;
          types.Usage.CompletionTokens := Usage.CompletionTokens usage;
          types.Usage.TotalTokens := Usage.TotalTokens usage |};
     ChatResponse.ToolCalls :=
       if (0 <? length (ChatCompletionMessage.ToolCalls message))%nat then
         map (λ tc,
           {| LLMToolCall.ID := ToolCall.ID tc;
              LLMToolCall.Type_ := ToolCall.Type_ tc;
              LLMToolCall.Function :=
                {| types.FunctionCall.Name :=
                     FunctionCall.Name (ToolCall.Function tc);
                   types.FunctionCall.Arguments :=
                     FunctionCall.Arguments (ToolCall.Function tc) |} |})
           (ChatCompletionMessage.ToolCalls message)
       else [] |}.

Definition chatWithQwen `{strings.CaseTables} (c : t) (w : World.t)
    (messages : list chat.Message.t) (opts : option chat.ChatOptions.t)
  : Traced (error + ChatResponse.t) :=
  let* req := buildQwenChatCompletionRequest c messages opts false in
  match World.jsonMarshal w req with
  | inl err => ret (inl (ErrWrap "marshal request" err))
  | inr jsonData =>
      let endpoint := baseURL c +:+ "/chat/completions" in
      match World.NewRequestWithContext w "POST" endpoint jsonData with
      | Some err => ret (inl (ErrWrap "create request" err))
      | None =>
          let httpReq :=
            {| http.Request.Method := "POST";
               http.Request.URL := endpoint;
               http.Request.Header :=
                 <[ "Authorization" := "Bearer " +:+ apiKey c ]>
                   (<[ "Content-Type" := "application/json" ]> ∅);
               http.Request.Body := jsonData |} in
          let* _ := emit (HTTPClientDo httpReq) in
          match World.Do w httpReq with
          | inl err => ret (inl (ErrWrap "send request" err))
          | inr resp =>
              if negb (http.Response.StatusCode resp =? http.StatusOK)%Z then
                ret (inl (ErrStatus (http.Response.StatusCode resp)))
              else
                match World.jsonDecode w (http.Response.Body resp) with
                | inl err => ret (inl (ErrWrap "decode response" err))
                | inr chatResp =>
                    match ChatCompletionResponse.Choices chatResp with
                    | [] => ret (inl (ErrMsg "no response from API"))
                    | choice :: _ =>
                        ret (inr (convertChoice choice
                                    (ChatCompletionResponse.Usage_ chatResp)))
                    end
                end
          end
      end
  end.

Definition Chat `{strings.CaseTables} (c : t) (w : World.t)
    (messages : list chat.Message.t) (opts : option chat.ChatOptions.t)
  : Traced (error + ChatResponse.t) :=
  if isAliyunQwen3Model c then chatWithQwen c w messages opts
  else
    let* req := buildChatCompletionRequest c messages opts false in
    let* _ := emit (ClientCreateChatCompletion req) in
    match World.CreateChatCompletion w req with
    | inl err => ret (inl (ErrWrap "create chat completion" err))
    | inr resp =>
        match ChatCompletionResponse.Choices resp with
        | [] => ret (inl (ErrMsg "no response from OpenAI"))
        | choice :: _ =>
            ret (inr (convertChoice choice (ChatCompletionResponse.Usage_ resp)))
        end
    end.

(** *** Streaming chat: the tool-call accumulator *)

(** The three maps of the worker goroutine. An entry of [toolCallMap] is
    reached through its own pointer, stored once under its index and never
    [nil], so the map holds the entries themselves. *)
Module acc.
Record t := mk {
  toolCallMap : gmap Z LLMToolCall.t;
  lastFunctionName : gmap Z string;
  nameNotified : gmap Z bool
}.
End acc.

Definition emptyAcc : acc.t :=
  {| acc.toolCallMap := ∅; acc.lastFunctionName := ∅; acc.nameNotified := ∅ |}.

(** The closure [buildOrderedToolCalls], on the current [toolCallMap]. *)
Definition buildOrderedToolCalls (toolCallMap : gmap Z LLMToolCall.t)
  : list LLMToolCall.t :=
  if (size toolCallMap =? 0)%nat then []
  else
    let result :=
      foldl (λ result i,
               match toolCallMap !! i with
               | Some tc => result ++ [tc]
               | None => result
               end)
            [] (seqZ 0 (Z.of_nat (size toolCallMap))) in
    if (length result =? 0)%nat then [] else result.

(** The index a fragment addresses: [*tc.Index], or 0 without one. *)
Definition toolCallIndex (tc : ToolCall.t) : Z :=
  match ToolCall.Index tc with
  | Some i => i
  | None => 0%Z
  end.

(** The entry of a fragment after the fragment is merged into it:
    [existing] is the entry found under the index of the fragment, if any;
    without one a new entry is created. Then id and type are overwritten,
    name and arguments appended. *)
Definition mergeToolCall (existing : option LLMToolCall.t) (tc : ToolCall.t)
  : LLMToolCall.t :=
  let toolCallEntry :=
    match existing with
    | Some e => e
    | None =>
        {| LLMToolCall.ID := "";
           LLMToolCall.Type_ := ToolCall.Type_ tc;
           LLMToolCall.Function :=
             {| types.FunctionCall.Name := "";
                types.FunctionCall.Arguments := "" |} |}
    end in
  let f := LLMToolCall.Function toolCallEntry in
  {| LLMToolCall.ID :=
       if nonEmpty (ToolCall.ID tc) then ToolCall.ID tc
       else LLMToolCall.ID toolCallEntry;
     LLMToolCall.Type_ :=
       if nonEmpty (ToolCall.Type_ tc) then ToolCall.Type_ tc
       else LLMToolCall.Type_ toolCallEntry;
     LLMToolCall.Function :=
       {| types.FunctionCall.Name :=
            if nonEmpty (FunctionCall.Name (ToolCall.Function tc))
            then types.FunctionCall.Name f
                 +:+ FunctionCall.Name (ToolCall.Function tc)
            else types.FunctionCall.Name f;
          types.FunctionCall.Arguments :=
            if nonEmpty (FunctionCall.Arguments (ToolCall.Function tc))
            then types.FunctionCall.Arguments f
                 +:+ FunctionCall.Arguments (ToolCall.Function tc)
            else types.FunctionCall.Arguments f |} |}.

(** The condition under which the fragment [tc] makes the worker send the
    tool-call notification. *)
Definition notifies (st : acc.t) (tc : ToolCall.t) : bool :=
  let toolCallEntry :=
    mergeToolCall (acc.toolCallMap st !! toolCallIndex tc) tc in
  let argsUpdated := nonEmpty (FunctionCall.Arguments (ToolCall.Function tc)) in
  let currName := types.FunctionCall.Name (LLMToolCall.Function toolCallEntry) in
  nonEmpty currName
  && String.eqb currName
       (default "" (acc.lastFunctionName st !! toolCallIndex tc))
  && argsUpdated
  && negb (default false (acc.nameNotified st !! toolCallIndex tc))
  && nonEmpty (LLMToolCall.ID toolCallEntry).

Definition toolCallEvent (toolCallEntry : LLMToolCall.t) : StreamResponse.t :=
  {| StreamResponse.ResponseType_ := ResponseTypeToolCall;
     StreamResponse.Content := "";
     StreamResponse.Done := false;
     StreamResponse.ToolCalls := [];
     StreamResponse.Data :=
       <[ "tool_call_id" := anyString (LLMToolCall.ID toolCallEntry) ]>
         (<[ "tool_name" :=
               anyString (types.FunctionCall.Name
                            (LLMToolCall.Function toolCallEntry)) ]> ∅) |}.

(** One iteration of the loop over [delta.ToolCalls]: the new maps and the
    events sent. *)
Definition processToolCall (st : acc.t) (tc : ToolCall.t)
  : acc.t * list StreamResponse.t :=
  let toolCallIndex := toolCallIndex tc in
  let toolCallEntry := mergeToolCall (acc.toolCallMap st !! toolCallIndex) tc in
  let currName := types.FunctionCall.Name (LLMToolCall.Function toolCallEntry) in
  let fire := notifies st tc in
  ({| acc.toolCallMap := <[ toolCallIndex := toolCallEntry ]> (acc.toolCallMap st);
      acc.lastFunctionName :=
        <[ toolCallIndex := currName ]> (acc.lastFunctionName st);
      acc.nameNotified :=
        if fire then <[ toolCallIndex := true ]> (acc.nameNotified st)
        else acc.nameNotified st |},
   if fire then [toolCallEvent toolCallEntry] else []).

Fixpoint processToolCalls (st : acc.t) (tcs : list ToolCall.t)
  : acc.t * list StreamResponse.t :=
  match tcs with
  | [] => (st, [])
  | tc :: tcs' =>
      let '(st1, ev1) := processToolCall st tc in
      let '(st2, ev2) := processToolCalls st1 tcs' in
      (st2, ev1 ++ ev2)
  end.

Definition answerEvent (content : string) (done : bool)
    (toolCallMap : gmap Z LLMToolCall.t) : StreamResponse.t :=
  {| StreamResponse.ResponseType_ := ResponseTypeAnswer;
     StreamResponse.Content := content;
     StreamResponse.Done := done;
     StreamResponse.ToolCalls := buildOrderedToolCalls toolCallMap;
     StreamResponse.Data := ∅ |}.

(** The body of the receive loop for a chunk that [Recv] returned. *)
Definition processResponse (st : acc.t) (response : ChatCompletionStreamResponse.t)
  : acc.t * list StreamResponse.t :=
  match ChatCompletionStreamResponse.Choices response with
  | [] => (st, [])
  | choice :: _ =>
      let delta := ChatCompletionStreamChoice.Delta choice in
      let isDone := nonEmpty (ChatCompletionStreamChoice.FinishReason choice) in
      let '(st1, ev1) :=
        processToolCalls st (ChatCompletionStreamChoiceDelta.ToolCalls delta) in
      let ev2 :=
        if nonEmpty (ChatCompletionStreamChoiceDelta.Content delta) then
          [answerEvent (ChatCompletionStreamChoiceDelta.Content delta) isDone
             (acc.toolCallMap st1)]
        else [] in
      let ev3 :=
        if isDone && (0 <? size (acc.toolCallMap st1))%nat then
          [answerEvent "" true (acc.toolCallMap st1)]
        else [] in
      (st1, ev1 ++ ev2 ++ ev3)
  end.

(** The receive loop: every chunk is processed in turn; when [Recv] fails
    the final response is sent and the worker returns. The error of [Recv]
    is not looked at. *)
Fixpoint recvLoop (st : acc.t) (chunks : list ChatCompletionStreamResponse.t)
    (recvErr : error) : list StreamResponse.t :=
  match chunks with
  | [] => [answerEvent "" true (acc.toolCallMap st)]
  | response :: rest =>
      let '(st', ev) := processResponse st response in
      ev ++ recvLoop st' rest recvErr
  end.

(** [ChatStream]: the error of a failed stream creation, or the events
    the worker sends before it closes the channel. *)
Definition ChatStream `{strings.CaseTables} (c : t) (w : World.t)
    (messages : list chat.Message.t) (opts : option chat.ChatOptions.t)
  : Traced (error + list StreamResponse.t) :=
  let* req := buildChatCompletionRequest c messages opts true in
  let* _ := emit (ClientCreateChatCompletionStream req) in
  match World.CreateChatCompletionStream w req with
  | inl err => ret (inl (ErrWrap "create chat completion stream" err))
  | inr stream =>
      ret (inr (recvLoop emptyAcc (ChatCompletionStream.chunks stream)
                  (ChatCompletionStream.recvErr stream)))
  end.

Definition GetModelName (c : t) : string := modelName c.
Definition GetModelID (c : t) : string := modelID c.

End RemoteAPIChat.

(** ** The local adapter (Ollama) *)

(** Go [int] arithmetic: the result of [+] and [-] wrapped into 64 bits. *)
Definition wrap64 (z : Z) : Z := ((z + 2 ^ 63) mod 2 ^ 64 - 2 ^ 63)%Z.

Module OllamaChat.

Import types ollamaapi.

(** The receiver. Its [ollamaService] field is the collaborator reached
    through [World.t] below. *)
Record t := mk { modelName : string; modelID : string }.

(** The [ollama.OllamaService] collaborator. [Chat] hands every response of
    the runtime to the callback, in order, and returns its error if any;
    the callbacks of this adapter always return [nil], so the runtime is
    never interrupted by them. *)
Module World.
Record t := mk {
  EnsureModelAvailable : string → option error;
  Chat : ChatRequest.t → list ChatResponse.t * option error
}.
End World.

Definition NewOllamaChat (config : chat.ChatConfig.t) : error + t :=
  inr {| modelName := chat.ChatConfig.ModelName config;
         modelID := chat.ChatConfig.ModelID config |}.

Definition convertMessages (c : t) (messages : list chat.Message.t)
  : list Message.t :=
  map (λ msg,
    {| Message.Role := chat.Message.Role msg;
       Message.Content := chat.Message.Content msg;
       Message.ToolCalls := [] |})
    messages.

Definition buildChatRequest (c : t) (messages : list chat.Message.t)
    (opts : option chat.ChatOptions.t) (isStream : bool) : ChatRequest.t :=
  let streamFlag := isStream in
  let options0 : gmap string any := ∅ in
  match opts with
  | Some o =>
      let options1 :=
        if float64_gt0 (chat.ChatOptions.Temperature o)
        then <[ "temperature" := anyFloat64 (chat.ChatOptions.Temperature o) ]> options0
        else options0 in
      let options2 :=
        if float64_gt0 (chat.ChatOptions.TopP o)
        then <[ "top_p" := anyFloat64 (chat.ChatOptions.TopP o) ]> options1
        else options1 in
      let options3 :=
        if (0 <? chat.ChatOptions.MaxTokens o)%Z
        then <[ "num_predict" := anyInt (chat.ChatOptions.MaxTokens o) ]> options2
        else options2 in
      {| ChatRequest.Model := modelName c;
         ChatRequest.Messages := convertMessages c messages;
         ChatRequest.Stream := Some streamFlag;
         ChatRequest.Options := options3;
         ChatRequest.Think :=
           match chat.ChatOptions.Thinking o with
           | Some b => Some {| ThinkValue.Value := b |}
           | None => None
           end;
         ChatRequest.Tools := [] |}
  | None =>
      {| ChatRequest.Model := modelName c;
         ChatRequest.Messages := convertMessages c messages;
         ChatRequest.Stream := Some streamFlag;
         ChatRequest.Options := options0;
         ChatRequest.Think := None;
         ChatRequest.Tools := [] |}
  end.

Definition ensureModelAvailable (c : t) (w : World.t) : Traced (option error) :=
  let* _ := emit (Log (logger.Infof "Ensuring model %s is available"
                         [modelName c])) in
  let* _ := emit (OllamaEnsureModelAvailable (modelName c)) in
  ret (World.EnsureModelAvailable w (modelName c)).

(** The callback of [Chat], on the variables it captures:
    [responseContent], [promptTokens], [completionTokens]. *)
Definition chatCallback (captured : string * Z * Z) (resp : ChatResponse.t)
  : string * Z * Z :=
  let '(_, promptTokens, completionTokens) := captured in
  let responseContent := Message.Content (ChatResponse.Message_ resp) in
  if (0 <? ChatResponse.EvalCount resp)%Z then
    let promptTokens := ChatResponse.PromptEvalCount resp in
    (responseContent, promptTokens,
     wrap64 (ChatResponse.EvalCount resp - promptTokens))
  else (responseContent, promptTokens, completionTokens).

Definition Chat (c : t) (w : World.t)
    (messages : list chat.Message.t) (opts : option chat.ChatOptions.t)
  : Traced (error + types.ChatResponse.t) :=
  let* unavailable := ensureModelAvailable c w in
  match unavailable with
  | Some err => ret (inl err)
  | None =>
      let chatReq := buildChatRequest c messages opts false in
      let* _ := emit (Log (logger.Infof "Sending chat request to model %s"
                             [modelName c])) in
      let* _ := emit (OllamaChat chatReq) in
      let '(responses, err) := World.Chat w chatReq in
      let '(responseContent, promptTokens, completionTokens) :=
        foldl chatCallback ("", 0%Z, 0%Z) responses in
      match err with
      | Some err => ret (inl (ErrWrap "chat request failed" err))
      | None =>
          ret (inr {| types.ChatResponse.Content := responseContent;
                      types.ChatResponse.FinishReason := "";
                      types.ChatResponse.Usage_ :=
                        {| Usage.PromptTokens := promptTokens;
                           Usage.CompletionTokens := completionTokens;
                           Usage.TotalTokens :=
                             wrap64 (promptTokens + completionTokens) |};
                      types.ChatResponse.ToolCalls := [] |})
      end
  end.

Definition answerEvent (content : string) (done : bool) : StreamResponse.t :=
  {| StreamResponse.ResponseType_ := ResponseTypeAnswer;
     StreamResponse.Content := content;
     StreamResponse.Done := done;
     StreamResponse.ToolCalls := [];
     StreamResponse.Data := ∅ |}.

(** The callback of [ChatStream]: the events it sends for one response. *)
Definition streamCallback (resp : ChatResponse.t) : list StreamResponse.t :=
  (if nonEmpty (Message.Content (ChatResponse.Message_ resp))
   then [answerEvent (Message.Content (ChatResponse.Message_ resp)) false]
   else [])
  ++ (if ChatResponse.Done resp then [answerEvent "" true] else []).

(** The worker goroutine of [ChatStream]: the events it sends. *)
Definition streamWorker (c : t) (w : World.t) (chatReq : ChatRequest.t)
  : Traced (list StreamResponse.t) :=
  let* _ := emit (OllamaChat chatReq) in
  let '(responses, err) := World.Chat w chatReq in
  let sent := concat (map streamCallback responses) in
  match err with
  | Some err =>
      let* _ := emit (Log (logger.Errorf "Streaming chat request failed: %v"
                             err)) in
      ret (sent ++ [answerEvent "" true])
  | None => ret sent
  end.

Definition ChatStream (c : t) (w : World.t)
    (messages : list chat.Message.t) (opts : option chat.ChatOptions.t)
  : Traced (error + list StreamResponse.t) :=
  let* unavailable := ensureModelAvailable c w in
  match unavailable with
  | Some err => ret (inl err)
  | None =>
      let chatReq := buildChatRequest c messages opts true in
      let* _ := emit (Log (logger.Infof
                             "Sending streaming chat request to model %s"
                             [modelName c])) in
      let* sent := streamWorker c w chatReq in
      ret (inr sent)
  end.

Definition GetModelName (c : t) : string := modelName c.
Definition GetModelID (c : t) : string := modelID c.

End OllamaChat.

(** ** The vocabulary of the specification

    Definitions that follow the words of the specification, to compare the
    adapters against. *)

Module Spec.

Import types openai.

(** The tool-call fragments of a stream in arrival order: those of the
    first choice of every chunk received. *)
Definition streamToolCalls (chunks : list ChatCompletionStreamResponse.t)
  : list ToolCall.t :=
  concat (map (λ response,
                 match ChatCompletionStreamResponse.Choices response with
                 | [] => []
                 | choice :: _ =>
                     ChatCompletionStreamChoiceDelta.ToolCalls
                       (ChatCompletionStreamChoice.Delta choice)
                 end) chunks).






Definition argumentsFragment (tc : ToolCall.t) : string :=
  FunctionCall.Arguments (ToolCall.Function tc).


(** The maps of the worker after it has processed [chunks]. *)
Definition accAfter (st : RemoteAPIChat.acc.t)
    (chunks : list ChatCompletionStreamResponse.t) : RemoteAPIChat.acc.t :=
  foldl (λ st response, (RemoteAPIChat.processResponse st response).1) st chunks.

(** The maps of the worker after it has processed the fragments [tcs]. *)
Definition accAfterFragments (st : RemoteAPIChat.acc.t) (tcs : list ToolCall.t)
  : RemoteAPIChat.acc.t :=
  (RemoteAPIChat.processToolCalls st tcs).1.

(** The notifications sent while the fragments [tcs] are processed, each
    paired with the index of the fragment that made the worker send it. *)
Fixpoint notifications (st : RemoteAPIChat.acc.t) (tcs : list ToolCall.t)
  : list (Z * StreamResponse.t) :=
  match tcs with
  | [] => []
  | tc :: tcs' =>
      map (pair (RemoteAPIChat.toolCallIndex tc))
          (RemoteAPIChat.processToolCall st tc).2
      ++ notifications (RemoteAPIChat.processToolCall st tc).1 tcs'
  end.

Definition isToolCallEvent (ev : StreamResponse.t) : bool :=
  match StreamResponse.ResponseType_ ev with
  | ResponseTypeToolCall => true
  | ResponseTypeAnswer => false
  end.

(** [nameNotified[i]] read the way Go reads a missing key. *)
Definition notified (st : RemoteAPIChat.acc.t) (i : Z) : bool :=
  default false (RemoteAPIChat.acc.nameNotified st !! i).

(** The events the worker sends while it processes [chunks], before
    [Recv] fails. *)
Fixpoint sentBeforeEnd (st : RemoteAPIChat.acc.t)
    (chunks : list ChatCompletionStreamResponse.t) : list StreamResponse.t :=
  match chunks with
  | [] => []
  | response :: rest =>
      (RemoteAPIChat.processResponse st response).2
      ++ sentBeforeEnd (RemoteAPIChat.processResponse st response).1 rest
  end.

Definition entryName (e : LLMToolCall.t) : string :=
  types.FunctionCall.Name (LLMToolCall.Function e).

(** The one-to-one translation of a tool call of the provider. *)
Definition translateToolCall (tc : ToolCall.t) : LLMToolCall.t :=
  {| LLMToolCall.ID := ToolCall.ID tc;
     LLMToolCall.Type_ := ToolCall.Type_ tc;
     LLMToolCall.Function :=
       {| types.FunctionCall.Name := FunctionCall.Name (ToolCall.Function tc);
          types.FunctionCall.Arguments :=
            FunctionCall.Arguments (ToolCall.Function tc) |} |}.

(** The HTTP request of the raw call for the body [jsonData]. *)
Definition qwenHTTPRequest (c : RemoteAPIChat.t) (jsonData : string)
  : http.Request.t :=
  {| http.Request.Method := "POST";
     http.Request.URL := RemoteAPIChat.baseURL c +:+ "/chat/completions";
     http.Request.Header :=
       <[ "Authorization" := "Bearer " +:+ RemoteAPIChat.apiKey c ]>
         (<[ "Content-Type" := "application/json" ]> ∅);
     http.Request.Body := jsonData |}.

Definition isLog (e : Effect) : bool :=
  match e with
  | Log _ => true
  | _ => false
  end.

(** The options [o] with other tools and another tool choice. *)
Definition withTools (o : chat.ChatOptions.t) (tools : list chat.Tool.t)
    (toolChoice : string) : chat.ChatOptions.t :=
  {| chat.ChatOptions.Temperature := chat.ChatOptions.Temperature o;
     chat.ChatOptions.TopP := chat.ChatOptions.TopP o;
     chat.ChatOptions.Seed := chat.ChatOptions.Seed o;
     chat.ChatOptions.MaxTokens := chat.ChatOptions.MaxTokens o;
     chat.ChatOptions.MaxCompletionTokens := chat.ChatOptions.MaxCompletionTokens o;
     chat.ChatOptions.FrequencyPenalty := chat.ChatOptions.FrequencyPenalty o;
     chat.ChatOptions.PresencePenalty := chat.ChatOptions.PresencePenalty o;
     chat.ChatOptions.Thinking := chat.ChatOptions.Thinking o;
     chat.ChatOptions.Tools := tools;
     chat.ChatOptions.ToolChoice := toolChoice |}.

(** The message [msg] with another name, tool-call id and tool calls. *)
Definition withToolFields (msg : chat.Message.t) (name toolCallID : string)
    (toolCalls : list chat.ToolCall.t) : chat.Message.t :=
  {| chat.Message.Role := chat.Message.Role msg;
     chat.Message.Content := chat.Message.Content msg;
     chat.Message.Name := name;
     chat.Message.ToolCallID := toolCallID;
     chat.Message.ToolCalls := toolCalls |}.

(** The requests handed to the local runtime. *)
Definition runtimeRequests (l : list Effect) : list ollamaapi.ChatRequest.t :=
  omap (λ e, match e with OllamaChat req => Some req | _ => None end) l.

(** An event that carries nothing about tools. *)
Definition plainAnswer (ev : StreamResponse.t) : Prop :=
  StreamResponse.ResponseType_ ev = ResponseTypeAnswer
  ∧ StreamResponse.ToolCalls ev = []
  ∧ StreamResponse.Data ev = ∅.


(** [lastFunctionName] holds the name of every entry of [toolCallMap]. *)
Definition namesRecorded (st : RemoteAPIChat.acc.t) : Prop :=
  ∀ i, RemoteAPIChat.acc.lastFunctionName st !! i
       = entryName <$> RemoteAPIChat.acc.toolCallMap st !! i.



End Spec.

(** ** Scenarios

    Concrete streams, adapters and collaborators the properties are
    evaluated on. *)

Module Scenario.

Import types openai.

Definition eof : error := ErrExternal "EOF".

Definition fragment (index : option Z) (id type_ name arguments : string)
  : ToolCall.t :=
  {| ToolCall.Index := index;
     ToolCall.ID := id;
     ToolCall.Type_ := type_;
     ToolCall.Function :=
       {| FunctionCall.Name := name; FunctionCall.Arguments := arguments |} |}.

(** A chunk with one choice. *)
Definition chunk (content : string) (toolCalls : list ToolCall.t)
    (finishReason : string) : ChatCompletionStreamResponse.t :=
  {| ChatCompletionStreamResponse.Choices :=
       [ {| ChatCompletionStreamChoice.Delta :=
              {| ChatCompletionStreamChoiceDelta.Content := content;
                 ChatCompletionStreamChoiceDelta.ToolCalls := toolCalls |};
            ChatCompletionStreamChoice.FinishReason := finishReason |} ] |}.

(** The stream of the example of the specification: a call of get_weather
    split over three fragments, then the chunk with the finish reason. *)
Definition weatherStream : list ChatCompletionStreamResponse.t :=
  [ chunk "" [fragment (Some 0%Z) "call_9" "function" "get_" ""] "";
    chunk "" [fragment (Some 0%Z) "" "" "weather" "{city:"] "";
    chunk "" [fragment (Some 0%Z) "" "" "" "NYC}"] "";
    chunk "" [] "tool_calls" ].

Definition weatherCall : LLMToolCall.t :=
  {| LLMToolCall.ID := "call_9";
     LLMToolCall.Type_ := "function";
     LLMToolCall.Function :=
       {| types.FunctionCall.Name := "get_weather";
          types.FunctionCall.Arguments := "{city:NYC}" |} |}.

(** A stream whose only tool call is numbered 1. *)
Definition sparseStream : list ChatCompletionStreamResponse.t :=
  [ chunk "" [fragment (Some 1%Z) "call_1" "function" "search" "{}"] "" ].

Definition searchCall : LLMToolCall.t :=
  {| LLMToolCall.ID := "call_1";
     LLMToolCall.Type_ := "function";
     LLMToolCall.Function :=
       {| types.FunctionCall.Name := "search";
          types.FunctionCall.Arguments := "{}" |} |}.

(** A stream cut by a transport error after some text. *)
Definition brokenStream : ChatCompletionStream.t :=
  {| ChatCompletionStream.chunks := [ chunk "partial" [] "" ];
     ChatCompletionStream.recvErr := ErrExternal "connection reset by peer" |}.

Definition remote (modelName baseURL : string) : RemoteAPIChat.t :=
  {| RemoteAPIChat.modelName := modelName;
     RemoteAPIChat.modelID := "model-1";
     RemoteAPIChat.baseURL := baseURL;
     RemoteAPIChat.apiKey := "sk-test" |}.

(** The scenarios lower-case ASCII strings only, so the case tables are not
    consulted; where a closed example needs some, these leave a string as
    it is. *)
Definition tables : strings.CaseTables := {| strings.mapToLower := λ s, s |}.

Definition gpt : RemoteAPIChat.t := remote "gpt-4o" "https://api.openai.com/v1".
Definition deepseek : RemoteAPIChat.t :=
  remote "DeepSeek-V3" "https://api.deepseek.com/v1".
Definition qwen : RemoteAPIChat.t :=
  remote "qwen3-max" "https://dashscope.aliyuncs.com/compatible-mode/v1".

(** A model name that spells the vendor with U+212A KELVIN SIGN (the bytes
    E2 84 AA in UTF-8) in place of its k, and case tables that lower-case
    this name as Go's do. *)
Definition kelvinSign : string :=
  String (Ascii.ascii_of_N 226)
    (String (Ascii.ascii_of_N 132) (String (Ascii.ascii_of_N 170) "")).

Definition kelvinName : string := "DeepSee" +:+ kelvinSign +:+ "-V3".

Definition kelvin : RemoteAPIChat.t :=
  remote kelvinName "https://api.deepseek.com/v1".

Definition kelvinTables : strings.CaseTables :=
  {| strings.mapToLower s :=
       if String.eqb s kelvinName then "deepseek-v3" else s |}.

Definition emptyResponse : ChatCompletionResponse.t :=
  {| ChatCompletionResponse.Choices := [];
     ChatCompletionResponse.Usage_ :=
       {| Usage.PromptTokens := 0; Usage.CompletionTokens := 0;
          Usage.TotalTokens := 0 |} |}.

(** Collaborators of the remote adapter that answer every call with the
    given stream, response or stream-creation error. *)
Definition remoteWorld (created : error + ChatCompletionStream.t)
    (resp : ChatCompletionResponse.t) : RemoteAPIChat.World.t :=
  {| RemoteAPIChat.World.CreateChatCompletion := λ _, inr resp;
     RemoteAPIChat.World.CreateChatCompletionStream := λ _, created;
     RemoteAPIChat.World.jsonMarshal := λ _, inr "{}";
     RemoteAPIChat.World.NewRequestWithContext := λ _ _ _, None;
     RemoteAPIChat.World.Do :=
       λ _, inr {| http.Response.StatusCode := 200; http.Response.Body := "{}" |};
     RemoteAPIChat.World.jsonDecode := λ _, inr resp |}.

(** One half and minus one half as [float64], and one half as [float32]. *)
Definition half : float64 := S754_finite false 4503599627370496 (-53).
Definition minusHalf : float64 := S754_finite true 4503599627370496 (-53).
Definition half32 : float32 := S754_finite false 8388608 (-24).

(** The smallest positive [float64]. *)
Definition tiny : float64 := S754_finite false 1 (-1074).

Definition options (temperature frequencyPenalty : float64) (maxTokens : Z)
    (thinking : option bool) (toolChoice : string) : chat.ChatOptions.t :=
  {| chat.ChatOptions.Temperature := temperature;
     chat.ChatOptions.TopP := float64_zero;
     chat.ChatOptions.Seed := 0;
     chat.ChatOptions.MaxTokens := maxTokens;
     chat.ChatOptions.MaxCompletionTokens := 0;
     chat.ChatOptions.FrequencyPenalty := frequencyPenalty;
     chat.ChatOptions.PresencePenalty := float64_zero;
     chat.ChatOptions.Thinking := thinking;
     chat.ChatOptions.Tools := [];
     chat.ChatOptions.ToolChoice := toolChoice |}.

(** Options that ask for a negative frequency penalty and for the token
    limit -1. *)
Definition negativeOptions : chat.ChatOptions.t :=
  options half minusHalf (-1) None "".

(** A response with one choice that calls a tool. *)
Definition toolCallResponse : ChatCompletionResponse.t :=
  {| ChatCompletionResponse.Choices :=
       [ {| ChatCompletionChoice.Message :=
              {| ChatCompletionMessage.Role := "assistant";
                 ChatCompletionMessage.Content := "";
                 ChatCompletionMessage.Name := "";
                 ChatCompletionMessage.ToolCalls :=
                   [fragment (Some 0%Z) "call_1" "function" "search" "{}"];
                 ChatCompletionMessage.ToolCallID := "" |};
            ChatCompletionChoice.FinishReason := "tool_calls" |} ];
     ChatCompletionResponse.Usage_ :=
       {| Usage.PromptTokens := 7; Usage.CompletionTokens := 5;
          Usage.TotalTokens := 12 |} |}.

Definition local : OllamaChat.t :=
  {| OllamaChat.modelName := "llama3"; OllamaChat.modelID := "model-2" |}.

Definition localResponse (content : string) (done : bool)
  : ollamaapi.ChatResponse.t :=
  {| ollamaapi.ChatResponse.Message_ :=
       {| ollamaapi.Message.Role := "assistant";
          ollamaapi.Message.Content := content;
          ollamaapi.Message.ToolCalls := [] |};
     ollamaapi.ChatResponse.Done := done;
     ollamaapi.ChatResponse.PromptEvalCount := 0;
     ollamaapi.ChatResponse.EvalCount := 0 |}.

(** A runtime that answers every call the same way. *)
Definition localWorld (unavailable : option error)
    (responses : list ollamaapi.ChatResponse.t) (err : option error)
  : OllamaChat.World.t :=
  {| OllamaChat.World.EnsureModelAvailable := λ _, unavailable;
     OllamaChat.World.Chat := λ _, (responses, err) |}.

End Scenario.

(** ** The backend selector ([chat.go]) *)

Module Selector.

(** The value behind the [Chat] interface: one of the two adapters. *)
Inductive Chat :=
| ChatOllama (c : OllamaChat.t)
| ChatRemote (c : RemoteAPIChat.t).

(** Modelled from the spec: the constants [types.ModelSourceLocal] and
    [types.ModelSourceRemote] are declared outside the files at hand; the
    specification names the two sources local and remote. *)
Definition ModelSourceLocal : string := "local".
Definition ModelSourceRemote : string := "remote".

(** [NewChat]. [ollamaService] tells whether the dependency container can
    provide the Ollama service: [Invoke] runs the function it is given only
    then, and what [Invoke] returns is not looked at. The result is the
    error, or the interface value, which is [nil] ([None]) when the function
    was not run. *)
Definition NewChat `{strings.CaseTables} (ollamaService : bool)
    (config : chat.ChatConfig.t)
  : error + option Chat :=
  let source := strings.ToLower (chat.ChatConfig.Source config) in
  if String.eqb source ModelSourceLocal then
    let invoked : option (error + OllamaChat.t) :=
      if ollamaService then Some (OllamaChat.NewOllamaChat config) else None in
    match invoked with
    | Some (inl err) => inl err
    | Some (inr c) => inr (Some (ChatOllama c))
    | None => inr None
    end
  else if String.eqb source ModelSourceRemote then
    match RemoteAPIChat.NewRemoteAPIChat config with
    | inl err => inl err
    | inr c => inr (Some (ChatRemote c))
    end
  else
    inl (ErrMsg ("unsupported chat model source: "
                 +:+ chat.ChatConfig.Source config)).

End Selector.

(** ** More vocabulary for the chat adapters *)

Module ChatTerms.

Import types openai.

(** What of a message the remote wire format keeps: the name and the
    tool-call id only count for the role tool. *)
Definition wireView (msg : chat.Message.t) : chat.Message.t :=
  let isTool := String.eqb (chat.Message.Role msg) "tool" in
  {| chat.Message.Role := chat.Message.Role msg;
     chat.Message.Content := chat.Message.Content msg;
     chat.Message.Name := if isTool then chat.Message.Name msg else "";
     chat.Message.ToolCallID :=
       if isTool then chat.Message.ToolCallID msg else "";
     chat.Message.ToolCalls := chat.Message.ToolCalls msg |}.

(** The request [req] with another stream flag. *)
Definition withStream (isStream : bool) (req : ChatCompletionRequest.t)
  : ChatCompletionRequest.t :=
  {| ChatCompletionRequest.Model := ChatCompletionRequest.Model req;
     ChatCompletionRequest.Messages := ChatCompletionRequest.Messages req;
     ChatCompletionRequest.Stream := isStream;
     ChatCompletionRequest.Temperature := ChatCompletionRequest.Temperature req;
     ChatCompletionRequest.TopP := ChatCompletionRequest.TopP req;
     ChatCompletionRequest.MaxTokens := ChatCompletionRequest.MaxTokens req;
     ChatCompletionRequest.MaxCompletionTokens :=
       ChatCompletionRequest.MaxCompletionTokens req;
     ChatCompletionRequest.FrequencyPenalty :=
       ChatCompletionRequest.FrequencyPenalty req;
     ChatCompletionRequest.PresencePenalty :=
       ChatCompletionRequest.PresencePenalty req;
     ChatCompletionRequest.Tools := ChatCompletionRequest.Tools req;
     ChatCompletionRequest.ToolChoice := ChatCompletionRequest.ToolChoice req;
     ChatCompletionRequest.ChatTemplateKwargs :=
       ChatCompletionRequest.ChatTemplateKwargs req |}.

(** The calls to collaborators among the effects, in order. *)
Definition outbound (l : list Effect) : list Effect :=
  filter (λ e, Spec.isLog e = false) l.

(** The text of a chunk: the content of the delta of its first choice. *)
Definition deltaContent (response : ChatCompletionStreamResponse.t) : string :=
  match ChatCompletionStreamResponse.Choices response with
  | [] => ""
  | choice :: _ =>
      ChatCompletionStreamChoiceDelta.Content
        (ChatCompletionStreamChoice.Delta choice)
  end.

(** The non-empty pieces of text of a list, in order. *)
Definition pieces (l : list string) : list string :=
  filter (λ s, nonEmpty s = true) l.

Definition hasChoices (response : ChatCompletionStreamResponse.t) : bool :=
  match ChatCompletionStreamResponse.Choices response with
  | [] => false
  | _ :: _ => true
  end.

(** The chunk with its first choice only. *)
Definition firstChoiceOnly (response : ChatCompletionStreamResponse.t)
  : ChatCompletionStreamResponse.t :=
  {| ChatCompletionStreamResponse.Choices :=
       take 1 (ChatCompletionStreamResponse.Choices response) |}.

(** The indices in use are the first ones, with no gap. *)
Definition dense (m : gmap Z LLMToolCall.t) : Prop :=
  ∀ i, is_Some (m !! i) → (0 ≤ i < Z.of_nat (size m))%Z.

(** The values of a Go [int]. *)
Definition inInt64 (z : Z) : Prop := (- 2 ^ 63 ≤ z < 2 ^ 63)%Z.

(** The last response of the runtime that reports a positive eval count. *)
Definition lastCounted (responses : list ollamaapi.ChatResponse.t)
  : option ollamaapi.ChatResponse.t :=
  last (filter (λ resp, (0 < ollamaapi.ChatResponse.EvalCount resp)%Z) responses).

Definition responseContent (resp : ollamaapi.ChatResponse.t) : string :=
  ollamaapi.Message.Content (ollamaapi.ChatResponse.Message_ resp).

End ChatTerms.

(** The one-to-one translation of a tool definition and of a tool call of a
    message into the wire types. *)
Module WireTerms.

Import openai.

Definition translateTool (tool : chat.Tool.t) : Tool.t :=
  {| Tool.Type_ := chat.Tool.Type_ tool;
     Tool.Function :=
       {| FunctionDefinition.Name :=
            chat.FunctionDef.Name (chat.Tool.Function tool);
          FunctionDefinition.Description :=
            chat.FunctionDef.Description (chat.Tool.Function tool);
          FunctionDefinition.Parameters :=
            chat.FunctionDef.Parameters (chat.Tool.Function tool) |} |}.

Definition translateMessageToolCall (tc : chat.ToolCall.t) : ToolCall.t :=
  {| ToolCall.Index := None;
     ToolCall.ID := chat.ToolCall.ID tc;
     ToolCall.Type_ := chat.ToolCall.Type_ tc;
     ToolCall.Function :=
       {| FunctionCall.Name :=
            chat.FunctionCall.Name (chat.ToolCall.Function tc);
          FunctionCall.Arguments :=
            chat.FunctionCall.Arguments (chat.ToolCall.Function tc) |} |}.

End WireTerms.

(** More scenarios. *)
Module MoreScenario.

Import types openai Scenario.

(** The accumulated calls of a stream that used the indices 0 and 1. *)
Definition twoCalls : gmap Z LLMToolCall.t :=
  <[ 1%Z := searchCall ]> {[ 0%Z := weatherCall ]}.

Definition countedResponse (content : string) (promptEvalCount evalCount : Z)
  : ollamaapi.ChatResponse.t :=
  {| ollamaapi.ChatResponse.Message_ :=
       {| ollamaapi.Message.Role := "assistant";
          ollamaapi.Message.Content := content;
          ollamaapi.Message.ToolCalls := [] |};
     ollamaapi.ChatResponse.Done := true;
     ollamaapi.ChatResponse.PromptEvalCount := promptEvalCount;
     ollamaapi.ChatResponse.EvalCount := evalCount |}.

Definition config (source : string) : chat.ChatConfig.t :=
  {| chat.ChatConfig.Source := source;
     chat.ChatConfig.BaseURL := "https://api.openai.com/v1";
     chat.ChatConfig.ModelName := "gpt-4o";
     chat.ChatConfig.APIKey := "sk-test";
     chat.ChatConfig.ModelID := "model-1" |}.

End MoreScenario.

(** ** Chunk flags ([types/chunk.go]) *)

Module ChunkFlags.

(** [ChunkFlags] is a Go [int]. The bitwise operators act on the two's
    complement bits of a [Z] as they do on those of an [int], and their
    results stay in the range of the type, so nothing wraps. *)
Definition t := Z.

Definition ChunkFlagRecommended : t := Z.shiftl 1 0.

Definition HasFlag (f flag : t) : bool := negb (Z.land f flag =? 0)%Z.

Definition SetFlag (f flag : t) : t := Z.lor f flag.

(** [f &^ flag] *)
Definition ClearFlag (f flag : t) : t := Z.land f (Z.lnot flag).

Definition ToggleFlag (f flag : t) : t := Z.lxor f flag.

End ChunkFlags.

(** ** FAQ metadata ([types/faq.go]) *)

Module faq.

Module FAQChunkMetadata.
Record t := mk {
  StandardQuestion : string;
  SimilarQuestions : list string;
  NegativeQuestions : list string;
  Answers : list string;
  AnswerStrategy : string;
  Version : Z;
  Source : string
}.
End FAQChunkMetadata.

(** The two fields of a [Chunk] that the FAQ setters write. [Metadata] is
    the JSON text, [None] for [nil]. *)
Module Chunk.
Record t := mk { Metadata : option string; ContentHash : string }.
End Chunk.

(** [strings.Join] *)
Fixpoint Join (elems : list string) (sep : string) : string :=
  match elems with
  | [] => ""
  | [x] => x
  | x :: rest => x +:+ sep +:+ Join rest sep
  end.

(** [sort.Strings]: the strings in increasing byte-wise order. *)
Definition sortStrings (l : list string) : list string :=
  merge_sort String.le l.

Section Library.

(** [strings.TrimSpace], the hex encoding of [sha256.Sum256], and
    [json.Marshal] of the metadata, of the Go library. *)
Variable TrimSpace : string → string.
Variable sha256hex : string → string.
Variable jsonMarshal : FAQChunkMetadata.t → error + string.

(** One iteration of the loop of [normalizeStrings], on the slice [dedup]
    and the set [seen]. *)
Definition normalizeStep (state : list string * gset string) (v : string)
  : list string * gset string :=
  let '(dedup, seen) := state in
  let trimmed := TrimSpace v in
  if String.eqb trimmed "" then (dedup, seen)
  else if decide (trimmed ∈ seen) then (dedup, seen)
  else (dedup ++ [trimmed], {[ trimmed ]} ∪ seen).

Definition normalizeStrings (values : list string) : list string :=
  if (length values =? 0)%nat then []
  else
    let dedup := (foldl normalizeStep ([], ∅) values).1 in
    if (length dedup =? 0)%nat then [] else dedup.

(** [Normalize], on a receiver that is not [nil]. *)
Definition Normalize (m : FAQChunkMetadata.t) : FAQChunkMetadata.t :=
  {| FAQChunkMetadata.StandardQuestion :=
       TrimSpace (FAQChunkMetadata.StandardQuestion m);
     FAQChunkMetadata.SimilarQuestions :=
       normalizeStrings (FAQChunkMetadata.SimilarQuestions m);
     FAQChunkMetadata.NegativeQuestions :=
       normalizeStrings (FAQChunkMetadata.NegativeQuestions m);
     FAQChunkMetadata.Answers := normalizeStrings (FAQChunkMetadata.Answers m);
     FAQChunkMetadata.AnswerStrategy := FAQChunkMetadata.AnswerStrategy m;
     FAQChunkMetadata.Version :=
       if (FAQChunkMetadata.Version m <=? 0)%Z then 1%Z
       else FAQChunkMetadata.Version m;
     FAQChunkMetadata.Source := FAQChunkMetadata.Source m |}.

(** The text that [CalculateFAQContentHash] hashes. *)
Definition hashInput (meta : FAQChunkMetadata.t) : string :=
  let normalized := Normalize meta in
  let similarQuestions :=
    sortStrings (FAQChunkMetadata.SimilarQuestions normalized) in
  let negativeQuestions :=
    sortStrings (FAQChunkMetadata.NegativeQuestions normalized) in
  let answers := sortStrings (FAQChunkMetadata.Answers normalized) in
  FAQChunkMetadata.StandardQuestion normalized
  +:+ "|" +:+ Join similarQuestions ","
  +:+ "|" +:+ Join negativeQuestions ","
  +:+ "|" +:+ Join answers ",".

Definition CalculateFAQContentHash (meta : option FAQChunkMetadata.t) : string :=
  match meta with
  | None => ""
  | Some meta => sha256hex (hashInput meta)
  end.

(** [SetFAQMetadata] on a chunk that is not [nil]: the chunk and the
    metadata of the caller, which is normalized in place, after the call,
    and the error. *)
Definition SetFAQMetadata (c : Chunk.t) (meta : option FAQChunkMetadata.t)
  : Chunk.t * option FAQChunkMetadata.t * option error :=
  match meta with
  | None => ({| Chunk.Metadata := None; Chunk.ContentHash := "" |}, None, None)
  | Some meta =>
      let meta := Normalize meta in
      match jsonMarshal meta with
      | inl err => (c, Some meta, Some err)
      | inr bytes =>
          ({| Chunk.Metadata := Some bytes;
              Chunk.ContentHash := CalculateFAQContentHash (Some meta) |},
           Some meta, None)
      end
  end.

End Library.

Section Parsing.

Variable TrimSpace : string → string.
(** [json.Unmarshal] into a [FAQChunkMetadata]. *)
Variable jsonUnmarshal : string → error + FAQChunkMetadata.t.

(** [FAQMetadata] on a chunk that is not [nil]. *)
Definition FAQMetadata (c : Chunk.t)
  : option FAQChunkMetadata.t * option error :=
  match Chunk.Metadata c with
  | None => (None, None)
  | Some bytes =>
      if (String.length bytes =? 0)%nat then (None, None)
      else
        match jsonUnmarshal bytes with
        | inl err => (None, Some err)
        | inr meta => (Some (Normalize TrimSpace meta), None)
        end
  end.

End Parsing.

(** [strings.TrimSpace] as it works on a string within ASCII: it trims the
    ASCII white space (tab, line feed, vertical tab, form feed, carriage
    return, space). Go also trims the other Unicode white space, so this
    function only stands in for the library in the examples, whose strings
    are ASCII; the theorems hold for every [TrimSpace]. *)
Definition isSpace (c : Ascii.ascii) : bool :=
  let n := Ascii.N_of_ascii c in
  ((9 <=? n) && (n <=? 13) || (n =? 32))%N.

Fixpoint trimLeft (s : string) : string :=
  match s with
  | String c s' => if isSpace c then trimLeft s' else s
  | EmptyString => EmptyString
  end.

Fixpoint trimRight (s : string) : string :=
  match s with
  | String c s' =>
      match trimRight s' with
      | EmptyString => if isSpace c then EmptyString else String c EmptyString
      | rest => String c rest
      end
  | EmptyString => EmptyString
  end.

Definition TrimSpace (s : string) : string := trimRight (trimLeft s).

End faq.

(** Vocabulary and scenarios for the FAQ metadata. *)
Module faqTerms.

Import faq.

(** The elements of a list without repetition, each at its first
    occurrence. *)
Fixpoint firstOccurrences (l : list string) : list string :=
  match l with
  | [] => []
  | x :: l' => x :: filter (λ y, y ≠ x) (firstOccurrences l')
  end.

Definition metadata (question : string) (similar answers : list string)
    (strategy : string) (version : Z) (source : string) : FAQChunkMetadata.t :=
  {| FAQChunkMetadata.StandardQuestion := question;
     FAQChunkMetadata.SimilarQuestions := similar;
     FAQChunkMetadata.NegativeQuestions := [];
     FAQChunkMetadata.Answers := answers;
     FAQChunkMetadata.AnswerStrategy := strategy;
     FAQChunkMetadata.Version := version;
     FAQChunkMetadata.Source := source |}.

(** Two entries with the same content written differently. *)
Definition entryA : FAQChunkMetadata.t :=
  metadata " How to reset? " ["reset"; " password "; "reset"] ["Click reset."]
    "all" 0 "import".

Definition entryB : FAQChunkMetadata.t :=
  metadata "How to reset?" ["password"; "reset"] ["Click reset."; ""]
    "random" 3 "manual".

(** Stand-ins for the hash and the JSON encoding in examples. *)
Definition sampleHash (s : string) : string := "sha256:" +:+ s.
Definition sampleMarshal (m : FAQChunkMetadata.t) : error + string :=
  inr (FAQChunkMetadata.StandardQuestion m).
Definition sampleUnmarshal (bytes : string) : error + FAQChunkMetadata.t :=
  if String.eqb bytes "How to reset?"
  then inr (metadata "How to reset?" ["password"; "reset"] ["Click reset."]
              "random" 3 "manual")
  else inl (ErrMsg "invalid character").

End faqTerms.

(** ** The authentication middleware ([middleware.Auth]) *)

Module middleware.

(** The fields of [types.User] and [types.Tenant] that the middleware
    reads, and of [config.Config] the tenant section. *)
Module User.
Record t := mk { ID : string; TenantID : Z; CanAccessAllTenants : bool }.
End User.

Module Tenant.
Record t := mk { APIKey : string }.
End Tenant.

Module TenantConfig.
Record t := mk {
  DefaultSessionName : string;
  DefaultSessionTitle : string;
  DefaultSessionDescription : string;
  EnableCrossTenantAccess : bool
}.
End TenantConfig.

Module Config.
Record t := mk { Tenant : option TenantConfig.t }.
End Config.

(** [strings.HasSuffix], [strings.TrimSuffix], [strings.TrimPrefix] and
    [slices.Contains]. *)
Definition HasSuffix (s suffix : string) : bool :=
  (String.length suffix <=? String.length s)%nat
  && String.eqb
       (String.substring (String.length s - String.length suffix)
          (String.length suffix) s)
       suffix.

Definition TrimSuffix (s suffix : string) : string :=
  if HasSuffix s suffix
  then String.substring 0 (String.length s - String.length suffix) s
  else s.

Definition TrimPrefix (s prefix : string) : string :=
  if strings.HasPrefix s prefix
  then String.substring (String.length prefix)
         (String.length s - String.length prefix) s
  else s.

Definition slicesContains (l : list string) (v : string) : bool :=
  existsb (String.eqb v) l.

(** [strconv.ParseUint(s, 10, 64)]: [None] stands for an error, which is
    a syntax error on the empty string and on a character that is not a
    decimal digit, and a range error from 2^64 on. *)
Definition digit (c : Ascii.ascii) : option Z :=
  let n := Z.of_N (Ascii.N_of_ascii c) in
  if ((48 <=? n) && (n <=? 57))%Z then Some (n - 48)%Z else None.

Fixpoint parseDigits (acc : Z) (s : string) : option Z :=
  match s with
  | EmptyString => Some acc
  | String c s' =>
      match digit c with
      | Some d => parseDigits (10 * acc + d)%Z s'
      | None => None
      end
  end.

Definition ParseUint (s : string) : option Z :=
  if String.eqb s "" then None
  else
    match parseDigits 0 s with
    | Some n => if (n <? 2 ^ 64)%Z then Some n else None
    | None => None
    end.

(** [noAuthAPI]. The map is read by iteration only, so it is kept as the
    list of its entries. *)
Definition noAuthAPI : list (string * list string) :=
  [ ("/health", ["GET"]);
    ("/api/v1/auth/register", ["POST"]);
    ("/api/v1/auth/login", ["POST"]);
    ("/api/v1/auth/refresh", ["POST"]) ].

(** [isNoAuthAPI]: the loop returns [true] at the first entry that matches,
    in whatever order the map is iterated. *)
Definition isNoAuthAPI (path method : string) : bool :=
  existsb
    (λ '(api, methods),
       if HasSuffix api "*"
       then strings.HasPrefix path (TrimSuffix api "*")
            && slicesContains methods method
       else String.eqb path api && slicesContains methods method)
    noAuthAPI.

(** [canAccessTenant] *)
Definition canAccessTenant (user : User.t) (targetTenantID : Z)
    (cfg : option Config.t) : bool :=
  match cfg with
  | None => false
  | Some cfg =>
      match Config.Tenant cfg with
      | None => false
      | Some tenant =>
          if negb (TenantConfig.EnableCrossTenantAccess tenant) then false
          else if negb (User.CanAccessAllTenants user) then false
          else if (User.TenantID user =? targetTenantID)%Z then true
          else true
      end
  end.

(** The request as the middleware reads it: method, path and headers.
    [GetHeader] gives the empty string for a header that is absent. *)
Module Request.
Record t := mk { Method : string; Path : string; Header : gmap string string }.
End Request.

Definition GetHeader (r : Request.t) (key : string) : string :=
  default "" (Request.Header r !! key).

(** The two services, as functions of their arguments for the time of one
    request. A result is the value, [None] for [nil], and the error. *)
Module Services.
Record t := mk {
  ValidateToken : string → option User.t * option error;
  GetTenantByID : Z → option Tenant.t * option error;
  ExtractTenantIDFromAPIKey : string → Z * option error
}.
End Services.

(** What the middleware stores in the context (with [c.Set] and in the
    request context alike) before it calls [c.Next]: nothing, or the tenant
    id, the tenant, which can be [nil], and on the token path the user. *)
Module Stored.
Record t := mk {
  TenantID : Z;
  TenantInfo : option Tenant.t;
  User : option User.t
}.
End Stored.

(** How the middleware leaves the request: [c.Next()] with what was stored,
    or [c.JSON(status, gin.H{"error": message})] and [c.Abort()]. *)
Inductive Outcome :=
| Next (stored : option Stored.t)
| Abort (status : Z) (message : string).

(** A call of [log.Printf]: the format and its arguments. *)
Inductive LogArg :=
| ArgString (s : string)
| ArgUint (n : Z)
| ArgError (err : option error).

Definition LogLine : Type := string * list LogArg.

Definition StatusBadRequest : Z := 400.
Definition StatusUnauthorized : Z := 401.
Definition StatusForbidden : Z := 403.

(** The X-API-Key part of [Auth], reached when the token part did not
    settle the request. *)
Definition authAPIKey (svc : Services.t) (r : Request.t)
  : list LogLine * Outcome :=
  let apiKey := GetHeader r "X-API-Key" in
  if nonEmpty apiKey then
    let '(tenantID, err) := Services.ExtractTenantIDFromAPIKey svc apiKey in
    match err with
    | Some _ => ([], Abort StatusUnauthorized "Unauthorized: invalid API key format")
    | None =>
        let '(t, err) := Services.GetTenantByID svc tenantID in
        match err with
        | Some e =>
            ([("Error getting tenant by ID: %v, tenantID: %d",
               [ArgError (Some e); ArgUint tenantID])],
             Abort StatusUnauthorized "Unauthorized: invalid API key")
        | None =>
            match t with
            | None => ([], Abort StatusUnauthorized "Unauthorized: invalid API key")
            | Some tenant =>
                if negb (String.eqb (Tenant.APIKey tenant) apiKey)
                then ([], Abort StatusUnauthorized "Unauthorized: invalid API key")
                else ([], Next (Some {| Stored.TenantID := tenantID;
                                        Stored.TenantInfo := Some tenant;
                                        Stored.User := None |}))
            end
        end
    end
  else ([], Abort StatusUnauthorized "Unauthorized: missing authentication").

(** The end of the token part of [Auth], with the target tenant chosen. *)
Definition authWithTenant (svc : Services.t) (user : User.t)
    (targetTenantID : Z) (logs : list LogLine) : list LogLine * Outcome :=
  let '(tenant, err) := Services.GetTenantByID svc targetTenantID in
  match err with
  | Some e =>
      (logs ++ [("Error getting tenant by ID: %v, tenantID: %d, userID: %s",
                 [ArgError (Some e); ArgUint targetTenantID;
                  ArgString (User.ID user)])],
       Abort StatusUnauthorized "Unauthorized: invalid tenant")
  | None =>
      (logs, Next (Some {| Stored.TenantID := targetTenantID;
                           Stored.TenantInfo := tenant;
                           Stored.User := Some user |}))
  end.

(** The token part of [Auth] for a validated user. *)
Definition authUser (svc : Services.t) (cfg : option Config.t)
    (r : Request.t) (user : User.t) : list LogLine * Outcome :=
  let tenantHeader := GetHeader r "X-Tenant-ID" in
  if nonEmpty tenantHeader then
    match ParseUint tenantHeader with
    | Some parsedTenantID =>
        if canAccessTenant user parsedTenantID cfg then
          let '(targetTenant, err) := Services.GetTenantByID svc parsedTenantID in
          match err, targetTenant with
          | None, Some _ =>
              authWithTenant svc user parsedTenantID
                [("User %s switching to tenant %d",
                  [ArgString (User.ID user); ArgUint parsedTenantID])]
          | _, _ =>
              ([("Error getting target tenant by ID: %v, tenantID: %d",
                 [ArgError err; ArgUint parsedTenantID])],
               Abort StatusBadRequest "Invalid target tenant ID")
          end
        else
          ([("User %s attempted to access tenant %d without permission",
             [ArgString (User.ID user); ArgUint parsedTenantID])],
           Abort StatusForbidden
             "Forbidden: insufficient permissions to access target tenant")
    | None => authWithTenant svc user (User.TenantID user) []
    end
  else authWithTenant svc user (User.TenantID user) [].

(** The handler that [Auth] returns, on one request. *)
Definition Auth (svc : Services.t) (cfg : option Config.t) (r : Request.t)
  : list LogLine * Outcome :=
  if String.eqb (Request.Method r) "OPTIONS" then ([], Next None)
  else if isNoAuthAPI (Request.Path r) (Request.Method r) then ([], Next None)
  else
    let authHeader := GetHeader r "Authorization" in
    let validated : option User.t :=
      if nonEmpty authHeader && strings.HasPrefix authHeader "Bearer " then
        let token := TrimPrefix authHeader "Bearer " in
        match Services.ValidateToken svc token with
        | (Some user, None) => Some user
        | _ => None
        end
      else None in
    match validated with
    | Some user => authUser svc cfg r user
    | None => authAPIKey svc r
    end.

End middleware.

(** Scenarios for the middleware. *)
Module AuthScenario.

Import middleware.

Definition alice : User.t :=
  {| User.ID := "alice"; User.TenantID := 7; User.CanAccessAllTenants := false |}.
Definition root : User.t :=
  {| User.ID := "root"; User.TenantID := 1; User.CanAccessAllTenants := true |}.

Definition tenantOf (id : Z) : Tenant.t :=
  {| Tenant.APIKey := if (id =? 7)%Z then "sk-seven" else "sk-other" |}.

(** Tenants 1 to 9 exist; the token names the user; the key of tenant 7
    is [sk-seven]. *)
Definition services : Services.t :=
  {| Services.ValidateToken token :=
       if String.eqb token "alice-token" then (Some alice, None)
       else if String.eqb token "root-token" then (Some root, None)
       else (None, Some (ErrMsg "invalid token"));
     Services.GetTenantByID id :=
       if ((1 <=? id) && (id <=? 9))%Z then (Some (tenantOf id), None)
       else (None, Some (ErrMsg "record not found"));
     Services.ExtractTenantIDFromAPIKey key :=
       if String.eqb key "sk-seven" then (7%Z, None)
       else (0%Z, Some (ErrMsg "invalid API key format")) |}.

Definition crossTenant (enabled : bool) : option Config.t :=
  Some {| Config.Tenant :=
            Some {| TenantConfig.DefaultSessionName := "";
                    TenantConfig.DefaultSessionTitle := "";
                    TenantConfig.DefaultSessionDescription := "";
                    TenantConfig.EnableCrossTenantAccess := enabled |} |}.

Definition request (method path : string) (headers : list (string * string))
  : Request.t :=
  {| Request.Method := method; Request.Path := path;
     Request.Header := list_to_map headers |}.

(** The administrator asks for tenant 5; a user names their own tenant; a
    stale token comes with a good API key. *)
Definition switchRequest : Request.t :=
  request "GET" "/api/v1/sessions"
    [("Authorization", "Bearer root-token"); ("X-Tenant-ID", "5")].

Definition ownTenantRequest : Request.t :=
  request "GET" "/api/v1/sessions"
    [("Authorization", "Bearer alice-token"); ("X-Tenant-ID", "7")].

Definition staleTokenRequest : Request.t :=
  request "POST" "/api/v1/chat"
    [("Authorization", "Bearer stale"); ("X-API-Key", "sk-seven")].

End AuthScenario.

(** ** The event bus ([event.go]) *)

Module event.

Module Event.
Record t := mk {
  ID : string;
  Type_ : string;
  SessionID : string;
  Data : option any;
  Metadata : gmap string any;
  RequestID : string
}.
End Event.

(** An [EventHandler] is a Go closure: it acts on the state [S] of the
    program around it, and returns an error or [nil]. *)
Definition EventHandler (S : Type) : Type := Event.t → S → S * option error.

(** [EventBus]. Every method holds the lock while it reads or writes
    [handlers], so each is one step on the value. *)
Record EventBus (S : Type) := mkEventBus {
  handlers : gmap string (list (EventHandler S));
  asyncMode : bool
}.
Arguments mkEventBus {S}.
Arguments handlers {S}.
Arguments asyncMode {S}.

Definition NewEventBus {S} : EventBus S :=
  {| handlers := ∅; asyncMode := false |}.

Definition NewAsyncEventBus {S} : EventBus S :=
  {| handlers := ∅; asyncMode := true |}.

(** [On]: [append] to the slice of the type, which is empty when the type
    has no entry. *)
Definition On {S} (eb : EventBus S) (eventType : string)
    (handler : EventHandler S) : EventBus S :=
  {| handlers :=
       <[eventType := default [] (handlers eb !! eventType) ++ [handler]]>
         (handlers eb);
     asyncMode := asyncMode eb |}.

Definition Off {S} (eb : EventBus S) (eventType : string) : EventBus S :=
  {| handlers := delete eventType (handlers eb); asyncMode := asyncMode eb |}.

Definition HasHandlers {S} (eb : EventBus S) (eventType : string) : bool :=
  match handlers eb !! eventType with
  | Some hs => (0 <? Z.of_nat (length hs))%Z
  | None => false
  end.

Definition GetHandlerCount {S} (eb : EventBus S) (eventType : string) : Z :=
  match handlers eb !! eventType with
  | Some hs => Z.of_nat (length hs)
  | None => 0
  end.

Definition Clear {S} (eb : EventBus S) : EventBus S :=
  {| handlers := ∅; asyncMode := asyncMode eb |}.

(** The event that the handlers receive: [uuid] is the identifier that
    [uuid.New().String()] gives, used when the event has none. *)
Definition withID (uuid : string) (ev : Event.t) : Event.t :=
  if String.eqb (Event.ID ev) "" then
    {| Event.ID := uuid; Event.Type_ := Event.Type_ ev;
       Event.SessionID := Event.SessionID ev; Event.Data := Event.Data ev;
       Event.Metadata := Event.Metadata ev;
       Event.RequestID := Event.RequestID ev |}
  else ev.

(** The loop of the synchronous mode. *)
Fixpoint runHandlers {S} (hs : list (EventHandler S)) (ev : Event.t) (s : S)
  : S * option error :=
  match hs with
  | [] => (s, None)
  | handler :: rest =>
      let '(s', err) := handler ev s in
      match err with
      | Some err =>
          (s', Some (ErrWrap ("event handler failed for " +:+ Event.Type_ ev) err))
      | None => runHandlers rest ev s'
      end
  end.

(** [Emit]: the state when it returns, the error, and the goroutines it
    has started, each a handler applied to the event, which run later and
    whose errors are dropped. *)
Definition Emit {S} (uuid : string) (eb : EventBus S) (ev : Event.t) (s : S)
  : S * option error * list (S → S * option error) :=
  let ev := withID uuid ev in
  match handlers eb !! Event.Type_ ev with
  | None => (s, None, [])
  | Some hs =>
      if (length hs =? 0)%nat then (s, None, [])
      else if asyncMode eb then (s, None, map (λ h, h ev) hs)
      else
        let '(s', err) := runHandlers hs ev s in
        (s', err, [])
  end.

End event.

(** Vocabulary and scenarios for the event bus. *)
Module EventTerms.

Import event.

(** The handlers of a type, in the order of their registration. *)
Definition registered {S} (eb : EventBus S) (eventType : string)
  : list (EventHandler S) :=
  default [] (handlers eb !! eventType).

(** [Delivered ev hs s s']: run one after the other from the state [s],
    the handlers [hs] all return [nil] on [ev], and leave the state [s']. *)
Inductive Delivered {S} (ev : Event.t) : list (EventHandler S) → S → S → Prop :=
| Delivered_nil s : Delivered ev [] s s
| Delivered_cons h hs s s1 s2 :
    h ev s = (s1, None) → Delivered ev hs s1 s2 → Delivered ev (h :: hs) s s2.

(** Handlers on a journal of lines: one that notes the event, one that
    fails after noting it. *)
Definition note (line : string) : EventHandler (list string) :=
  λ ev journal, (journal ++ [line +:+ ":" +:+ Event.ID ev], None).

Definition failing (line : string) : EventHandler (list string) :=
  λ ev journal, (journal ++ [line], Some (ErrMsg line)).

Definition stop (id : string) : Event.t :=
  {| Event.ID := id; Event.Type_ := "stop"; Event.SessionID := "s1";
     Event.Data := None; Event.Metadata := ∅; Event.RequestID := "r1" |}.

Definition bus (async : bool) : EventBus (list string) :=
  On (On (On {| handlers := ∅; asyncMode := async |} "stop" (note "first"))
        "stop" (failing "second"))
     "stop" (note "third").

End EventTerms.

(** Vocabulary for the middleware. *)
Module AuthTerms.

Import middleware.

(** The cross-tenant switch of the configuration: off when the
    configuration or its tenant section is missing. *)
Definition crossTenantEnabled (cfg : option Config.t) : bool :=
  match cfg with
  | Some cfg =>
      match Config.Tenant cfg with
      | Some tenant => TenantConfig.EnableCrossTenantAccess tenant
      | None => false
      end
  | None => false
  end.

(** The request without one of its headers. *)
Definition withoutHeader (r : Request.t) (key : string) : Request.t :=
  {| Request.Method := Request.Method r; Request.Path := Request.Path r;
     Request.Header := delete key (Request.Header r) |}.

(** The request is neither a preflight nor one of the open endpoints. *)
Definition guarded (r : Request.t) : Prop :=
  Request.Method r ≠ "OPTIONS"
  ∧ isNoAuthAPI (Request.Path r) (Request.Method r) = false.

End AuthTerms.

(** * Properties *)

(** ** Go primitives *)

Lemma nonEmpty_true s : nonEmpty s = true ↔ s ≠ "".
Proof.
  unfold nonEmpty. rewrite negb_true_iff. apply String.eqb_neq.
Qed.

Lemma nonEmpty_false s : nonEmpty s = false ↔ s = "".
Proof.
  unfold nonEmpty. rewrite negb_false_iff. apply String.eqb_eq.
Qed.





(** ** The tool-call accumulator of the remote adapter *)

Module AccumulatorFacts.

Import types openai RemoteAPIChat Spec.




Lemma streamToolCalls_cons response chunks :
  streamToolCalls (response :: chunks)
  = streamToolCalls [response] ++ streamToolCalls chunks.
Proof. unfold streamToolCalls. cbn [map concat]. by rewrite app_nil_r. Qed.







(** The loop sends what it sends per chunk, then the final response built
    from the maps it ends with. *)
Lemma recvLoop_split chunks : ∀ st recvErr,
  recvLoop st chunks recvErr
  = sentBeforeEnd st chunks
    ++ [answerEvent "" true (acc.toolCallMap (accAfter st chunks))].
Proof.
  induction chunks as [|response chunks IH]; intros st recvErr; [done |].
  cbn [recvLoop sentBeforeEnd accAfter foldl].
  destruct (processResponse st response) as [st' ev] eqn:E. cbn [fst snd].
  by rewrite IH, app_assoc.
Qed.


(** *** The tool-call notification *)

Lemma processToolCalls_cons st tc tcs :
  processToolCalls st (tc :: tcs)
  = ((processToolCalls (processToolCall st tc).1 tcs).1,
     (processToolCall st tc).2 ++ (processToolCalls (processToolCall st tc).1 tcs).2).
Proof.
  cbn [processToolCalls].
  destruct (processToolCall st tc) as [st1 ev1]. cbn [fst snd].
  by destruct (processToolCalls st1 tcs) as [st2 ev2].
Qed.

Lemma accAfterFragments_cons st tc tcs :
  accAfterFragments st (tc :: tcs)
  = accAfterFragments (processToolCall st tc).1 tcs.
Proof. unfold accAfterFragments. by rewrite processToolCalls_cons. Qed.

Lemma accAfterFragments_app st pre tcs :
  accAfterFragments st (pre ++ tcs)
  = accAfterFragments (accAfterFragments st pre) tcs.
Proof.
  revert st. induction pre as [|tc pre IH]; intros st; [done |].
  rewrite <- app_comm_cons, !accAfterFragments_cons. apply IH.
Qed.

Lemma notifications_app st pre tcs :
  notifications st (pre ++ tcs)
  = notifications st pre ++ notifications (accAfterFragments st pre) tcs.
Proof.
  revert st. induction pre as [|tc pre IH]; intros st; [done |].
  rewrite <- app_comm_cons. cbn [notifications].
  by rewrite IH, accAfterFragments_cons, app_assoc.
Qed.

(** The events of a run of fragments are its notifications. *)
Lemma processToolCalls_events st tcs :
  (processToolCalls st tcs).2 = (notifications st tcs).*2.
Proof.
  revert st. induction tcs as [|tc tcs IH]; intros st; [done |].
  rewrite processToolCalls_cons. cbn [snd notifications].
  rewrite fmap_app, IH. f_equal.
  unfold processToolCall. cbn [snd]. by destruct (notifies st tc).
Qed.

Lemma notifications_are_tool_calls st tcs :
  Forall (λ ev, isToolCallEvent ev = true) (notifications st tcs).*2.
Proof.
  revert st. induction tcs as [|tc tcs IH]; intros st; [constructor |].
  cbn [notifications]. rewrite fmap_app. apply Forall_app. split; [| apply IH].
  unfold processToolCall. cbn [snd].
  destruct (notifies st tc); repeat constructor.
Qed.

(** What one fragment does to the notified flags. *)
Lemma notified_step st tc i :
  notified (processToolCall st tc).1 i
  = notified st i || (bool_decide (toolCallIndex tc = i) && notifies st tc).
Proof.
  unfold notified, processToolCall. cbn [fst acc.nameNotified].
  destruct (notifies st tc) eqn:Hfire.
  - case_bool_decide as Hi.
    + subst i. rewrite lookup_insert_eq. cbn. by rewrite orb_true_r.
    + rewrite lookup_insert_ne by done. by rewrite orb_false_r.
  - by rewrite andb_false_r, orb_false_r.
Qed.

Lemma notifies_not_notified st tc :
  notifies st tc = true → notified st (toolCallIndex tc) = false.
Proof.
  unfold notifies, notified. intros H.
  repeat (apply andb_prop in H as [H ?]).
  by apply negb_true_iff.
Qed.

(** At most one notification per index, none once the flag is set. *)
Lemma notifications_at_most_once tcs : ∀ st i,
  length (filter (λ p, p.1 = i) (notifications st tcs))
  ≤ (if notified st i then 0 else 1).
Proof.
  induction tcs as [|tc tcs IH]; intros st i.
  { cbn. destruct (notified st i); lia. }
  cbn [notifications]. rewrite filter_app, length_app.
  specialize (IH (processToolCall st tc).1 i).
  rewrite notified_step in IH.
  unfold processToolCall at 1. cbn [snd].
  destruct (notifies st tc) eqn:Hfire; cbn [map].
  - destruct (decide (toolCallIndex tc = i)) as [Hi | Hi].
    + subst i. rewrite filter_cons_True, filter_nil by done.
      rewrite bool_decide_eq_true_2 in IH by done.
      rewrite orb_true_r in IH.
      rewrite (notifies_not_notified _ _ Hfire). cbn in *. lia.
    + rewrite filter_cons_False, filter_nil by done.
      rewrite bool_decide_eq_false_2 in IH by done.
      rewrite orb_false_r in IH. cbn in *. lia.
  - rewrite andb_false_r, orb_false_r in IH. cbn in *. lia.
Qed.

(** A notification comes from one fragment on which [notifies] holds. *)
Lemma notifications_origin tcs : ∀ st i ev,
  (i, ev) ∈ notifications st tcs →
  ∃ pre tc post,
    tcs = pre ++ tc :: post ∧ toolCallIndex tc = i
    ∧ notifies (accAfterFragments st pre) tc = true
    ∧ ev = toolCallEvent
             (mergeToolCall
                (acc.toolCallMap (accAfterFragments st pre) !! i) tc).
Proof.
  induction tcs as [|tc tcs IH]; intros st i ev Hin.
  { by apply elem_of_nil in Hin. }
  cbn [notifications] in Hin. apply elem_of_app in Hin as [Hin | Hin].
  - exists [], tc, tcs. unfold processToolCall in Hin. cbn [snd] in Hin.
    destruct (notifies st tc) eqn:Hfire; cbn [map] in Hin.
    + apply list_elem_of_singleton in Hin. injection Hin as -> ->.
      by repeat split.
    + by apply elem_of_nil in Hin.
  - destruct (IH _ _ _ Hin) as (pre & tc' & post & -> & Hi & Hfire & Hev).
    exists (tc :: pre), tc', post. rewrite accAfterFragments_cons.
    by repeat split.
Qed.

Lemma namesRecorded_step st tc :
  namesRecorded st → namesRecorded (processToolCall st tc).1.
Proof.
  intros Hinv i. unfold processToolCall.
  cbn [fst acc.lastFunctionName acc.toolCallMap].
  destruct (decide (toolCallIndex tc = i)) as [-> | Hi].
  - by rewrite !lookup_insert_eq.
  - rewrite !lookup_insert_ne by done. apply Hinv.
Qed.

Lemma namesRecorded_after tcs : ∀ st,
  namesRecorded st → namesRecorded (accAfterFragments st tcs).
Proof.
  induction tcs as [|tc tcs IH]; intros st Hinv; [done |].
  rewrite accAfterFragments_cons. by apply IH, namesRecorded_step.
Qed.

Lemma namesRecorded_empty : namesRecorded emptyAcc.
Proof. intros i. cbn. by rewrite !lookup_empty. Qed.

(** The flag of an index is set exactly when a notification was sent. *)
Lemma notified_after tcs : ∀ st i,
  notified (accAfterFragments st tcs) i = true
  ↔ notified st i = true ∨ ∃ ev, (i, ev) ∈ notifications st tcs.
Proof.
  induction tcs as [|tc tcs IH]; intros st i.
  { cbn. split; [by left |]. intros [H | [ev H]]; [done |].
    by apply elem_of_nil in H. }
  rewrite accAfterFragments_cons, IH, notified_step. cbn [notifications].
  rewrite orb_true_iff, andb_true_iff, bool_decide_eq_true. split.
  - intros [[H | [Hi Hfire]] | [ev H]].
    + by left.
    + right. exists (toolCallEvent
                       (mergeToolCall (acc.toolCallMap st !! toolCallIndex tc) tc)).
      apply elem_of_app. left. unfold processToolCall. cbn [snd].
      rewrite Hfire, <- Hi. apply list_elem_of_singleton. done.
    + right. exists ev. apply elem_of_app. by right.
  - intros [H | [ev H]]; [by left; left |].
    apply elem_of_app in H as [H | H]; [| right; by exists ev].
    left. right. unfold processToolCall in H. cbn [snd] in H.
    destruct (notifies st tc); cbn [map] in H.
    + apply list_elem_of_singleton in H. by injection H as -> _.
    + by apply elem_of_nil in H.
Qed.

(** *** The receive loop *)

Lemma processResponse_state st response :
  (processResponse st response).1
  = accAfterFragments st (streamToolCalls [response]).
Proof.
  unfold processResponse, streamToolCalls, accAfterFragments.
  cbn [map concat]. rewrite app_nil_r.
  destruct (ChatCompletionStreamResponse.Choices response) as [|choice ?];
    [done |].
  by destruct (processToolCalls _ _).
Qed.

Lemma accAfter_fragments chunks : ∀ st,
  accAfter st chunks = accAfterFragments st (streamToolCalls chunks).
Proof.
  induction chunks as [|response chunks IH]; intros st; [done |].
  rewrite streamToolCalls_cons, accAfterFragments_app, <- processResponse_state.
  apply IH.
Qed.

Lemma filter_all {A} (P : A → bool) (l : list A) :
  Forall (λ x, P x = true) l → filter (λ x, P x = true) l = l.
Proof.
  induction 1 as [|x l Hx Hl IH]; [done |].
  by rewrite filter_cons_True, IH.
Qed.

Lemma processResponse_tool_call_events st response :
  filter (λ ev, isToolCallEvent ev = true) (processResponse st response).2
  = (notifications st (streamToolCalls [response])).*2.
Proof.
  unfold processResponse, streamToolCalls. cbn [map concat].
  rewrite app_nil_r.
  destruct (ChatCompletionStreamResponse.Choices response) as [|choice ?];
    [done |].
  rewrite <- processToolCalls_events.
  pose proof (notifications_are_tool_calls st
    (ChatCompletionStreamChoiceDelta.ToolCalls
       (ChatCompletionStreamChoice.Delta choice))) as Hall.
  rewrite <- processToolCalls_events in Hall.
  destruct (processToolCalls _ _) as [st1 ev1]. cbn [snd] in *.
  rewrite !filter_app, (filter_all isToolCallEvent ev1 Hall).
  destruct (nonEmpty _); destruct (_ && _);
    cbn; by rewrite ?app_nil_r.
Qed.

Lemma sentBeforeEnd_tool_call_events chunks : ∀ st,
  filter (λ ev, isToolCallEvent ev = true) (sentBeforeEnd st chunks)
  = (notifications st (streamToolCalls chunks)).*2.
Proof.
  induction chunks as [|response chunks IH]; intros st; [done |].
  cbn [sentBeforeEnd].
  rewrite filter_app, IH, processResponse_tool_call_events.
  rewrite processResponse_state.
  by rewrite (streamToolCalls_cons response chunks), notifications_app, fmap_app.
Qed.

Lemma toolCallEvent_data e :
  StreamResponse.Data (toolCallEvent e) !! "tool_name"
  = Some (anyString (entryName e))
  ∧ StreamResponse.Data (toolCallEvent e) !! "tool_call_id"
    = Some (anyString (LLMToolCall.ID e)).
Proof.
  unfold toolCallEvent. cbn [StreamResponse.Data]. split.
  - rewrite lookup_insert_ne by done. by rewrite lookup_insert_eq.
  - by rewrite lookup_insert_eq.
Qed.

(** C2. For every stream and every tool-call index [i]: the events of
    type tool_call in the stream are exactly the notifications of the
    accumulator; at most one of them comes from a fragment of index [i];
    and each one comes from a single fragment on which, all at once, an
    entry already stood under [i] (a previous fragment exists), the
    accumulated name is not empty and equals the name accumulated after
    that previous fragment, the fragment appended to the arguments, no
    notification had been sent for [i] before, and the id of the entry is
    not empty. The event carries that name under tool_name and that id
    under tool_call_id. *)
Theorem tool_call_notified_at_most_once
    (chunks : list ChatCompletionStreamResponse.t) (recvErr : error) (i : Z) :
  let tcs := streamToolCalls chunks in
  filter (λ ev, isToolCallEvent ev = true) (recvLoop emptyAcc chunks recvErr)
  = (notifications emptyAcc tcs).*2
  ∧ length (filter (λ p, p.1 = i) (notifications emptyAcc tcs)) ≤ 1
  ∧ ∀ ev, (i, ev) ∈ notifications emptyAcc tcs →
      ∃ pre tc post prev,
        tcs = pre ++ tc :: post
        ∧ toolCallIndex tc = i
        ∧ acc.toolCallMap (accAfterFragments emptyAcc pre) !! i = Some prev
        ∧ entryName (mergeToolCall (Some prev) tc) ≠ ""
        ∧ entryName (mergeToolCall (Some prev) tc) = entryName prev
        ∧ argumentsFragment tc ≠ ""
        ∧ (∀ ev', (i, ev') ∉ notifications emptyAcc pre)
        ∧ LLMToolCall.ID (mergeToolCall (Some prev) tc) ≠ ""
        ∧ StreamResponse.ResponseType_ ev = ResponseTypeToolCall
        ∧ StreamResponse.Data ev !! "tool_name"
          = Some (anyString (entryName (mergeToolCall (Some prev) tc)))
        ∧ StreamResponse.Data ev !! "tool_call_id"
          = Some (anyString (LLMToolCall.ID (mergeToolCall (Some prev) tc))).
Proof.
  intros tcs. split; [| split].
  - rewrite recvLoop_split, filter_app, sentBeforeEnd_tool_call_events.
    cbn. by rewrite app_nil_r.
  - pose proof (notifications_at_most_once tcs emptyAcc i) as H.
    by cbn in H.
  - intros ev Hin.
    destruct (notifications_origin _ _ _ _ Hin)
      as (pre & tc & post & Htcs & Hi & Hfire & ->).
    pose proof (namesRecorded_after pre _ namesRecorded_empty i) as Hname.
    pose proof (notifies_not_notified _ _ Hfire) as Hfresh.
    unfold notifies in Hfire. rewrite Hi in Hfire, Hfresh.
    apply andb_prop in Hfire as [Hfire Hid].
    apply andb_prop in Hfire as [Hfire _].
    apply andb_prop in Hfire as [Hfire Hargs].
    apply andb_prop in Hfire as [Hne Heq].
    rewrite Hname in Heq.
    destruct (acc.toolCallMap (accAfterFragments emptyAcc pre) !! i)
      as [prev |] eqn:Hprev.
    2:{ cbn [fmap option_fmap option_map default] in Heq.
        apply String.eqb_eq in Heq. by apply nonEmpty_true in Hne. }
    cbn [fmap option_fmap option_map default] in Heq.
    exists pre, tc, post, prev.
    destruct (toolCallEvent_data (mergeToolCall (Some prev) tc)) as [Hn Hd].
    repeat split; try done.
    + by apply nonEmpty_true.
    + by apply String.eqb_eq.
    + by apply nonEmpty_true.
    + intros ev' Hin'.
      assert (notified (accAfterFragments emptyAcc pre) i = true) as Hset.
      { apply notified_after. right. by exists ev'. }
      by rewrite Hset in Hfresh.
    + by apply nonEmpty_true.
Qed.

(** *** The snapshot *)

Lemma buildOrderedToolCalls_loop (m : gmap Z LLMToolCall.t) (l : list Z) :
  ∀ result,
    foldl (λ result i,
             match m !! i with
             | Some tc => result ++ [tc]
             | None => result
             end) result l
    = result ++ omap (λ i, m !! i) l.
Proof.
  induction l as [|i l IH]; intros result; [by rewrite app_nil_r |].
  cbn [foldl]. rewrite IH. cbn.
  destruct (m !! i); [by rewrite <- app_assoc | done].
Qed.

(** The snapshot lists the entries found under the indices from 0 up to,
    and without, the number of entries of the map, in that order. *)
Lemma buildOrderedToolCalls_spec (m : gmap Z LLMToolCall.t) :
  buildOrderedToolCalls m
  = omap (λ i, m !! i) (seqZ 0 (Z.of_nat (size m))).
Proof.
  unfold buildOrderedToolCalls. rewrite buildOrderedToolCalls_loop.
  cbn [app]. destruct (size m) eqn:Hsize; [reflexivity |].
  cbn [Nat.eqb]. by destruct (omap _ _).
Qed.

(** When the indices in use are the first ones, with no gap, the snapshot
    holds every entry. *)
Lemma buildOrderedToolCalls_dense (m : gmap Z LLMToolCall.t) :
  (∀ i, is_Some (m !! i) → (0 ≤ i < Z.of_nat (size m))%Z) →
  ∀ i e, m !! i = Some e → e ∈ buildOrderedToolCalls m.
Proof.
  intros Hdense i e Hi. rewrite buildOrderedToolCalls_spec.
  apply list_elem_of_omap. exists i. split; [| done].
  apply elem_of_seqZ. specialize (Hdense i (mk_is_Some _ _ Hi)). lia.
Qed.

(** *** The done events of the remote stream *)






End AccumulatorFacts.

(** ** Streams: termination, snapshots and errors *)

Module StreamFacts.

Import types openai RemoteAPIChat Spec Scenario AccumulatorFacts.

(** The example of the specification, run through the worker. *)
Example weather_call_accumulated :
  acc.toolCallMap (accAfter emptyAcc weatherStream) !! 0%Z = Some weatherCall.
Proof. vm_compute. reflexivity. Qed.

Example weather_stream_events :
  recvLoop emptyAcc weatherStream eof
  = [ toolCallEvent
        {| LLMToolCall.ID := "call_9";
           LLMToolCall.Type_ := "function";
           LLMToolCall.Function :=
             {| types.FunctionCall.Name := "get_weather";
                types.FunctionCall.Arguments := "{city:NYC}" |} |};
      {| StreamResponse.ResponseType_ := ResponseTypeAnswer;
         StreamResponse.Content := "";
         StreamResponse.Done := true;
         StreamResponse.ToolCalls := [weatherCall];
         StreamResponse.Data := ∅ |};
      {| StreamResponse.ResponseType_ := ResponseTypeAnswer;
         StreamResponse.Content := "";
         StreamResponse.Done := true;
         StreamResponse.ToolCalls := [weatherCall];
         StreamResponse.Data := ∅ |} ].
Proof. vm_compute. reflexivity. Qed.

(** The notification of the example is sent on the third fragment, the
    first one that appends to the arguments while the name stays as it is. *)
Example weather_notification :
  notifications emptyAcc (streamToolCalls weatherStream)
  = [ (0%Z, toolCallEvent weatherCall) ]
  ∧ notifications emptyAcc (take 2 (streamToolCalls weatherStream)) = [].
Proof. split; vm_compute; reflexivity. Qed.

(** *** What [ChatStream] returns *)

Lemma remote_ChatStream_value `{strings.CaseTables} c w messages opts :
  value (ChatStream c w messages opts)
  = match World.CreateChatCompletionStream w
            (value (buildChatCompletionRequest c messages opts true)) with
    | inl err => inl (ErrWrap "create chat completion stream" err)
    | inr stream =>
        inr (recvLoop emptyAcc (ChatCompletionStream.chunks stream)
               (ChatCompletionStream.recvErr stream))
    end.
Proof.
  unfold ChatStream, value, bind, emit, ret.
  destruct (buildChatCompletionRequest c messages opts true) as [l req].
  cbn [snd]. by destruct (World.CreateChatCompletionStream w req).
Qed.

Lemma loggedErrors_app l1 l2 :
  loggedErrors (l1 ++ l2) = loggedErrors l1 ++ loggedErrors l2.
Proof. unfold loggedErrors. apply omap_app. Qed.

Lemma buildChatCompletionRequest_logs_no_error `{strings.CaseTables} c messages opts isStream :
  loggedErrors (effects (buildChatCompletionRequest c messages opts isStream))
  = [].
Proof.
  unfold buildChatCompletionRequest, buildToolChoice, effects, bind, emit, ret.
  destruct opts as [o |]; [| done].
  destruct (nonEmpty _); [| done].
  destruct (isDeepSeekModel c); [done |].
  by destruct (_ || _).
Qed.

Lemma remote_ChatStream_logs_no_error `{strings.CaseTables} c w messages opts :
  loggedErrors (effects (ChatStream c w messages opts)) = [].
Proof.
  pose proof (buildChatCompletionRequest_logs_no_error c messages opts true)
    as Hreq.
  unfold ChatStream, effects, bind, emit, ret in *.
  destruct (buildChatCompletionRequest c messages opts true) as [l req].
  cbn [fst] in Hreq.
  destruct (World.CreateChatCompletionStream w req); cbn [fst];
    by rewrite !loggedErrors_app, Hreq.
Qed.

Lemma local_ChatStream_value c w messages opts :
  value (OllamaChat.ChatStream c w messages opts)
  = match OllamaChat.World.EnsureModelAvailable w (OllamaChat.modelName c) with
    | Some err => inl err
    | None =>
        let run :=
          OllamaChat.World.Chat w (OllamaChat.buildChatRequest c messages opts true) in
        inr (concat (map OllamaChat.streamCallback run.1)
             ++ match run.2 with
                | Some _ => [OllamaChat.answerEvent "" true]
                | None => []
                end)
    end.
Proof.
  unfold OllamaChat.ChatStream, OllamaChat.ensureModelAvailable,
    OllamaChat.streamWorker, value, bind, emit, ret.
  cbn [fst snd].
  destruct (OllamaChat.World.EnsureModelAvailable w (OllamaChat.modelName c));
    [done |].
  destruct (OllamaChat.World.Chat w _) as [responses [err |]]; cbn [fst snd];
    [done |].
  by rewrite app_nil_r.
Qed.

Lemma local_ChatStream_logged_errors c w messages opts :
  loggedErrors (effects (OllamaChat.ChatStream c w messages opts))
  = match OllamaChat.World.EnsureModelAvailable w (OllamaChat.modelName c) with
    | Some _ => []
    | None =>
        match (OllamaChat.World.Chat w
                 (OllamaChat.buildChatRequest c messages opts true)).2 with
        | Some err => [err]
        | None => []
        end
    end.
Proof.
  unfold OllamaChat.ChatStream, OllamaChat.ensureModelAvailable,
    OllamaChat.streamWorker, effects, bind, emit, ret.
  cbn [fst snd].
  destruct (OllamaChat.World.EnsureModelAvailable w (OllamaChat.modelName c));
    [done |].
  by destruct (OllamaChat.World.Chat w _) as [responses [err |]].
Qed.

(** *** Done events *)





(** *** The snapshot at a sparse index *)

(** C4, at the failing input: the only tool call of the stream is numbered
    1. The worker has accumulated it, yet the snapshot of the final event
    is empty: the loop of [buildOrderedToolCalls] stops at the number of
    entries, 1, and so only looks under index 0. *)
Theorem snapshot_misses_sparse_index :
  acc.toolCallMap (accAfter emptyAcc sparseStream) !! 1%Z = Some searchCall
  ∧ recvLoop emptyAcc sparseStream eof
    = [ {| StreamResponse.ResponseType_ := ResponseTypeAnswer;
           StreamResponse.Content := "";
           StreamResponse.Done := true;
           StreamResponse.ToolCalls := [];
           StreamResponse.Data := ∅ |} ].
Proof. split; vm_compute; reflexivity. Qed.

End StreamFacts.

(** ** Errors of [ChatStream] before and after the stream starts *)

Module StreamErrorFacts.

Import types openai RemoteAPIChat Spec Scenario AccumulatorFacts StreamFacts.

Section Examples.

Local Existing Instance Scenario.tables.

(** C5, the claim as stated fails: the remote stream is cut by a transport
    error after some text. The consumer gets the text and the final done
    event, and the error is nowhere in the log: the remote worker does not
    log at all. *)
Lemma remote_stream_error_is_not_logged :
  value (ChatStream gpt (remoteWorld (inr brokenStream) emptyResponse) [] None)
  = inr [ answerEvent "partial" false ∅; answerEvent "" true ∅ ]
  ∧ ChatCompletionStream.recvErr brokenStream
    ∉ loggedErrors
        (effects (ChatStream gpt (remoteWorld (inr brokenStream) emptyResponse)
                    [] None)).
Proof.
  split; [vm_compute; reflexivity |].
  rewrite remote_ChatStream_logs_no_error. apply not_elem_of_nil.
Qed.

End Examples.

(** C5, amended. On both adapters an error before the stream starts (the
    stream cannot be created, the model is not available) is the result of
    [ChatStream] and no events exist. Once the stream has started, the
    result is the list of events, whatever error ends the stream: on the
    remote adapter the events sent per chunk followed by the final done
    event with the snapshot of the accumulated tool calls, the same for
    every error of [Recv], which is not logged; on the local adapter the
    events of the callbacks followed by a done event, and the error of the
    runtime call is logged, once. *)
Theorem stream_errors_before_and_after_start `{strings.CaseTables}
    (c : RemoteAPIChat.t) (w : World.t)
    (lc : OllamaChat.t) (lw : OllamaChat.World.t)
    (messages : list chat.Message.t) (opts : option chat.ChatOptions.t) :
  let req := value (buildChatCompletionRequest c messages opts true) in
  let chatReq := OllamaChat.buildChatRequest lc messages opts true in
  (∀ err, World.CreateChatCompletionStream w req = inl err →
     value (ChatStream c w messages opts)
     = inl (ErrWrap "create chat completion stream" err))
  ∧ (∀ err,
       OllamaChat.World.EnsureModelAvailable lw (OllamaChat.modelName lc)
       = Some err →
       value (OllamaChat.ChatStream lc lw messages opts) = inl err
       ∧ loggedErrors (effects (OllamaChat.ChatStream lc lw messages opts)) = [])
  ∧ (∀ chunks recvErr,
       World.CreateChatCompletionStream w req
       = inr {| ChatCompletionStream.chunks := chunks;
                ChatCompletionStream.recvErr := recvErr |} →
       value (ChatStream c w messages opts)
       = inr (sentBeforeEnd emptyAcc chunks
              ++ [answerEvent "" true
                    (acc.toolCallMap (accAfter emptyAcc chunks))])
       ∧ loggedErrors (effects (ChatStream c w messages opts)) = [])
  ∧ (∀ responses err,
       OllamaChat.World.EnsureModelAvailable lw (OllamaChat.modelName lc) = None →
       OllamaChat.World.Chat lw chatReq = (responses, Some err) →
       value (OllamaChat.ChatStream lc lw messages opts)
       = inr (concat (map OllamaChat.streamCallback responses)
              ++ [OllamaChat.answerEvent "" true])
       ∧ loggedErrors (effects (OllamaChat.ChatStream lc lw messages opts))
         = [err]).
Proof.
  intros req chatReq. subst req chatReq.
  split; [| split; [| split]].
  - intros err Herr. by rewrite remote_ChatStream_value, Herr.
  - intros err Herr. split.
    + by rewrite local_ChatStream_value, Herr.
    + by rewrite local_ChatStream_logged_errors, Herr.
  - intros chunks recvErr Hstream. split.
    + rewrite remote_ChatStream_value, Hstream.
      cbn [ChatCompletionStream.chunks ChatCompletionStream.recvErr].
      by rewrite recvLoop_split.
    + apply remote_ChatStream_logs_no_error.
  - intros responses err Havailable Hrun. split.
    + by rewrite local_ChatStream_value, Havailable, Hrun.
    + by rewrite local_ChatStream_logged_errors, Havailable, Hrun.
Qed.

Section Examples.

Local Existing Instance Scenario.tables.

Lemma stream_errors_before_and_after_start_witness :
  value (ChatStream gpt (remoteWorld (inl eof) emptyResponse) [] None)
  = inl (ErrWrap "create chat completion stream" eof)
  ∧ value (OllamaChat.ChatStream local
             (localWorld (Some (ErrExternal "pull failed")) [] None) [] None)
    = inl (ErrExternal "pull failed")
  ∧ value (ChatStream gpt (remoteWorld (inr brokenStream) emptyResponse) [] None)
    = inr (sentBeforeEnd emptyAcc (ChatCompletionStream.chunks brokenStream)
           ++ [answerEvent "" true
                 (acc.toolCallMap
                    (accAfter emptyAcc
                       (ChatCompletionStream.chunks brokenStream)))])
  ∧ loggedErrors
      (effects (OllamaChat.ChatStream local
                  (localWorld None [localResponse "partial" false]
                     (Some (ErrExternal "connection refused"))) [] None))
    = [ErrExternal "connection refused"].
Proof.
  split; [| split; [| split]].
  - pose proof (stream_errors_before_and_after_start
                  gpt (remoteWorld (inl eof) emptyResponse)
                  local (localWorld None [] None) [] None) as H.
    cbv zeta in H. destruct H as (H & _). apply H. reflexivity.
  - pose proof (stream_errors_before_and_after_start
                  gpt (remoteWorld (inl eof) emptyResponse)
                  local (localWorld (Some (ErrExternal "pull failed")) [] None)
                  [] None) as H.
    cbv zeta in H. destruct H as (_ & H & _). apply H. reflexivity.
  - pose proof (stream_errors_before_and_after_start
                  gpt (remoteWorld (inr brokenStream) emptyResponse)
                  local (localWorld None [] None) [] None) as H.
    cbv zeta in H. destruct H as (_ & _ & H & _).
    apply (H (ChatCompletionStream.chunks brokenStream)
             (ChatCompletionStream.recvErr brokenStream)).
    reflexivity.
  - pose proof (stream_errors_before_and_after_start
                  gpt (remoteWorld (inl eof) emptyResponse)
                  local (localWorld None [localResponse "partial" false]
                           (Some (ErrExternal "connection refused")))
                  [] None) as H.
    cbv zeta in H. destruct H as (_ & _ & _ & H).
    apply (H [localResponse "partial" false]); reflexivity.
Defined.

End Examples.

End StreamErrorFacts.

(** ** Request shaping *)

Module RequestFacts.

Import types openai RemoteAPIChat Spec Scenario.

Example half_to_float32 : to_float32 half = half32.
Proof. vm_compute. reflexivity. Qed.

Section Examples.

Local Existing Instance Scenario.tables.

(** A positive option too small for [float32] passes the guard and is
    stored as zero. *)
Example tiny_temperature_underflows :
  float64_gt0 tiny = true
  ∧ ChatCompletionRequest.Temperature
      (value (buildChatCompletionRequest gpt []
                (Some (options tiny float64_zero 0 None "")) false))
    = float32_zero.
Proof. split; vm_compute; reflexivity. Qed.

End Examples.

Lemma buildChatCompletionRequest_value `{strings.CaseTables} c messages o isStream :
  value (buildChatCompletionRequest c messages (Some o) isStream)
  = {| ChatCompletionRequest.Model := modelName c;
       ChatCompletionRequest.Messages := convertMessages c messages;
       ChatCompletionRequest.Stream := isStream;
       ChatCompletionRequest.Temperature :=
         if float64_gt0 (chat.ChatOptions.Temperature o)
         then to_float32 (chat.ChatOptions.Temperature o) else float32_zero;
       ChatCompletionRequest.TopP :=
         if float64_gt0 (chat.ChatOptions.TopP o)
         then to_float32 (chat.ChatOptions.TopP o) else float32_zero;
       ChatCompletionRequest.MaxTokens :=
         if (0 <? chat.ChatOptions.MaxTokens o)%Z
         then chat.ChatOptions.MaxTokens o else 0%Z;
       ChatCompletionRequest.MaxCompletionTokens :=
         if (0 <? chat.ChatOptions.MaxCompletionTokens o)%Z
         then chat.ChatOptions.MaxCompletionTokens o else 0%Z;
       ChatCompletionRequest.FrequencyPenalty :=
         if float64_gt0 (chat.ChatOptions.FrequencyPenalty o)
         then to_float32 (chat.ChatOptions.FrequencyPenalty o) else float32_zero;
       ChatCompletionRequest.PresencePenalty :=
         if float64_gt0 (chat.ChatOptions.PresencePenalty o)
         then to_float32 (chat.ChatOptions.PresencePenalty o) else float32_zero;
       ChatCompletionRequest.Tools := convertTools (chat.ChatOptions.Tools o);
       ChatCompletionRequest.ToolChoice :=
         value (buildToolChoice c (chat.ChatOptions.ToolChoice o));
       ChatCompletionRequest.ChatTemplateKwargs :=
         {[ "enable_thinking" :=
              anyBool (default false (chat.ChatOptions.Thinking o)) ]} |}.
Proof.
  unfold buildChatCompletionRequest, value, bind, ret.
  by destruct (buildToolChoice c (chat.ChatOptions.ToolChoice o)).
Qed.

Section Examples.

Local Existing Instance Scenario.tables.

(** C6, the claim as stated fails: the caller sets the frequency penalty to
    minus one half and the token limit to -1, both non-zero (and both
    meaningful to the providers); neither is forwarded, on either adapter. *)
Lemma negative_options_are_not_forwarded :
  SFeqb (chat.ChatOptions.FrequencyPenalty negativeOptions) float64_zero = false
  ∧ chat.ChatOptions.MaxTokens negativeOptions ≠ 0%Z
  ∧ ChatCompletionRequest.FrequencyPenalty
      (value (buildChatCompletionRequest gpt [] (Some negativeOptions) false))
    = float32_zero
  ∧ ChatCompletionRequest.MaxTokens
      (value (buildChatCompletionRequest gpt [] (Some negativeOptions) false))
    = 0%Z
  ∧ ollamaapi.ChatRequest.Options
      (OllamaChat.buildChatRequest local [] (Some negativeOptions) false)
    !! "num_predict" = None.
Proof. repeat split; vm_compute; done. Qed.

End Examples.

(** C6, amended. A numeric sampling option is forwarded exactly when the
    caller set it to a value greater than zero; zero and negative values
    (and, for the floating-point options, NaN) are left out. On the remote
    adapter the request field then holds the option (converted to [float32]
    for the four floating-point options) and otherwise keeps its zero value;
    on the local adapter the option bag then holds the option under its key
    (temperature, top_p, num_predict) and otherwise has no such key.
    Without options nothing is forwarded. *)
Theorem sampling_options_forwarded_when_positive `{strings.CaseTables}
    (c : RemoteAPIChat.t) (lc : OllamaChat.t)
    (messages : list chat.Message.t) (o : chat.ChatOptions.t) (isStream : bool) :
  let req := value (buildChatCompletionRequest c messages (Some o) isStream) in
  let req0 := value (buildChatCompletionRequest c messages None isStream) in
  let bag := ollamaapi.ChatRequest.Options
               (OllamaChat.buildChatRequest lc messages (Some o) isStream) in
  let bag0 := ollamaapi.ChatRequest.Options
                (OllamaChat.buildChatRequest lc messages None isStream) in
  let forward32 (x : float64) : float32 :=
    if float64_gt0 x then to_float32 x else float32_zero in
  let forwardInt (n : Z) : Z := if (0 <? n)%Z then n else 0%Z in
  ChatCompletionRequest.Temperature req = forward32 (chat.ChatOptions.Temperature o)
  ∧ ChatCompletionRequest.TopP req = forward32 (chat.ChatOptions.TopP o)
  ∧ ChatCompletionRequest.MaxTokens req = forwardInt (chat.ChatOptions.MaxTokens o)
  ∧ ChatCompletionRequest.MaxCompletionTokens req
    = forwardInt (chat.ChatOptions.MaxCompletionTokens o)
  ∧ ChatCompletionRequest.FrequencyPenalty req
    = forward32 (chat.ChatOptions.FrequencyPenalty o)
  ∧ ChatCompletionRequest.PresencePenalty req
    = forward32 (chat.ChatOptions.PresencePenalty o)
  ∧ bag !! "temperature"
    = (if float64_gt0 (chat.ChatOptions.Temperature o)
       then Some (anyFloat64 (chat.ChatOptions.Temperature o)) else None)
  ∧ bag !! "top_p"
    = (if float64_gt0 (chat.ChatOptions.TopP o)
       then Some (anyFloat64 (chat.ChatOptions.TopP o)) else None)
  ∧ bag !! "num_predict"
    = (if (0 <? chat.ChatOptions.MaxTokens o)%Z
       then Some (anyInt (chat.ChatOptions.MaxTokens o)) else None)
  ∧ (∀ key, is_Some (bag !! key) →
            key = "temperature" ∨ key = "top_p" ∨ key = "num_predict")
  ∧ ChatCompletionRequest.Temperature req0 = float32_zero
  ∧ ChatCompletionRequest.TopP req0 = float32_zero
  ∧ ChatCompletionRequest.MaxTokens req0 = 0%Z
  ∧ ChatCompletionRequest.MaxCompletionTokens req0 = 0%Z
  ∧ ChatCompletionRequest.FrequencyPenalty req0 = float32_zero
  ∧ ChatCompletionRequest.PresencePenalty req0 = float32_zero
  ∧ bag0 = ∅.
Proof.
  intros req req0 bag bag0 forward32 forwardInt.
  subst req req0 bag bag0 forward32 forwardInt.
  rewrite buildChatCompletionRequest_value.
  cbn [ChatCompletionRequest.Temperature ChatCompletionRequest.TopP
       ChatCompletionRequest.MaxTokens ChatCompletionRequest.MaxCompletionTokens
       ChatCompletionRequest.FrequencyPenalty ChatCompletionRequest.PresencePenalty].
  do 6 (split; [reflexivity |]).
  unfold OllamaChat.buildChatRequest. cbn [ollamaapi.ChatRequest.Options].
  split; [| split; [| split; [| split]]].
  - destruct (float64_gt0 (chat.ChatOptions.Temperature o)),
      (float64_gt0 (chat.ChatOptions.TopP o)),
      (0 <? chat.ChatOptions.MaxTokens o)%Z; by simplify_map_eq.
  - destruct (float64_gt0 (chat.ChatOptions.Temperature o)),
      (float64_gt0 (chat.ChatOptions.TopP o)),
      (0 <? chat.ChatOptions.MaxTokens o)%Z; by simplify_map_eq.
  - destruct (float64_gt0 (chat.ChatOptions.Temperature o)),
      (float64_gt0 (chat.ChatOptions.TopP o)),
      (0 <? chat.ChatOptions.MaxTokens o)%Z; by simplify_map_eq.
  - intros key [v Hv].
    destruct (decide (key = "temperature")) as [| H1]; [by left |].
    destruct (decide (key = "top_p")) as [| H2]; [by right; left |].
    destruct (decide (key = "num_predict")) as [| H3]; [by right; right |].
    exfalso.
    destruct (float64_gt0 (chat.ChatOptions.Temperature o)),
      (float64_gt0 (chat.ChatOptions.TopP o)),
      (0 <? chat.ChatOptions.MaxTokens o)%Z; by simplify_map_eq.
  - repeat split.
Qed.

(** *** The [strings] primitives *)

Lemma append_cons (a : Ascii.ascii) (s1 s2 : string) :
  String a s1 +:+ s2 = String a (s1 +:+ s2).
Proof. done. Qed.

Lemma HasPrefix_spec prefix : ∀ s,
  strings.HasPrefix s prefix = true ↔ ∃ rest, s = prefix +:+ rest.
Proof.
  induction prefix as [|p prefix IH]; intros s.
  - split; [intros _; by exists s | by destruct s].
  - destruct s as [|c s]; cbn [strings.HasPrefix].
    + split; [done | by intros [rest ?]].
    + rewrite andb_true_iff, IH. split.
      * intros [Hc [rest ->]]. apply Ascii.eqb_eq in Hc as ->. by exists rest.
      * intros [rest Heq]. rewrite append_cons in Heq. injection Heq as -> ->.
        split; [apply Ascii.eqb_refl | by exists rest].
Qed.

Lemma Contains_spec substr : ∀ s,
  strings.Contains s substr = true ↔ ∃ pre post, s = pre +:+ substr +:+ post.
Proof.
  induction s as [|c s IH]; cbn [strings.Contains];
    rewrite orb_true_iff, HasPrefix_spec.
  - split.
    + intros [[rest ->] | ?]; [by exists "", rest | done].
    + intros (pre & post & Heq). left. exists post.
      destruct pre; [done | by rewrite append_cons in Heq].
  - rewrite IH. split.
    + intros [[rest ->] | (pre & post & ->)]; [by exists "", rest |].
      by exists (String c pre), post.
    + intros (pre & post & Heq). destruct pre as [|x pre].
      * left. by exists post.
      * right. rewrite append_cons in Heq. injection Heq as -> ->.
        by exists pre, post.
Qed.

(** *** [tool_choice] *)

Lemma buildToolChoice_value `{strings.CaseTables} c toolChoice :
  value (buildToolChoice c toolChoice)
  = if nonEmpty toolChoice then
      if isDeepSeekModel c then None
      else if String.eqb toolChoice "none" || String.eqb toolChoice "required"
              || String.eqb toolChoice "auto"
           then Some (ToolChoiceString toolChoice)
           else Some (ToolChoiceStruct "function" toolChoice)
    else None.
Proof.
  unfold buildToolChoice, value, bind, emit, ret.
  destruct (nonEmpty toolChoice); [| done].
  destruct (isDeepSeekModel c); [done |].
  by destruct (_ || _).
Qed.

(** On a name within ASCII [strings.ToLower] is the byte-wise lowering;
    on any other name it is what the case tables give. *)
Lemma ToLower_paths `{strings.CaseTables} (s : string) :
  (strings.isASCII s = true → strings.ToLower s = strings.lowerASCII s)
  ∧ (strings.isASCII s = false → strings.ToLower s = strings.mapToLower s).
Proof. unfold strings.ToLower. split; by intros ->. Qed.

(** A name that spells the vendor with the Kelvin sign is taken for one of
    the D family as soon as the case tables lower-case the sign to k, and
    its requests have no tool choice. *)
Lemma kelvin_sign_name_is_deepseek `{strings.CaseTables}
    (messages : list chat.Message.t) (o : chat.ChatOptions.t)
    (isStream : bool) :
  strings.mapToLower kelvinName = "deepseek-v3" →
  isDeepSeekModel kelvin = true
  ∧ ChatCompletionRequest.ToolChoice
      (value (buildChatCompletionRequest kelvin messages (Some o) isStream))
    = None.
Proof.
  intros Htables.
  assert (isDeepSeekModel kelvin = true) as Hdeepseek.
  { unfold isDeepSeekModel, strings.ToLower.
    change (strings.isASCII (modelName kelvin)) with false. cbv iota.
    change (modelName kelvin) with kelvinName. by rewrite Htables. }
  split; [done |].
  rewrite buildChatCompletionRequest_value.
  cbn [ChatCompletionRequest.ToolChoice].
  rewrite buildToolChoice_value, Hdeepseek.
  by destruct (nonEmpty (chat.ChatOptions.ToolChoice o)).
Qed.

(** C7. The adapter takes a model for one of the D family exactly when its
    name, lower-cased as [strings.ToLower] does (byte by byte within ASCII,
    by the case tables of the Go library otherwise), contains the text
    deepseek. For such a model a request built with a non-empty tool choice
    has no tool choice at all. For any other model the directives auto,
    required and none are passed on as the string itself, and every other
    non-empty value becomes the structured directive naming that
    function. *)
Theorem tool_choice_shaping `{strings.CaseTables}
    (c : RemoteAPIChat.t) (messages : list chat.Message.t)
    (o : chat.ChatOptions.t) (isStream : bool) :
  let req := value (buildChatCompletionRequest c messages (Some o) isStream) in
  let choice := chat.ChatOptions.ToolChoice o in
  (isDeepSeekModel c = true
   ↔ ∃ pre post, strings.ToLower (modelName c) = pre +:+ "deepseek" +:+ post)
  ∧ (isDeepSeekModel c = true → choice ≠ "" →
     ChatCompletionRequest.ToolChoice req = None)
  ∧ (isDeepSeekModel c = false →
     choice = "auto" ∨ choice = "required" ∨ choice = "none" →
     ChatCompletionRequest.ToolChoice req = Some (ToolChoiceString choice))
  ∧ (isDeepSeekModel c = false →
     choice ≠ "" → choice ≠ "auto" → choice ≠ "required" → choice ≠ "none" →
     ChatCompletionRequest.ToolChoice req
     = Some (ToolChoiceStruct "function" choice)).
Proof.
  intros req choice. subst req choice.
  rewrite buildChatCompletionRequest_value.
  cbn [ChatCompletionRequest.ToolChoice]. rewrite buildToolChoice_value.
  split; [apply Contains_spec |].
  split; [| split].
  - intros -> Hne. apply nonEmpty_true in Hne. by rewrite Hne.
  - intros -> [-> | [-> | ->]]; reflexivity.
  - intros -> Hne Hauto Hrequired Hnone.
    apply nonEmpty_true in Hne. rewrite Hne.
    apply String.eqb_neq in Hauto, Hrequired, Hnone.
    by rewrite Hauto, Hrequired, Hnone.
Qed.

Section Examples.

Local Existing Instance Scenario.tables.

Lemma tool_choice_shaping_witness :
  ChatCompletionRequest.ToolChoice
    (value (buildChatCompletionRequest deepseek []
              (Some (options half float64_zero 0 None "auto")) false))
  = None
  ∧ ChatCompletionRequest.ToolChoice
      (value (buildChatCompletionRequest gpt []
                (Some (options half float64_zero 0 None "required")) true))
    = Some (ToolChoiceString "required")
  ∧ ChatCompletionRequest.ToolChoice
      (value (buildChatCompletionRequest gpt []
                (Some (options half float64_zero 0 None "get_weather")) true))
    = Some (ToolChoiceStruct "function" "get_weather")
  ∧ ChatCompletionRequest.ToolChoice
      (value (@buildChatCompletionRequest kelvinTables kelvin []
                (Some (options half float64_zero 0 None "auto")) false))
    = None.
Proof.
  split; [| split; [| split]].
  - pose proof (tool_choice_shaping deepseek []
                  (options half float64_zero 0 None "auto") false) as H.
    cbv zeta in H. destruct H as (_ & H & _).
    apply H; [reflexivity | discriminate].
  - pose proof (tool_choice_shaping gpt []
                  (options half float64_zero 0 None "required") true) as H.
    cbv zeta in H. destruct H as (_ & _ & H & _).
    apply H; [reflexivity | right; left; reflexivity].
  - pose proof (tool_choice_shaping gpt []
                  (options half float64_zero 0 None "get_weather") true) as H.
    cbv zeta in H. destruct H as (_ & _ & _ & H).
    apply H; [reflexivity | discriminate ..].
  - pose proof (@tool_choice_shaping kelvinTables kelvin []
                  (options half float64_zero 0 None "auto") false) as H.
    cbv zeta in H. destruct H as (_ & H & _).
    apply H; [reflexivity | discriminate].
Defined.

End Examples.

End RequestFacts.

(** ** Non-streaming chat on the remote adapter *)

Module ChatFacts.

Import types openai RemoteAPIChat Spec Scenario RequestFacts.

Lemma buildChatCompletionRequest_effects `{strings.CaseTables} c messages opts isStream :
  Forall (λ e, isLog e = true)
         (effects (buildChatCompletionRequest c messages opts isStream)).
Proof.
  unfold buildChatCompletionRequest, buildToolChoice, effects, bind, emit, ret.
  destruct opts as [o |]; [| constructor].
  destruct (nonEmpty _); [| constructor].
  destruct (isDeepSeekModel c); [by repeat constructor |].
  destruct (_ || _); constructor.
Qed.

Lemma buildQwenChatCompletionRequest_effects `{strings.CaseTables} c messages opts isStream :
  effects (buildQwenChatCompletionRequest c messages opts isStream)
  = effects (buildChatCompletionRequest c messages opts isStream).
Proof.
  unfold buildQwenChatCompletionRequest, effects, bind, ret.
  destruct (buildChatCompletionRequest c messages opts isStream).
  cbn [fst]. apply app_nil_r.
Qed.

Lemma buildQwenChatCompletionRequest_value `{strings.CaseTables} c messages opts isStream :
  value (buildQwenChatCompletionRequest c messages opts isStream)
  = {| QwenChatCompletionRequest.ChatCompletionRequest :=
         value (buildChatCompletionRequest c messages opts isStream);
       QwenChatCompletionRequest.EnableThinking :=
         if negb isStream then Some false else None |}.
Proof.
  unfold buildQwenChatCompletionRequest, value, bind, ret.
  by destruct (buildChatCompletionRequest c messages opts isStream).
Qed.

(** What the raw call does: it logs what request building logs, then sends
    one HTTP request unless marshalling or request creation fails. *)
Lemma chatWithQwen_effects `{strings.CaseTables} c w messages opts :
  effects (chatWithQwen c w messages opts)
  = effects (buildChatCompletionRequest c messages opts false)
    ++ match World.jsonMarshal w
               (value (buildQwenChatCompletionRequest c messages opts false)) with
       | inl _ => []
       | inr jsonData =>
           match World.NewRequestWithContext w "POST"
                   (baseURL c +:+ "/chat/completions") jsonData with
           | Some _ => []
           | None => [HTTPClientDo (qwenHTTPRequest c jsonData)]
           end
       end.
Proof.
  rewrite <- (buildQwenChatCompletionRequest_effects c messages opts false).
  unfold chatWithQwen, effects, value, bind, emit, ret.
  destruct (buildQwenChatCompletionRequest c messages opts false) as [l qreq].
  cbn [fst snd].
  destruct (World.jsonMarshal w qreq) as [err | jsonData]; [done |].
  destruct (World.NewRequestWithContext w _ _ jsonData); [done |].
  fold (qwenHTTPRequest c jsonData).
  destruct (World.Do w (qwenHTTPRequest c jsonData)) as [err | resp]; [done |].
  destruct (negb _); [done |].
  destruct (World.jsonDecode w _) as [err | chatResp]; [done |].
  by destruct (ChatCompletionResponse.Choices chatResp).
Qed.

(** The result of the raw call once the HTTP response is decoded. *)
Lemma chatWithQwen_value `{strings.CaseTables} c w messages opts jsonData httpResp chatResp :
  World.jsonMarshal w
    (value (buildQwenChatCompletionRequest c messages opts false))
  = inr jsonData →
  World.NewRequestWithContext w "POST" (baseURL c +:+ "/chat/completions")
    jsonData = None →
  World.Do w (qwenHTTPRequest c jsonData) = inr httpResp →
  http.Response.StatusCode httpResp = http.StatusOK →
  World.jsonDecode w (http.Response.Body httpResp) = inr chatResp →
  value (chatWithQwen c w messages opts)
  = match ChatCompletionResponse.Choices chatResp with
    | [] => inl (ErrMsg "no response from API")
    | choice :: _ =>
        inr (convertChoice choice (ChatCompletionResponse.Usage_ chatResp))
    end.
Proof.
  unfold chatWithQwen, value, bind, emit, ret.
  destruct (buildQwenChatCompletionRequest c messages opts false) as [l qreq].
  cbn [fst snd]. intros -> ->. fold (qwenHTTPRequest c jsonData).
  intros -> -> ->. cbn.
  by destruct (ChatCompletionResponse.Choices chatResp).
Qed.

Lemma Chat_generic_value `{strings.CaseTables} c w messages opts :
  isAliyunQwen3Model c = false →
  value (Chat c w messages opts)
  = match World.CreateChatCompletion w
            (value (buildChatCompletionRequest c messages opts false)) with
    | inl err => inl (ErrWrap "create chat completion" err)
    | inr resp =>
        match ChatCompletionResponse.Choices resp with
        | [] => inl (ErrMsg "no response from OpenAI")
        | choice :: _ =>
            inr (convertChoice choice (ChatCompletionResponse.Usage_ resp))
        end
    end.
Proof.
  intros Hq. unfold Chat, value, bind, emit, ret. rewrite Hq.
  destruct (buildChatCompletionRequest c messages opts false) as [l req].
  cbn [fst snd].
  destruct (World.CreateChatCompletion w req) as [err | resp]; [done |].
  by destruct (ChatCompletionResponse.Choices resp).
Qed.

Lemma convertChoice_tool_calls choice usage :
  ChatResponse.ToolCalls (convertChoice choice usage)
  = map translateToolCall
        (ChatCompletionMessage.ToolCalls (ChatCompletionChoice.Message choice)).
Proof.
  unfold convertChoice. cbn [ChatResponse.ToolCalls].
  by destruct (ChatCompletionMessage.ToolCalls _).
Qed.

Lemma httpRequests_logs l :
  Forall (λ e, isLog e = true) l → httpRequests l = [].
Proof.
  induction 1 as [|e l He Hl IH]; [done |].
  by destruct e.
Qed.

Lemma httpRequests_after_logs l1 l2 :
  Forall (λ e, isLog e = true) l1 → httpRequests (l1 ++ l2) = httpRequests l2.
Proof.
  intros H. unfold httpRequests. rewrite omap_app.
  fold (httpRequests l1). by rewrite (httpRequests_logs l1 H).
Qed.

Lemma logs_are_not_client_calls l :
  Forall (λ e, isLog e = true) l → Forall (λ e, isClientCall e = false) l.
Proof. intros H. eapply Forall_impl; [exact H |]. by intros []. Qed.

(** C8. For a model of the Q family (the name starts with qwen3- and the
    base URL is the DashScope compatible-mode endpoint), non-streaming [Chat]
    never calls the generic client; the request it builds has the
    enable_thinking field set to false whatever the options say; every HTTP
    request it sends is a POST to the chat/completions path under the base
    URL whose body is the encoding of that request; and it sends exactly one
    such request whenever the encoding and the creation of the HTTP request
    succeed. *)
Theorem qwen_chat_posts_with_thinking_disabled `{strings.CaseTables}
    (c : RemoteAPIChat.t) (w : World.t)
    (messages : list chat.Message.t) (opts : option chat.ChatOptions.t) :
  isAliyunQwen3Model c = true →
  let run := Chat c w messages opts in
  let qreq := value (buildQwenChatCompletionRequest c messages opts false) in
  ((∃ rest, modelName c = "qwen3-" +:+ rest)
   ∧ baseURL c = "https://dashscope.aliyuncs.com/compatible-mode/v1")
  ∧ QwenChatCompletionRequest.EnableThinking qreq = Some false
  ∧ Forall (λ e, isClientCall e = false) (effects run)
  ∧ (∀ r, r ∈ httpRequests (effects run) →
       http.Request.Method r = "POST"
       ∧ http.Request.URL r = baseURL c +:+ "/chat/completions"
       ∧ World.jsonMarshal w qreq = inr (http.Request.Body r))
  ∧ (∀ jsonData,
       World.jsonMarshal w qreq = inr jsonData →
       World.NewRequestWithContext w "POST"
         (baseURL c +:+ "/chat/completions") jsonData = None →
       httpRequests (effects run) = [qwenHTTPRequest c jsonData]).
Proof.
  intros Hq run qreq. subst run qreq.
  pose proof (buildChatCompletionRequest_effects c messages opts false) as Hlogs.
  unfold Chat. rewrite Hq, chatWithQwen_effects.
  rewrite (httpRequests_after_logs _ _ Hlogs).
  split; [| split; [| split; [| split]]].
  - unfold isAliyunQwen3Model in Hq. apply andb_prop in Hq as [Hp Hu].
    apply HasPrefix_spec in Hp. by apply String.eqb_eq in Hu.
  - by rewrite buildQwenChatCompletionRequest_value.
  - apply Forall_app. split; [by apply logs_are_not_client_calls |].
    destruct (World.jsonMarshal w _) as [err | jsonData]; [constructor |].
    destruct (World.NewRequestWithContext w _ _ jsonData);
      by repeat constructor.
  - intros r Hr.
    destruct (World.jsonMarshal w _) as [err | jsonData];
      [by apply elem_of_nil in Hr |].
    destruct (World.NewRequestWithContext w _ _ jsonData);
      [by apply elem_of_nil in Hr |].
    apply list_elem_of_singleton in Hr as ->. done.
  - by intros jsonData -> ->.
Qed.

Section Examples.

Local Existing Instance Scenario.tables.

Lemma qwen_chat_posts_with_thinking_disabled_witness :
  QwenChatCompletionRequest.EnableThinking
    (value (buildQwenChatCompletionRequest qwen []
              (Some (options half float64_zero 0 (Some true) "")) false))
  = Some false
  ∧ httpRequests
      (effects (Chat qwen (remoteWorld (inl eof) toolCallResponse) []
                  (Some (options half float64_zero 0 (Some true) ""))))
    = [qwenHTTPRequest qwen "{}"].
Proof.
  pose proof (qwen_chat_posts_with_thinking_disabled
                qwen (remoteWorld (inl eof) toolCallResponse) []
                (Some (options half float64_zero 0 (Some true) "")) eq_refl) as H.
  cbv zeta in H. destruct H as (_ & Hthinking & _ & _ & Hsent).
  split; [exact Hthinking |].
  apply Hsent; reflexivity.
Defined.


(** The request of the Q family still carries the thinking option of the
    caller in its chat_template_kwargs, next to the top-level field. *)
Example qwen_request_keeps_template_kwargs :
  ChatCompletionRequest.ChatTemplateKwargs
    (QwenChatCompletionRequest.ChatCompletionRequest
       (value (buildQwenChatCompletionRequest qwen []
                 (Some (options half float64_zero 0 (Some true) "")) false)))
  !! "enable_thinking" = Some (anyBool true).
Proof. vm_compute. reflexivity. Qed.

End Examples.

(** C9. Non-streaming [Chat] on the remote adapter, once the provider has
    answered: on the generic path (the client returned a response) and on
    the raw path of the Q family (the HTTP exchange succeeded with status
    200 and the body was decoded), a response without choices makes [Chat]
    return an error and no response; otherwise [Chat] returns the conversion
    of the first choice, whose content and finish reason are those of the
    choice, whose usage is that of the response, and whose tool calls are
    the tool calls of the choice translated one by one, in order. *)
Theorem chat_fails_without_choices_else_converts_first `{strings.CaseTables}
    (c : RemoteAPIChat.t) (w : World.t)
    (messages : list chat.Message.t) (opts : option chat.ChatOptions.t)
    (resp : ChatCompletionResponse.t) :
  let converted (noChoices : string) : error + ChatResponse.t :=
    match ChatCompletionResponse.Choices resp with
    | [] => inl (ErrMsg noChoices)
    | choice :: _ =>
        inr {| ChatResponse.Content :=
                 ChatCompletionMessage.Content
                   (ChatCompletionChoice.Message choice);
               ChatResponse.FinishReason :=
                 ChatCompletionChoice.FinishReason choice;
               ChatResponse.Usage_ :=
                 {| types.Usage.PromptTokens :=
                      Usage.PromptTokens (ChatCompletionResponse.Usage_ resp);
                    types.Usage.CompletionTokens :=
                      Usage.CompletionTokens (ChatCompletionResponse.Usage_ resp);
                    types.Usage.TotalTokens :=
                      Usage.TotalTokens (ChatCompletionResponse.Usage_ resp) |};
               ChatResponse.ToolCalls :=
                 map translateToolCall
                     (ChatCompletionMessage.ToolCalls
                        (ChatCompletionChoice.Message choice)) |}
    end in
  (isAliyunQwen3Model c = false →
   World.CreateChatCompletion w
     (value (buildChatCompletionRequest c messages opts false)) = inr resp →
   value (Chat c w messages opts) = converted "no response from OpenAI")
  ∧ (isAliyunQwen3Model c = true →
     ∀ jsonData httpResp,
       World.jsonMarshal w
         (value (buildQwenChatCompletionRequest c messages opts false))
       = inr jsonData →
       World.NewRequestWithContext w "POST"
         (baseURL c +:+ "/chat/completions") jsonData = None →
       World.Do w (qwenHTTPRequest c jsonData) = inr httpResp →
       http.Response.StatusCode httpResp = http.StatusOK →
       World.jsonDecode w (http.Response.Body httpResp) = inr resp →
       value (Chat c w messages opts) = converted "no response from API").
Proof.
  intros converted. subst converted. split.
  - intros Hq Hresp. rewrite (Chat_generic_value _ _ _ _ Hq), Hresp.
    destruct (ChatCompletionResponse.Choices resp) as [|choice ?]; [done |].
    f_equal. pose proof (convertChoice_tool_calls choice
                           (ChatCompletionResponse.Usage_ resp)) as Htc.
    unfold convertChoice in *. cbn [ChatResponse.ToolCalls] in Htc.
    by rewrite Htc.
  - intros Hq jsonData httpResp Hm Hn Hdo Hstatus Hdecode.
    unfold Chat. rewrite Hq.
    rewrite (chatWithQwen_value _ _ _ _ _ _ _ Hm Hn Hdo Hstatus Hdecode).
    destruct (ChatCompletionResponse.Choices resp) as [|choice ?]; [done |].
    f_equal. pose proof (convertChoice_tool_calls choice
                           (ChatCompletionResponse.Usage_ resp)) as Htc.
    unfold convertChoice in *. cbn [ChatResponse.ToolCalls] in Htc.
    by rewrite Htc.
Qed.

Section Examples.

Local Existing Instance Scenario.tables.

Lemma chat_fails_without_choices_else_converts_first_witness :
  value (Chat gpt (remoteWorld (inl eof) emptyResponse) [] None)
  = inl (ErrMsg "no response from OpenAI")
  ∧ value (Chat qwen (remoteWorld (inl eof) emptyResponse) [] None)
    = inl (ErrMsg "no response from API")
  ∧ value (Chat gpt (remoteWorld (inl eof) toolCallResponse) [] None)
    = inr {| ChatResponse.Content := "";
             ChatResponse.FinishReason := "tool_calls";
             ChatResponse.Usage_ :=
               {| types.Usage.PromptTokens := 7;
                  types.Usage.CompletionTokens := 5;
                  types.Usage.TotalTokens := 12 |};
             ChatResponse.ToolCalls := [searchCall] |}.
Proof.
  split; [| split].
  - pose proof (chat_fails_without_choices_else_converts_first
                  gpt (remoteWorld (inl eof) emptyResponse) [] None
                  emptyResponse) as H.
    cbv zeta in H. destruct H as (H & _). apply H; reflexivity.
  - pose proof (chat_fails_without_choices_else_converts_first
                  qwen (remoteWorld (inl eof) emptyResponse) [] None
                  emptyResponse) as H.
    cbv zeta in H. destruct H as (_ & H).
    apply (H eq_refl "{}"
             {| http.Response.StatusCode := 200; http.Response.Body := "{}" |});
      reflexivity.
  - pose proof (chat_fails_without_choices_else_converts_first
                  gpt (remoteWorld (inl eof) toolCallResponse) [] None
                  toolCallResponse) as H.
    cbv zeta in H. destruct H as (H & _). apply H; reflexivity.
Defined.

End Examples.

End ChatFacts.

(** ** The local adapter and tools *)

Module LocalFacts.

Import types Spec Scenario StreamFacts.

Lemma local_Chat_requests c w messages opts :
  runtimeRequests (effects (OllamaChat.Chat c w messages opts))
  = match OllamaChat.World.EnsureModelAvailable w (OllamaChat.modelName c) with
    | Some _ => []
    | None => [OllamaChat.buildChatRequest c messages opts false]
    end.
Proof.
  unfold OllamaChat.Chat, OllamaChat.ensureModelAvailable, effects, bind, emit, ret.
  cbn [fst snd].
  destruct (OllamaChat.World.EnsureModelAvailable w (OllamaChat.modelName c));
    [done |].
  destruct (OllamaChat.World.Chat w _) as [responses err].
  destruct (foldl OllamaChat.chatCallback _ responses) as [[? ?] ?].
  by destruct err.
Qed.

Lemma local_ChatStream_requests c w messages opts :
  runtimeRequests (effects (OllamaChat.ChatStream c w messages opts))
  = match OllamaChat.World.EnsureModelAvailable w (OllamaChat.modelName c) with
    | Some _ => []
    | None => [OllamaChat.buildChatRequest c messages opts true]
    end.
Proof.
  unfold OllamaChat.ChatStream, OllamaChat.ensureModelAvailable,
    OllamaChat.streamWorker, effects, bind, emit, ret.
  cbn [fst snd].
  destruct (OllamaChat.World.EnsureModelAvailable w (OllamaChat.modelName c));
    [done |].
  by destruct (OllamaChat.World.Chat w _) as [responses [err |]].
Qed.

Lemma local_callbacks_plain responses :
  Forall plainAnswer (concat (map OllamaChat.streamCallback responses)).
Proof.
  induction responses as [|resp responses IH]; [constructor |].
  cbn [map concat]. apply Forall_app. split; [| done].
  unfold OllamaChat.streamCallback.
  destruct (nonEmpty _), (ollamaapi.ChatResponse.Done resp);
    by repeat constructor.
Qed.

(** C10. The local adapter drops everything about tools. The request it
    builds has no tools, and its messages are the role and content of the
    messages given, with no tool calls; replacing the tools and the tool
    choice of the options, or the name, tool-call id and tool calls of a
    message, changes nothing in what is built. The only requests [Chat] and
    [ChatStream] hand to the runtime are those requests. Every event of the
    stream is of type answer, with no tool-call snapshot and no data. *)
Theorem local_adapter_discards_tools
    (c : OllamaChat.t) (w : OllamaChat.World.t)
    (messages : list chat.Message.t) (opts : option chat.ChatOptions.t)
    (isStream : bool) :
  let chatReq := OllamaChat.buildChatRequest c messages opts isStream in
  ollamaapi.ChatRequest.Tools chatReq = []
  ∧ ollamaapi.ChatRequest.Messages chatReq
    = map (λ msg, {| ollamaapi.Message.Role := chat.Message.Role msg;
                     ollamaapi.Message.Content := chat.Message.Content msg;
                     ollamaapi.Message.ToolCalls := [] |}) messages
  ∧ (∀ o tools toolChoice,
       OllamaChat.buildChatRequest c messages
         (Some (withTools o tools toolChoice)) isStream
       = OllamaChat.buildChatRequest c messages (Some o) isStream)
  ∧ (∀ msg name toolCallID toolCalls,
       OllamaChat.convertMessages c [withToolFields msg name toolCallID toolCalls]
       = OllamaChat.convertMessages c [msg])
  ∧ runtimeRequests (effects (OllamaChat.Chat c w messages opts))
    = (if OllamaChat.World.EnsureModelAvailable w (OllamaChat.modelName c)
       is Some _ then []
       else [OllamaChat.buildChatRequest c messages opts false])
  ∧ runtimeRequests (effects (OllamaChat.ChatStream c w messages opts))
    = (if OllamaChat.World.EnsureModelAvailable w (OllamaChat.modelName c)
       is Some _ then []
       else [OllamaChat.buildChatRequest c messages opts true])
  ∧ (∀ sent, value (OllamaChat.ChatStream c w messages opts) = inr sent →
             Forall plainAnswer sent).
Proof.
  intros chatReq. subst chatReq.
  split; [by destruct opts |].
  split; [by destruct opts |].
  split; [done |].
  split; [done |].
  split; [apply local_Chat_requests |].
  split; [apply local_ChatStream_requests |].
  intros sent. rewrite local_ChatStream_value.
  destruct (OllamaChat.World.EnsureModelAvailable w _); [done |].
  cbv zeta. intros [= <-]. apply Forall_app. split.
  - apply local_callbacks_plain.
  - destruct (OllamaChat.World.Chat w _).2; by repeat constructor.
Qed.

(** A call with tools on the local adapter: the runtime answers with some
    text and reports done; the stream is the text and the done event. *)
Example local_stream_with_tools :
  value (OllamaChat.ChatStream local
           (localWorld None [localResponse "Hello" false; localResponse "" true]
              None)
           [] (Some (withTools negativeOptions [] "required")))
  = inr [ OllamaChat.answerEvent "Hello" false; OllamaChat.answerEvent "" true ].
Proof. vm_compute. reflexivity. Qed.

End LocalFacts.

(** ** More on the remote adapter: requests and calls *)

Module RemoteRequestFacts.

Import types openai RemoteAPIChat Spec Scenario ChatTerms WireTerms.

Lemma guarded_content (s : string) : (if nonEmpty s then s else "") = s.
Proof.
  destruct (nonEmpty s) eqn:E; [done |]. by apply nonEmpty_false in E.
Qed.

Lemma guarded_map {A B} (f : A → B) (l : list A) :
  (if (0 <? length l)%nat then map f l else []) = map f l.
Proof. by destruct l. Qed.

Lemma map_eq_through {A B C} (f : A → B) (g : A → C) :
  (∀ x y, f x = f y ↔ g x = g y) →
  ∀ l1 l2, map f l1 = map f l2 ↔ map g l1 = map g l2.
Proof.
  intros Hfg. induction l1 as [|x l1 IH]; intros [|y l2]; cbn; try done.
  split; intros [= Hx Hl]; f_equal; (by apply Hfg) || (by apply IH).
Qed.

Lemma map_inj_eq {A B} (f : A → B) :
  Inj (=) (=) f → ∀ l1 l2, map f l1 = map f l2 → l1 = l2.
Proof.
  intros Hf. induction l1 as [|x l1 IH]; intros [|y l2]; cbn [map]; try done.
  intros [= Hx Hl]. f_equal; [by apply Hf | by apply IH].
Qed.

Lemma translateMessageToolCall_inj : Inj (=) (=) translateMessageToolCall.
Proof. by intros [id1 ty1 [n1 a1]] [id2 ty2 [n2 a2]] [= -> -> -> ->]. Qed.

Lemma convertMessages_unfold c messages :
  convertMessages c messages
  = map (λ msg,
           {| ChatCompletionMessage.Role := chat.Message.Role msg;
              ChatCompletionMessage.Content := chat.Message.Content msg;
              ChatCompletionMessage.Name :=
                chat.Message.Name (wireView msg);
              ChatCompletionMessage.ToolCalls :=
                map translateMessageToolCall (chat.Message.ToolCalls msg);
              ChatCompletionMessage.ToolCallID :=
                chat.Message.ToolCallID (wireView msg) |}) messages.
Proof.
  unfold convertMessages. apply map_ext. intros msg.
  by rewrite guarded_content, guarded_map.
Qed.

(** X1. The conversion of messages into the wire format of the remote
    provider keeps their number and order, their roles and their contents
    (an empty content included), and is lossless up to the name and
    tool-call id of messages whose role is not tool: two lists convert to
    the same wire messages exactly when they agree on role, content and tool
    calls, and on name and tool-call id where the role is tool. *)
Theorem remote_convertMessages_lossless
    (c : RemoteAPIChat.t) (ms1 ms2 : list chat.Message.t) :
  length (convertMessages c ms1) = length ms1
  ∧ map ChatCompletionMessage.Role (convertMessages c ms1)
    = map chat.Message.Role ms1
  ∧ map ChatCompletionMessage.Content (convertMessages c ms1)
    = map chat.Message.Content ms1
  ∧ (convertMessages c ms1 = convertMessages c ms2
     ↔ map wireView ms1 = map wireView ms2).
Proof.
  rewrite !convertMessages_unfold.
  split; [apply length_map |].
  split; [by rewrite map_map |].
  split; [by rewrite map_map |].
  apply map_eq_through. intros m1 m2. unfold wireView.
  destruct m1 as [r1 c1 n1 id1 tc1], m2 as [r2 c2 n2 id2 tc2]. cbn. split.
  - intros [= -> -> Hn Htc Hid]. f_equal; try done.
    by apply (map_inj_eq translateMessageToolCall translateMessageToolCall_inj).
  - by intros [= -> -> -> -> ->].
Qed.

Lemma buildChatCompletionRequest_stream `{strings.CaseTables} c messages opts isStream :
  buildChatCompletionRequest c messages opts isStream
  = ((buildChatCompletionRequest c messages opts false).1,
     withStream isStream (buildChatCompletionRequest c messages opts false).2).
Proof.
  unfold buildChatCompletionRequest, bind, ret.
  destruct opts as [o |]; [| done].
  by destruct (buildToolChoice c (chat.ChatOptions.ToolChoice o)).
Qed.

(** X2. Streaming and non-streaming requests are shaped alike: the request
    built for one stream flag is the request built for non-streaming with
    the flag replaced, and building it logs the same. The request of the Q
    family differs by the flag and by its enable_thinking field, which is
    false for non-streaming and absent for streaming. *)
Theorem request_shape_independent_of_stream `{strings.CaseTables}
    (c : RemoteAPIChat.t) (messages : list chat.Message.t)
    (opts : option chat.ChatOptions.t) (isStream : bool) :
  value (buildChatCompletionRequest c messages opts isStream)
  = withStream isStream (value (buildChatCompletionRequest c messages opts false))
  ∧ effects (buildChatCompletionRequest c messages opts isStream)
    = effects (buildChatCompletionRequest c messages opts false)
  ∧ QwenChatCompletionRequest.ChatCompletionRequest
      (value (buildQwenChatCompletionRequest c messages opts isStream))
    = value (buildChatCompletionRequest c messages opts isStream)
  ∧ QwenChatCompletionRequest.EnableThinking
      (value (buildQwenChatCompletionRequest c messages opts isStream))
    = (if isStream then None else Some false).
Proof.
  unfold value, effects, buildQwenChatCompletionRequest, bind, ret.
  rewrite buildChatCompletionRequest_stream.
  destruct (buildChatCompletionRequest c messages opts false) as [l req].
  cbn [fst snd]. repeat split. by destruct isStream.
Qed.

(** X3. Whatever the model, the D family included, the request carries the
    tools of the options translated one by one in order, and a
    chat_template_kwargs map with the single key enable_thinking, bound to
    the thinking option of the caller, or to false when the caller sets none
    or gives no options. *)
Theorem tools_and_thinking_always_attached `{strings.CaseTables}
    (c : RemoteAPIChat.t) (messages : list chat.Message.t)
    (opts : option chat.ChatOptions.t) (isStream : bool) :
  let req := value (buildChatCompletionRequest c messages opts isStream) in
  ChatCompletionRequest.Tools req
  = map translateTool (from_option chat.ChatOptions.Tools [] opts)
  ∧ ChatCompletionRequest.ChatTemplateKwargs req
    = {[ "enable_thinking" :=
           anyBool (default false (opts ≫= chat.ChatOptions.Thinking)) ]}.
Proof.
  intros req. subst req.
  unfold value, buildChatCompletionRequest, bind, ret.
  destruct opts as [o |]; [| done].
  destruct (buildToolChoice c (chat.ChatOptions.ToolChoice o)) as [l tc].
  cbn. split; [| done].
  unfold convertTools. rewrite guarded_map. apply map_ext.
  intros [ty [n d [p |]]]; done.
Qed.





End RemoteRequestFacts.

(** ** More on the remote adapter: failures, text and snapshots *)

Module RemoteStreamMoreFacts.

Import types openai RemoteAPIChat Spec Scenario ChatTerms AccumulatorFacts
  ChatFacts.

(** X5. The stages at which the raw call of the Q family fails, each with
    its own error and no response: the encoding of the request and the
    creation of the HTTP request fail before anything is sent; a transport
    error, a status other than 200 (the body is then not decoded) and an
    undecodable body fail after the one request was sent. *)
Theorem qwen_chat_failure_stages `{strings.CaseTables}
    (c : RemoteAPIChat.t) (w : World.t)
    (messages : list chat.Message.t) (opts : option chat.ChatOptions.t) :
  let qreq := value (buildQwenChatCompletionRequest c messages opts false) in
  let endpoint := baseURL c +:+ "/chat/completions" in
  let run := chatWithQwen c w messages opts in
  (∀ err, World.jsonMarshal w qreq = inl err →
     value run = inl (ErrWrap "marshal request" err)
     ∧ httpRequests (effects run) = [])
  ∧ (∀ jsonData err,
       World.jsonMarshal w qreq = inr jsonData →
       World.NewRequestWithContext w "POST" endpoint jsonData = Some err →
       value run = inl (ErrWrap "create request" err)
       ∧ httpRequests (effects run) = [])
  ∧ (∀ jsonData,
       World.jsonMarshal w qreq = inr jsonData →
       World.NewRequestWithContext w "POST" endpoint jsonData = None →
       httpRequests (effects run) = [qwenHTTPRequest c jsonData]
       ∧ (∀ err, World.Do w (qwenHTTPRequest c jsonData) = inl err →
            value run = inl (ErrWrap "send request" err))
       ∧ (∀ resp, World.Do w (qwenHTTPRequest c jsonData) = inr resp →
            http.Response.StatusCode resp ≠ http.StatusOK →
            value run = inl (ErrStatus (http.Response.StatusCode resp)))
       ∧ (∀ resp err, World.Do w (qwenHTTPRequest c jsonData) = inr resp →
            http.Response.StatusCode resp = http.StatusOK →
            World.jsonDecode w (http.Response.Body resp) = inl err →
            value run = inl (ErrWrap "decode response" err))).
Proof.
  intros qreq endpoint run. subst qreq endpoint run.
  pose proof (buildChatCompletionRequest_effects c messages opts false) as Hlogs.
  rewrite chatWithQwen_effects, (httpRequests_after_logs _ _ Hlogs).
  unfold chatWithQwen, value, bind, emit, ret.
  destruct (buildQwenChatCompletionRequest c messages opts false) as [l qreq].
  cbn [fst snd].
  split; [| split].
  - by intros err ->.
  - by intros jsonData err -> ->.
  - intros jsonData -> ->. fold (qwenHTTPRequest c jsonData).
    split; [done |]. split; [| split].
    + by intros err ->.
    + intros resp -> Hstatus.
      apply Z.eqb_neq in Hstatus. by rewrite Hstatus.
    + intros resp err -> Hstatus ->.
      apply Z.eqb_eq in Hstatus. by rewrite Hstatus.
Qed.

Section Examples.

Local Existing Instance Scenario.tables.

Lemma qwen_chat_failure_stages_witness :
  value (chatWithQwen qwen
           (World.mk (λ _, inr emptyResponse) (λ _, inl eof)
              (λ _, inr "{}") (λ _ _ _, None)
              (λ _, inr {| http.Response.StatusCode := 429;
                           http.Response.Body := "slow down" |})
              (λ _, inr emptyResponse))
           [] None)
  = inl (ErrStatus 429).
Proof.
  pose proof (qwen_chat_failure_stages qwen
                (World.mk (λ _, inr emptyResponse) (λ _, inl eof)
                   (λ _, inr "{}") (λ _ _ _, None)
                   (λ _, inr {| http.Response.StatusCode := 429;
                                http.Response.Body := "slow down" |})
                   (λ _, inr emptyResponse))
                [] None) as H.
  cbv zeta in H. destruct H as (_ & _ & H).
  destruct (H "{}" eq_refl eq_refl) as (_ & _ & Hstatus & _).
  apply (Hstatus {| http.Response.StatusCode := 429;
                    http.Response.Body := "slow down" |}); [reflexivity | done].
Defined.

End Examples.

(** *** Text *)

Lemma pieces_app l1 l2 : pieces (l1 ++ l2) = pieces l1 ++ pieces l2.
Proof. apply filter_app. Qed.

Lemma pieces_singleton s : pieces [s] = if nonEmpty s then [s] else [].
Proof.
  unfold pieces. destruct (nonEmpty s) eqn:E.
  - by rewrite filter_cons_True.
  - rewrite filter_cons_False; [done | by rewrite E].
Qed.

Lemma notifications_have_no_text st tcs :
  pieces (map StreamResponse.Content (notifications st tcs).*2) = [].
Proof.
  revert st. induction tcs as [|tc tcs IH]; intros st; [done |].
  cbn [notifications]. rewrite fmap_app, map_app, pieces_app, IH, app_nil_r.
  unfold processToolCall. cbn [snd]. by destruct (notifies st tc).
Qed.

Lemma processResponse_text st response :
  pieces (map StreamResponse.Content (processResponse st response).2)
  = pieces [deltaContent response].
Proof.
  unfold processResponse, deltaContent.
  destruct (ChatCompletionStreamResponse.Choices response) as [|choice ?];
    [done |].
  pose proof (processToolCalls_events st
    (ChatCompletionStreamChoiceDelta.ToolCalls
       (ChatCompletionStreamChoice.Delta choice))) as Hev.
  destruct (processToolCalls _ _) as [st1 ev1]. cbn [snd] in *.
  rewrite !map_app, !pieces_app, Hev, notifications_have_no_text.
  cbn [app].
  replace (pieces (map StreamResponse.Content
             (if nonEmpty (ChatCompletionStreamChoice.FinishReason choice)
                 && (0 <? size (acc.toolCallMap st1))%nat
              then [answerEvent "" true (acc.toolCallMap st1)] else [])))
    with (@nil string) by (by destruct (_ && _)).
  rewrite app_nil_r, pieces_singleton.
  by destruct (nonEmpty (ChatCompletionStreamChoiceDelta.Content _)) eqn:Hc;
    cbn [map answerEvent StreamResponse.Content];
    rewrite ?pieces_singleton, ?Hc.
Qed.

(** X6. The remote stream forwards the text without loss and in order: the
    non-empty contents of the events sent are the non-empty contents of the
    chunks received (those of the first choice of each chunk), one event per
    chunk with text, whatever tool-call fragments and finish reasons come
    with them. *)
Theorem remote_stream_forwards_text
    (chunks : list ChatCompletionStreamResponse.t) (recvErr : error) :
  pieces (map StreamResponse.Content (recvLoop emptyAcc chunks recvErr))
  = pieces (map deltaContent chunks).
Proof.
  generalize emptyAcc.
  induction chunks as [|response chunks IH]; intros st; [done |].
  cbn [recvLoop map].
  pose proof (processResponse_text st response) as Htext.
  destruct (processResponse st response) as [st' ev]. cbn [snd] in Htext.
  rewrite map_app, pieces_app, Htext, IH.
  change (deltaContent response :: map deltaContent chunks)
    with ([deltaContent response] ++ map deltaContent chunks).
  by rewrite pieces_app.
Qed.

(** *** Chunks without choices, and further choices *)

Lemma processResponse_firstChoiceOnly st response :
  processResponse st (firstChoiceOnly response) = processResponse st response.
Proof.
  unfold processResponse, firstChoiceOnly.
  cbn [ChatCompletionStreamResponse.Choices].
  by destruct (ChatCompletionStreamResponse.Choices response).
Qed.

(** X7. The receive loop only looks at the first choice of a chunk: a chunk
    without choices changes nothing and sends nothing, so dropping such
    chunks from a stream leaves the events as they are, and so does dropping
    every choice after the first. *)
Theorem only_first_choices_count
    (st : acc.t) (chunks : list ChatCompletionStreamResponse.t)
    (recvErr : error) :
  recvLoop st (filter (λ response, hasChoices response = true) chunks) recvErr
  = recvLoop st chunks recvErr
  ∧ recvLoop st (map firstChoiceOnly chunks) recvErr
    = recvLoop st chunks recvErr.
Proof.
  split; revert st; induction chunks as [|response chunks IH]; intros st;
    try done.
  - destruct (hasChoices response) eqn:Hc.
    + rewrite filter_cons_True by done. cbn [recvLoop].
      destruct (processResponse st response). by rewrite IH.
    + rewrite filter_cons_False by (by rewrite Hc). cbn [recvLoop].
      unfold processResponse. unfold hasChoices in Hc.
      destruct (ChatCompletionStreamResponse.Choices response); [| done].
      apply IH.
  - cbn [recvLoop map]. rewrite processResponse_firstChoiceOnly.
    destruct (processResponse st response). by rewrite IH.
Qed.

(** *** Snapshots *)

Lemma StronglySorted_seqZ (n : nat) : ∀ m,
  StronglySorted Z.lt (seqZ m (Z.of_nat n)).
Proof.
  induction n as [|n IH]; intros m; [constructor |].
  rewrite seqZ_cons by lia.
  replace (Z.pred (Z.of_nat (S n))) with (Z.of_nat n) by lia.
  constructor; [apply IH |].
  apply Forall_forall. intros x Hx. apply elem_of_seqZ in Hx. lia.
Qed.

Lemma omap_indices {B} (f : Z → option B) (l : list Z) :
  StronglySorted Z.lt l →
  ∃ indices,
    StronglySorted Z.lt indices
    ∧ Forall (λ i, i ∈ l) indices
    ∧ Forall2 (λ i e, f i = Some e) indices (omap f l).
Proof.
  induction 1 as [|x l Hl IH Hx].
  { exists []. repeat constructor. }
  destruct IH as (indices & Hsorted & Hin & Hall). cbn.
  destruct (f x) as [e |] eqn:Hfx.
  - exists (x :: indices). split; [| split].
    + constructor; [done |].
      eapply Forall_impl; [exact Hin |]. intros i Hi. cbn in Hi.
      rewrite Forall_forall in Hx. by apply Hx.
    + constructor; [left |]. eapply Forall_impl; [exact Hin |].
      intros i Hi. by right.
    + by constructor.
  - exists indices. split; [done |]. split; [| done].
    eapply Forall_impl; [exact Hin |]. intros i Hi. by right.
Qed.

Lemma omap_length_le {A B} (f : A → option B) (l : list A) :
  length (omap f l) ≤ length l.
Proof.
  induction l as [|x l IH]; [done |]. cbn. destruct (f x); cbn; lia.
Qed.

(** X8. What a snapshot holds, for every state of the accumulator: entries
    of the map, found under indices that increase strictly along the
    snapshot (hence no entry twice) and lie between 0 and the number of
    entries; so a snapshot is never longer than the map has entries. *)
Theorem snapshot_entries_ascend (m : gmap Z LLMToolCall.t) :
  ∃ indices,
    StronglySorted Z.lt indices
    ∧ Forall (λ i, (0 ≤ i < Z.of_nat (size m))%Z) indices
    ∧ Forall2 (λ i e, m !! i = Some e) indices (buildOrderedToolCalls m)
    ∧ length (buildOrderedToolCalls m) ≤ size m.
Proof.
  rewrite buildOrderedToolCalls_spec.
  destruct (omap_indices (λ i, m !! i) _ (StronglySorted_seqZ (size m) 0))
    as (indices & Hsorted & Hin & Hall).
  exists indices. split; [done |]. split; [| split; [done |]].
  - eapply Forall_impl; [exact Hin |]. intros i Hi. cbn in Hi.
    apply elem_of_seqZ in Hi. lia.
  - pose proof (length_seqZ 0 (Z.of_nat (size m))) as Hlen.
    pose proof (omap_length_le (λ i, m !! i) (seqZ 0 (Z.of_nat (size m)))).
    lia.
Qed.

End RemoteStreamMoreFacts.

(** ** Dense snapshots *)

Module SnapshotFacts.

Import types openai RemoteAPIChat Spec Scenario ChatTerms AccumulatorFacts
  MoreScenario.

Lemma dense_all_present (m : gmap Z LLMToolCall.t) :
  dense m → ∀ i, (0 ≤ i < Z.of_nat (size m))%Z → is_Some (m !! i).
Proof.
  intros Hdense i Hi.
  set (S := list_to_set (seqZ 0 (Z.of_nat (size m))) : gset Z).
  assert (dom m = S) as Hdom.
  { apply set_subseteq_size_eq.
    - intros j Hj. apply elem_of_dom in Hj. apply Hdense in Hj.
      apply elem_of_list_to_set, elem_of_seqZ. lia.
    - rewrite size_dom. unfold S.
      rewrite size_list_to_set by apply NoDup_seqZ.
      rewrite length_seqZ. lia. }
  apply elem_of_dom. rewrite Hdom.
  apply elem_of_list_to_set, elem_of_seqZ. lia.
Qed.

Lemma omap_total {A B} (f : A → option B) (l : list A) :
  Forall (λ x, is_Some (f x)) l →
  length (omap f l) = length l ∧ ∀ k, omap f l !! k = l !! k ≫= f.
Proof.
  induction 1 as [|x l [y Hx] Hl [IHlen IH]]; [done |].
  cbn. rewrite Hx. cbn. split; [by rewrite IHlen |].
  intros [|k]; cbn; [done | apply IH].
Qed.

(** X9. When the indices in use are the first ones, with no gap, the
    snapshot is complete: it has as many entries as the map, and its entry
    at position [k] is the one accumulated under index [k]. *)
Theorem dense_snapshot_is_complete (m : gmap Z LLMToolCall.t) :
  dense m →
  length (buildOrderedToolCalls m) = size m
  ∧ ∀ k : nat, buildOrderedToolCalls m !! k = m !! Z.of_nat k.
Proof.
  intros Hdense. rewrite buildOrderedToolCalls_spec.
  destruct (omap_total (λ i, m !! i) (seqZ 0 (Z.of_nat (size m)))) as [Hlen Hk].
  { apply Forall_forall. intros i Hi. apply elem_of_seqZ in Hi.
    apply dense_all_present; [done | lia]. }
  split; [rewrite Hlen, length_seqZ; lia |].
  intros k. rewrite Hk.
  destruct (decide (k < size m)) as [Hlt | Hge].
  - rewrite lookup_seqZ_lt by lia. done.
  - rewrite lookup_seqZ_ge by lia. cbn.
    destruct (m !! Z.of_nat k) as [e |] eqn:He; [| done].
    specialize (Hdense _ (mk_is_Some _ _ He)). lia.
Qed.

Lemma dense_snapshot_is_complete_witness :
  length (buildOrderedToolCalls twoCalls) = size twoCalls
  ∧ ∀ k : nat, buildOrderedToolCalls twoCalls !! k = twoCalls !! Z.of_nat k.
Proof.
  apply dense_snapshot_is_complete.
  intros i [e Hi]. change (size twoCalls) with 2.
  destruct (decide (i = 1%Z)) as [-> | H1]; [lia |].
  destruct (decide (i = 0%Z)) as [-> | H0]; [lia |].
  unfold twoCalls in Hi.
  rewrite lookup_insert_ne, lookup_singleton_ne in Hi by done. done.
Defined.

End SnapshotFacts.

(** ** More on the local adapter *)

Module LocalMoreFacts.

Import types Spec Scenario ChatTerms MoreScenario RemoteStreamMoreFacts.

(** The variables the callback of [Chat] has set after the responses. *)
Lemma chatCallback_fold responses :
  foldl OllamaChat.chatCallback ("", 0%Z, 0%Z) responses
  = (from_option responseContent "" (last responses),
     from_option ollamaapi.ChatResponse.PromptEvalCount 0%Z
       (lastCounted responses),
     from_option (λ resp, wrap64 (ollamaapi.ChatResponse.EvalCount resp
                                  - ollamaapi.ChatResponse.PromptEvalCount resp))
       0%Z (lastCounted responses)).
Proof.
  induction responses as [|resp responses IH] using rev_ind; [done |].
  rewrite foldl_app, IH. cbn [foldl]. unfold OllamaChat.chatCallback.
  rewrite last_snoc. unfold lastCounted. rewrite filter_app.
  destruct (0 <? ollamaapi.ChatResponse.EvalCount resp)%Z eqn:E.
  - apply Z.ltb_lt in E. rewrite (filter_cons_True _ _ []) by done.
    by rewrite filter_nil, last_snoc.
  - apply Z.ltb_ge in E. rewrite (filter_cons_False _ _ []) by lia.
    by rewrite filter_nil, app_nil_r.
Qed.

Lemma wrap64_total (p e : Z) : inInt64 e → wrap64 (p + wrap64 (e - p)) = e.
Proof.
  unfold inInt64, wrap64. intros He.
  replace (p + ((e - p + 2 ^ 63) mod 2 ^ 64 - 2 ^ 63) + 2 ^ 63)%Z
    with (p + (e - p + 2 ^ 63) mod 2 ^ 64)%Z by lia.
  rewrite Z.add_mod_idemp_r by lia.
  replace (p + (e - p + 2 ^ 63))%Z with (e + 2 ^ 63)%Z by lia.
  rewrite Z.mod_small by lia. lia.
Qed.

(** X10. What a successful non-streaming [Chat] on the local adapter
    returns: the content of the last response the runtime handed to the
    callback (empty without any), no finish reason and no tool calls. The
    token counts come from the last response with a positive eval count:
    the prompt tokens are its prompt eval count, the completion tokens the
    difference of its eval count and prompt eval count, and the total is its
    eval count itself; without such a response all three are zero. *)
Theorem local_chat_reports_last_response
    (c : OllamaChat.t) (w : OllamaChat.World.t)
    (messages : list chat.Message.t) (opts : option chat.ChatOptions.t)
    (responses : list ollamaapi.ChatResponse.t) :
  OllamaChat.World.EnsureModelAvailable w (OllamaChat.modelName c) = None →
  OllamaChat.World.Chat w (OllamaChat.buildChatRequest c messages opts false)
  = (responses, None) →
  ∃ resp,
    value (OllamaChat.Chat c w messages opts) = inr resp
    ∧ ChatResponse.Content resp
      = from_option responseContent "" (last responses)
    ∧ ChatResponse.FinishReason resp = ""
    ∧ ChatResponse.ToolCalls resp = []
    ∧ match lastCounted responses with
      | None =>
          ChatResponse.Usage_ resp
          = {| Usage.PromptTokens := 0; Usage.CompletionTokens := 0;
               Usage.TotalTokens := 0 |}
      | Some counted =>
          Usage.PromptTokens (ChatResponse.Usage_ resp)
          = ollamaapi.ChatResponse.PromptEvalCount counted
          ∧ Usage.CompletionTokens (ChatResponse.Usage_ resp)
            = wrap64 (ollamaapi.ChatResponse.EvalCount counted
                      - ollamaapi.ChatResponse.PromptEvalCount counted)
          ∧ (inInt64 (ollamaapi.ChatResponse.EvalCount counted) →
             Usage.TotalTokens (ChatResponse.Usage_ resp)
             = ollamaapi.ChatResponse.EvalCount counted)
      end.
Proof.
  intros Havailable Hrun.
  unfold OllamaChat.Chat, OllamaChat.ensureModelAvailable, value, bind, emit, ret.
  cbn [fst snd]. rewrite Havailable, Hrun, chatCallback_fold. cbn [snd].
  eexists. split; [reflexivity |]. cbn.
  repeat split.
  destruct (lastCounted responses) as [counted |]; cbn; [| done].
  repeat split. apply wrap64_total.
Qed.

Lemma local_chat_reports_last_response_witness :
  ∃ resp,
    value (OllamaChat.Chat local
             (localWorld None
                [countedResponse "Hel" 0 0; countedResponse "Hello" 12 30] None)
             [] None)
    = inr resp
    ∧ ChatResponse.Content resp = "Hello"
    ∧ Usage.TotalTokens (ChatResponse.Usage_ resp) = 30%Z.
Proof.
  destruct (local_chat_reports_last_response local
              (localWorld None
                 [countedResponse "Hel" 0 0; countedResponse "Hello" 12 30] None)
              [] None
              [countedResponse "Hel" 0 0; countedResponse "Hello" 12 30]
              eq_refl eq_refl)
    as (resp & Hvalue & Hcontent & _ & _ & Husage).
  exists resp. split; [exact Hvalue |]. split; [exact Hcontent |].
  cbn in Husage. destruct Husage as (_ & _ & Htotal).
  apply Htotal. unfold inInt64. split; by vm_compute.
Defined.

(** X11. How non-streaming [Chat] on the local adapter fails: when the model
    cannot be made available, the error of that step is returned as it is
    and the runtime is not asked to chat; when the runtime call returns an
    error, that error is returned wrapped, and nothing of the responses
    received before it. *)
Theorem local_chat_failures
    (c : OllamaChat.t) (w : OllamaChat.World.t)
    (messages : list chat.Message.t) (opts : option chat.ChatOptions.t) :
  (∀ err,
     OllamaChat.World.EnsureModelAvailable w (OllamaChat.modelName c) = Some err →
     value (OllamaChat.Chat c w messages opts) = inl err
     ∧ outbound (effects (OllamaChat.Chat c w messages opts))
       = [OllamaEnsureModelAvailable (OllamaChat.modelName c)])
  ∧ (∀ responses err,
       OllamaChat.World.EnsureModelAvailable w (OllamaChat.modelName c) = None →
       OllamaChat.World.Chat w (OllamaChat.buildChatRequest c messages opts false)
       = (responses, Some err) →
       value (OllamaChat.Chat c w messages opts)
       = inl (ErrWrap "chat request failed" err)
       ∧ outbound (effects (OllamaChat.Chat c w messages opts))
         = [OllamaEnsureModelAvailable (OllamaChat.modelName c);
            OllamaChat (OllamaChat.buildChatRequest c messages opts false)]).
Proof.
  unfold OllamaChat.Chat, OllamaChat.ensureModelAvailable, value, effects,
    bind, emit, ret.
  cbn [fst snd]. split.
  - by intros err ->.
  - intros responses err -> ->.
    by destruct (foldl OllamaChat.chatCallback _ responses) as [[? ?] ?].
Qed.

Lemma local_streamCallback_text resp :
  pieces (map StreamResponse.Content (OllamaChat.streamCallback resp))
  = pieces [responseContent resp]
  ∧ Forall (λ ev, StreamResponse.Done ev = true → StreamResponse.Content ev = "")
           (OllamaChat.streamCallback resp).
Proof.
  unfold OllamaChat.streamCallback, responseContent. split.
  - rewrite map_app, pieces_app, pieces_singleton.
    destruct (nonEmpty _) eqn:Hc, (ollamaapi.ChatResponse.Done resp);
      cbn [map OllamaChat.answerEvent StreamResponse.Content];
      rewrite ?pieces_singleton, ?Hc; done.
  - apply Forall_app. split.
    + destruct (nonEmpty _); repeat constructor. done.
    + destruct (ollamaapi.ChatResponse.Done resp); repeat constructor.
Qed.

(** X12. The local stream forwards the text without loss and in order: the
    non-empty contents of the events sent are the non-empty contents of the
    responses of the runtime; and an event marked done never carries text
    (a response that reports done with text gives two events). *)
Theorem local_stream_forwards_text
    (c : OllamaChat.t) (w : OllamaChat.World.t)
    (chatReq : ollamaapi.ChatRequest.t) :
  let sent := value (OllamaChat.streamWorker c w chatReq) in
  pieces (map StreamResponse.Content sent)
  = pieces (map responseContent (OllamaChat.World.Chat w chatReq).1)
  ∧ Forall (λ ev, StreamResponse.Done ev = true → StreamResponse.Content ev = "")
           sent.
Proof.
  intros sent. subst sent.
  unfold OllamaChat.streamWorker, value, bind, emit, ret.
  destruct (OllamaChat.World.Chat w chatReq) as [responses err]. cbn [fst snd].
  assert (pieces (map StreamResponse.Content
                    (concat (map OllamaChat.streamCallback responses)))
          = pieces (map responseContent responses)
          ∧ Forall (λ ev, StreamResponse.Done ev = true
                          → StreamResponse.Content ev = "")
                   (concat (map OllamaChat.streamCallback responses)))
    as [Htext Hdone].
  { induction responses as [|resp responses [IH1 IH2]]; [by split |].
    destruct (local_streamCallback_text resp) as [H1 H2].
    cbn [map concat]. split.
    - rewrite map_app, pieces_app, H1, IH1. by rewrite <- pieces_app.
    - by apply Forall_app. }
  destruct err as [err |]; cbn [snd]; [| by split].
  split.
  - rewrite map_app, pieces_app, Htext.
    cbn [map OllamaChat.answerEvent StreamResponse.Content].
    rewrite pieces_singleton. cbn. by rewrite app_nil_r.
  - apply Forall_app. split; [done |]. by repeat constructor.
Qed.

End LocalMoreFacts.

(** ** The backend selector *)

Module SelectorFacts.

Import Selector MoreScenario.

(** X13. [NewChat] selects the adapter by the source of the configuration
    read without regard to case: remote gives the remote adapter built from
    the configuration; local gives the local adapter when the container
    provides the Ollama service, and neither an adapter nor an error when it
    does not; any other source is refused with an error that quotes the
    source as given. *)
Theorem NewChat_selects_by_source `{strings.CaseTables}
    (ollamaService : bool) (config : chat.ChatConfig.t) :
  let source := strings.ToLower (chat.ChatConfig.Source config) in
  (source = "remote" →
   NewChat ollamaService config
   = inr (Some (ChatRemote
                  {| RemoteAPIChat.modelName := chat.ChatConfig.ModelName config;
                     RemoteAPIChat.modelID := chat.ChatConfig.ModelID config;
                     RemoteAPIChat.baseURL := chat.ChatConfig.BaseURL config;
                     RemoteAPIChat.apiKey := chat.ChatConfig.APIKey config |})))
  ∧ (source = "local" →
     NewChat ollamaService config
     = inr (if ollamaService
            then Some (ChatOllama
                         {| OllamaChat.modelName := chat.ChatConfig.ModelName config;
                            OllamaChat.modelID := chat.ChatConfig.ModelID config |})
            else None))
  ∧ (source ≠ "local" → source ≠ "remote" →
     NewChat ollamaService config
     = inl (ErrMsg ("unsupported chat model source: "
                    +:+ chat.ChatConfig.Source config))).
Proof.
  intros source. subst source. unfold NewChat, ModelSourceLocal, ModelSourceRemote.
  split; [| split].
  - by intros ->.
  - intros ->. by destruct ollamaService.
  - intros Hl Hr. apply String.eqb_neq in Hl, Hr. by rewrite Hl, Hr.
Qed.

Section Examples.

Local Existing Instance Scenario.tables.

Lemma NewChat_selects_by_source_witness :
  NewChat false (config "Remote")
  = inr (Some (ChatRemote Scenario.gpt))
  ∧ NewChat false (config "LOCAL") = inr None
  ∧ NewChat true (config "cloud")
    = inl (ErrMsg "unsupported chat model source: cloud").
Proof.
  split; [| split].
  - pose proof (NewChat_selects_by_source false (config "Remote")) as H.
    cbv zeta in H. destruct H as (H & _). apply H. reflexivity.
  - pose proof (NewChat_selects_by_source false (config "LOCAL")) as H.
    cbv zeta in H. destruct H as (_ & H & _). apply H. reflexivity.
  - pose proof (NewChat_selects_by_source true (config "cloud")) as H.
    cbv zeta in H. destruct H as (_ & _ & H). apply H; discriminate.
Defined.

End Examples.

End SelectorFacts.

(** ** Chunk flags *)

Module ChunkFlagsFacts.

Import ChunkFlags.

Local Open Scope Z_scope.

Lemma land_pow2 (x k : Z) :
  0 ≤ k → Z.land x (2 ^ k) = if Z.testbit x k then 2 ^ k else 0.
Proof.
  intros Hk. apply Z.bits_inj'. intros n Hn.
  rewrite Z.land_spec, Z.pow2_bits_eqb by done.
  destruct (Z.eqb_spec k n) as [-> | Hne].
  - rewrite andb_true_r. destruct (Z.testbit x n) eqn:E.
    + by rewrite Z.pow2_bits_true.
    + by rewrite Z.bits_0.
  - rewrite andb_false_r. destruct (Z.testbit x k).
    + by rewrite Z.pow2_bits_false.
    + by rewrite Z.bits_0.
Qed.

Lemma HasFlag_pow2 (f k : Z) : 0 ≤ k → HasFlag f (2 ^ k) = Z.testbit f k.
Proof.
  intros Hk. unfold HasFlag. rewrite land_pow2 by done.
  destruct (Z.testbit f k); [| done].
  apply negb_true_iff, Z.eqb_neq.
  pose proof (Z.pow_pos_nonneg 2 k). lia.
Qed.

(** X14. Setting, clearing and toggling a flag, read back with [HasFlag]:
    after [SetFlag] a non-zero flag is reported set, after [ClearFlag] any
    flag is reported clear, [ToggleFlag] applied twice restores the flags,
    and for a flag of a single bit (such as [ChunkFlagRecommended])
    [ToggleFlag] inverts what [HasFlag] reports. [HasFlag] never reports the
    zero flag. *)
Theorem flag_operations_read_back (f flag : Z) :
  (flag ≠ 0 → HasFlag (SetFlag f flag) flag = true)
  ∧ HasFlag (ClearFlag f flag) flag = false
  ∧ ToggleFlag (ToggleFlag f flag) flag = f
  ∧ (∀ k, 0 ≤ k → flag = 2 ^ k →
          HasFlag (ToggleFlag f flag) flag = negb (HasFlag f flag))
  ∧ HasFlag f 0 = false
  ∧ ChunkFlagRecommended = 2 ^ 0.
Proof.
  unfold SetFlag, ClearFlag, ToggleFlag.
  split; [| split; [| split; [| split; [| split]]]].
  - intros Hflag. unfold HasFlag.
    replace (Z.land (Z.lor f flag) flag) with flag.
    + by apply negb_true_iff, Z.eqb_neq.
    + apply Z.bits_inj'. intros n Hn.
      rewrite Z.land_spec, Z.lor_spec. by destruct (Z.testbit f n), (Z.testbit flag n).
  - unfold HasFlag.
    replace (Z.land (Z.land f (Z.lnot flag)) flag) with 0; [done |].
    apply Z.bits_inj'. intros n Hn.
    rewrite !Z.land_spec, Z.lnot_spec, Z.bits_0 by done.
    by destruct (Z.testbit f n), (Z.testbit flag n).
  - by rewrite Z.lxor_assoc, Z.lxor_nilpotent, Z.lxor_0_r.
  - intros k Hk ->. rewrite !HasFlag_pow2 by done.
    rewrite Z.lxor_spec, Z.pow2_bits_true by done.
    by destruct (Z.testbit f k).
  - unfold HasFlag. by rewrite Z.land_0_r.
  - done.
Qed.

(** X15. The flag operations leave the other flags alone: for a flag
    [other] that shares no bit with [flag], [HasFlag] reports the same for
    [other] before and after [flag] is set, cleared or toggled. Setting and
    clearing are idempotent, and each undoes the other on the flag. *)
Theorem flag_operations_keep_other_flags (f flag other : Z) :
  Z.land flag other = 0 →
  HasFlag (SetFlag f flag) other = HasFlag f other
  ∧ HasFlag (ClearFlag f flag) other = HasFlag f other
  ∧ HasFlag (ToggleFlag f flag) other = HasFlag f other
  ∧ SetFlag (SetFlag f flag) flag = SetFlag f flag
  ∧ ClearFlag (ClearFlag f flag) flag = ClearFlag f flag
  ∧ ClearFlag (SetFlag f flag) flag = ClearFlag f flag
  ∧ SetFlag (ClearFlag f flag) flag = SetFlag f flag.
Proof.
  intros Hdisjoint.
  assert (∀ n, 0 ≤ n → Z.testbit flag n && Z.testbit other n = false) as Hbits.
  { intros n Hn. by rewrite <- Z.land_spec, Hdisjoint, Z.bits_0. }
  unfold HasFlag, SetFlag, ClearFlag, ToggleFlag.
  repeat split.
  - f_equal. f_equal. apply Z.bits_inj'. intros n Hn.
    specialize (Hbits n Hn). rewrite !Z.land_spec, Z.lor_spec.
    by destruct (Z.testbit f n), (Z.testbit flag n), (Z.testbit other n).
  - f_equal. f_equal. apply Z.bits_inj'. intros n Hn.
    specialize (Hbits n Hn). rewrite !Z.land_spec, Z.lnot_spec by done.
    by destruct (Z.testbit f n), (Z.testbit flag n), (Z.testbit other n).
  - f_equal. f_equal. apply Z.bits_inj'. intros n Hn.
    specialize (Hbits n Hn). rewrite !Z.land_spec, Z.lxor_spec.
    by destruct (Z.testbit f n), (Z.testbit flag n), (Z.testbit other n).
  - apply Z.bits_inj'. intros n Hn. rewrite !Z.lor_spec.
    by destruct (Z.testbit f n), (Z.testbit flag n).
  - apply Z.bits_inj'. intros n Hn. rewrite !Z.land_spec, Z.lnot_spec by done.
    by destruct (Z.testbit f n), (Z.testbit flag n).
  - apply Z.bits_inj'. intros n Hn.
    rewrite !Z.land_spec, Z.lor_spec, Z.lnot_spec by done.
    by destruct (Z.testbit f n), (Z.testbit flag n).
  - apply Z.bits_inj'. intros n Hn.
    rewrite !Z.lor_spec, Z.land_spec, Z.lnot_spec by done.
    by destruct (Z.testbit f n), (Z.testbit flag n).
Qed.

Lemma flag_operations_keep_other_flags_witness :
  HasFlag (ClearFlag 3 ChunkFlagRecommended) 2 = HasFlag 3 2.
Proof.
  apply (flag_operations_keep_other_flags 3 ChunkFlagRecommended 2).
  reflexivity.
Defined.

End ChunkFlagsFacts.

(** ** FAQ metadata *)

Module faqFacts.

Import faq faqTerms.

Lemma firstOccurrences_elem_of l x : x ∈ firstOccurrences l ↔ x ∈ l.
Proof.
  induction l as [|y l IH]; [done |]. cbn [firstOccurrences].
  rewrite !elem_of_cons, list_elem_of_filter, IH.
  destruct (decide (x = y)); tauto.
Qed.

Lemma firstOccurrences_NoDup l : NoDup (firstOccurrences l).
Proof.
  induction l as [|y l IH]; [constructor |]. cbn [firstOccurrences].
  apply NoDup_cons. split; [| by apply NoDup_filter].
  rewrite list_elem_of_filter. tauto.
Qed.

Lemma filter_all_true (P : string → Prop) `{∀ x, Decision (P x)} l :
  Forall P l → filter P l = l.
Proof.
  induction 1 as [|x l Hx Hl IH]; [done |]. by rewrite filter_cons_True, IH.
Qed.

Lemma firstOccurrences_id l : NoDup l → firstOccurrences l = l.
Proof.
  induction 1 as [|x l Hx Hl IH]; [done |]. cbn [firstOccurrences].
  rewrite IH. f_equal. apply filter_all_true, Forall_forall.
  intros y Hy ->. done.
Qed.

Lemma firstOccurrences_sublist l : firstOccurrences l `sublist_of` l.
Proof.
  induction l as [|x l IH]; [done |]. cbn [firstOccurrences].
  apply sublist_skip. etrans; [apply sublist_filter | done].
Qed.

Section WithLibrary.

Variable TrimSpace : string → string.

Lemma normalize_loop values : ∀ (dedup : list string) (seen : gset string),
  (∀ x, x ∈ seen ↔ x ∈ dedup) →
  (foldl (normalizeStep TrimSpace) (dedup, seen) values).1
  = dedup
    ++ filter (λ x, x ∉ dedup)
         (firstOccurrences (filter (λ x, x ≠ "") (TrimSpace <$> values))).
Proof.
  induction values as [|v values IH]; intros dedup seen Hseen.
  { cbn. by rewrite app_nil_r. }
  cbn [foldl fmap list_fmap]. unfold normalizeStep at 2.
  destruct (String.eqb_spec (TrimSpace v) "") as [Hempty | Hne].
  { rewrite filter_cons_False by (by intros ?). by apply IH. }
  rewrite filter_cons_True by done. cbn [firstOccurrences].
  destruct (decide (TrimSpace v ∈ seen)) as [Hin | Hnotin].
  - rewrite (IH dedup seen Hseen).
    rewrite filter_cons_False by (intros Hn; apply Hn; by apply Hseen).
    rewrite list_filter_filter. f_equal. apply list_filter_iff.
    intros x. split; [intros Hx | by intros [? ?]].
    split; [done |]. intros ->. apply Hx. by apply Hseen.
  - rewrite (IH (dedup ++ [TrimSpace v]) ({[TrimSpace v]} ∪ seen)).
    2:{ intros x. rewrite elem_of_union, elem_of_singleton, elem_of_app,
          list_elem_of_singleton, Hseen. tauto. }
    rewrite filter_cons_True by (by rewrite <- Hseen).
    rewrite <- app_assoc. cbn [app]. do 2 f_equal.
    rewrite list_filter_filter. apply list_filter_iff.
    intros x. rewrite elem_of_app, list_elem_of_singleton. tauto.
Qed.

Lemma normalizeStrings_firstOccurrences values :
  normalizeStrings TrimSpace values
  = firstOccurrences (filter (λ x, x ≠ "") (TrimSpace <$> values)).
Proof.
  unfold normalizeStrings.
  rewrite (normalize_loop values [] ∅) by set_solver. cbn [app].
  rewrite filter_all_true by (apply Forall_forall; intros x _; apply not_elem_of_nil).
  destruct values as [|v values]; [done |]. cbn [length Nat.eqb].
  by destruct (firstOccurrences _).
Qed.

Lemma normalizeStrings_NoDup values : NoDup (normalizeStrings TrimSpace values).
Proof.
  rewrite normalizeStrings_firstOccurrences. apply firstOccurrences_NoDup.
Qed.

(** X16. What [normalizeStrings] returns, whatever [strings.TrimSpace]
    does: the trimmed values that are not empty, each once, at the place of
    its first occurrence. So the result has no duplicates and no empty
    string, and holds exactly the non-empty trimmed values, in the order in
    which they first occur. *)
Theorem normalizeStrings_trims_and_deduplicates (values : list string) :
  let result := normalizeStrings TrimSpace values in
  result = firstOccurrences (filter (λ x, x ≠ "") (TrimSpace <$> values))
  ∧ NoDup result
  ∧ (∀ x, x ∈ result ↔ x ≠ "" ∧ ∃ v, v ∈ values ∧ x = TrimSpace v)
  ∧ result `sublist_of` (TrimSpace <$> values).
Proof.
  intros result. subst result. rewrite normalizeStrings_firstOccurrences.
  split; [done |]. split; [apply firstOccurrences_NoDup |]. split.
  - intros x. rewrite firstOccurrences_elem_of, list_elem_of_filter,
      list_elem_of_fmap.
    split; [intros [Hne (v & -> & Hv)] | intros (Hne & v & Hv & ->)]; eauto.
  - etrans; [apply firstOccurrences_sublist | apply sublist_filter].
Qed.

Lemma normalizeStrings_idempotent values :
  (∀ s, TrimSpace (TrimSpace s) = TrimSpace s) →
  normalizeStrings TrimSpace (normalizeStrings TrimSpace values)
  = normalizeStrings TrimSpace values.
Proof.
  intros Hidem.
  rewrite (normalizeStrings_firstOccurrences (normalizeStrings TrimSpace values)).
  set (r := normalizeStrings TrimSpace values).
  assert (Forall (λ x, x ≠ "" ∧ TrimSpace x = x) r) as Hr.
  { apply Forall_forall. intros x Hx. unfold r in Hx.
    rewrite normalizeStrings_firstOccurrences, firstOccurrences_elem_of,
      list_elem_of_filter, list_elem_of_fmap in Hx.
    destruct Hx as (Hne & v & -> & _). by rewrite Hidem. }
  assert (TrimSpace <$> r = r) as ->.
  { clear -Hr. induction Hr as [|x l [_ Hx] Hl IH]; [done |].
    cbn. by rewrite Hx, IH. }
  rewrite filter_all_true by (eapply Forall_impl; [exact Hr | by intros ? []]).
  apply firstOccurrences_id. unfold r.
  rewrite normalizeStrings_firstOccurrences. apply firstOccurrences_NoDup.
Qed.

Lemma Normalize_twice (m : FAQChunkMetadata.t) :
  (∀ s, TrimSpace (TrimSpace s) = TrimSpace s) →
  Normalize TrimSpace (Normalize TrimSpace m) = Normalize TrimSpace m.
Proof.
  intros Hidem. unfold Normalize. cbn.
  rewrite !normalizeStrings_idempotent, Hidem by done. f_equal.
  destruct (Z.leb_spec (FAQChunkMetadata.Version m) 0); [done |].
  destruct (Z.leb_spec (FAQChunkMetadata.Version m) 0); [lia | done].
Qed.

(** X17. [Normalize] is idempotent, given that [strings.TrimSpace] is: a
    normalized entry is left as it is. After [Normalize] the version is at
    least 1, and a positive version is kept. *)
Theorem Normalize_is_idempotent (m : FAQChunkMetadata.t) :
  (∀ s, TrimSpace (TrimSpace s) = TrimSpace s) →
  Normalize TrimSpace (Normalize TrimSpace m) = Normalize TrimSpace m
  ∧ (1 ≤ FAQChunkMetadata.Version (Normalize TrimSpace m))%Z
  ∧ ((0 < FAQChunkMetadata.Version m)%Z →
     FAQChunkMetadata.Version (Normalize TrimSpace m)
     = FAQChunkMetadata.Version m).
Proof.
  intros Hidem. split; [by apply Normalize_twice |].
  unfold Normalize. cbn. split.
  - destruct (Z.leb_spec (FAQChunkMetadata.Version m) 0); lia.
  - intros Hpos. destruct (Z.leb_spec (FAQChunkMetadata.Version m) 0); lia.
Qed.

Variable sha256hex : string → string.
Variable jsonMarshal : FAQChunkMetadata.t → error + string.

Lemma sortStrings_same_elements l1 l2 :
  NoDup l1 → NoDup l2 → (∀ x, x ∈ l1 ↔ x ∈ l2) →
  sortStrings l1 = sortStrings l2.
Proof.
  intros H1 H2 Hsame. unfold sortStrings.
  apply (Sorted_unique String.le).
  - apply Sorted_merge_sort. apply _.
  - apply Sorted_merge_sort. apply _.
  - rewrite !merge_sort_Permutation. by apply NoDup_Permutation.
Qed.

(** X18. The content hash of an FAQ entry depends only on the trimmed
    standard question and on which non-empty trimmed similar questions,
    negative questions and answers the entry has: two entries that agree on
    these have the same hash, whatever the order, repetition and surrounding
    white space of their lists, and whatever their answer strategy, version
    and source. *)
Theorem content_hash_ignores_order_and_duplicates
    (m1 m2 : FAQChunkMetadata.t) :
  TrimSpace (FAQChunkMetadata.StandardQuestion m1)
  = TrimSpace (FAQChunkMetadata.StandardQuestion m2) →
  (∀ x, x ∈ normalizeStrings TrimSpace (FAQChunkMetadata.SimilarQuestions m1)
        ↔ x ∈ normalizeStrings TrimSpace (FAQChunkMetadata.SimilarQuestions m2)) →
  (∀ x, x ∈ normalizeStrings TrimSpace (FAQChunkMetadata.NegativeQuestions m1)
        ↔ x ∈ normalizeStrings TrimSpace (FAQChunkMetadata.NegativeQuestions m2)) →
  (∀ x, x ∈ normalizeStrings TrimSpace (FAQChunkMetadata.Answers m1)
        ↔ x ∈ normalizeStrings TrimSpace (FAQChunkMetadata.Answers m2)) →
  CalculateFAQContentHash TrimSpace sha256hex (Some m1)
  = CalculateFAQContentHash TrimSpace sha256hex (Some m2).
Proof.
  intros Hq Hs Hn Ha. unfold CalculateFAQContentHash, hashInput, Normalize.
  cbv zeta.
  cbn [FAQChunkMetadata.StandardQuestion FAQChunkMetadata.SimilarQuestions
       FAQChunkMetadata.NegativeQuestions FAQChunkMetadata.Answers].
  rewrite Hq.
  rewrite (sortStrings_same_elements _ _
             (normalizeStrings_NoDup _) (normalizeStrings_NoDup _) Hs).
  rewrite (sortStrings_same_elements _ _
             (normalizeStrings_NoDup _) (normalizeStrings_NoDup _) Hn).
  rewrite (sortStrings_same_elements _ _
             (normalizeStrings_NoDup _) (normalizeStrings_NoDup _) Ha).
  done.
Qed.

(** X19. [SetFAQMetadata] stores, with the JSON text of the normalized
    metadata, the content hash of the metadata it was given: normalizing
    first does not change the hash. The caller's metadata is normalized in
    place also when the encoding fails, in which case the chunk is left as
    it was. Given [nil], the metadata and the hash of the chunk are
    cleared. *)
Theorem SetFAQMetadata_stores_content_hash
    (c : Chunk.t) (m : FAQChunkMetadata.t) :
  (∀ s, TrimSpace (TrimSpace s) = TrimSpace s) →
  match jsonMarshal (Normalize TrimSpace m) with
  | inl err =>
      SetFAQMetadata TrimSpace sha256hex jsonMarshal c (Some m)
      = (c, Some (Normalize TrimSpace m), Some err)
  | inr bytes =>
      SetFAQMetadata TrimSpace sha256hex jsonMarshal c (Some m)
      = ({| Chunk.Metadata := Some bytes;
            Chunk.ContentHash :=
              CalculateFAQContentHash TrimSpace sha256hex (Some m) |},
         Some (Normalize TrimSpace m), None)
  end
  ∧ SetFAQMetadata TrimSpace sha256hex jsonMarshal c None
    = ({| Chunk.Metadata := None; Chunk.ContentHash := "" |}, None, None).
Proof.
  intros Hidem. split; [| done]. unfold SetFAQMetadata.
  destruct (jsonMarshal (Normalize TrimSpace m)) as [err | bytes]; [done |].
  do 3 f_equal. unfold CalculateFAQContentHash, hashInput.
  by rewrite (Normalize_twice m Hidem).
Qed.

Variable jsonUnmarshal : string → error + FAQChunkMetadata.t.

(** X20. Reading back what was set: when the JSON library decodes the text
    it produced for the normalized metadata to that metadata again,
    [FAQMetadata] on a chunk written by [SetFAQMetadata] returns the
    normalized metadata. On a chunk whose metadata was cleared, or is
    empty, it returns [nil] and no error, without decoding. *)
Theorem FAQMetadata_reads_back_what_was_set
    (c : Chunk.t) (m : FAQChunkMetadata.t) (bytes : string) :
  (∀ s, TrimSpace (TrimSpace s) = TrimSpace s) →
  jsonMarshal (Normalize TrimSpace m) = inr bytes →
  bytes ≠ "" →
  jsonUnmarshal bytes = inr (Normalize TrimSpace m) →
  FAQMetadata TrimSpace jsonUnmarshal
    (SetFAQMetadata TrimSpace sha256hex jsonMarshal c (Some m)).1.1
  = (Some (Normalize TrimSpace m), None)
  ∧ FAQMetadata TrimSpace jsonUnmarshal
      (SetFAQMetadata TrimSpace sha256hex jsonMarshal c None).1.1
    = (None, None)
  ∧ FAQMetadata TrimSpace jsonUnmarshal
      {| Chunk.Metadata := Some ""; Chunk.ContentHash := Chunk.ContentHash c |}
    = (None, None).
Proof.
  intros Hidem Hmarshal Hne Hunmarshal. split; [| done].
  unfold SetFAQMetadata. rewrite Hmarshal. cbn [fst]. unfold FAQMetadata.
  cbn [Chunk.Metadata]. destruct bytes as [|a bytes]; [done |].
  cbn [String.length Nat.eqb]. rewrite Hunmarshal.
  by rewrite (Normalize_twice m Hidem).
Qed.

End WithLibrary.

Lemma trimRight_idempotent s : trimRight (trimRight s) = trimRight s.
Proof.
  induction s as [|c s IH]; [done |]. cbn [trimRight].
  destruct (trimRight s) as [|a r] eqn:Hs.
  - destruct (isSpace c) eqn:Hc; [done |]. cbn [trimRight]. by rewrite Hc.
  - change (trimRight (String c (String a r)))
      with (match trimRight (String a r) with
            | EmptyString => if isSpace c then EmptyString else String c EmptyString
            | rest => String c rest
            end).
    by rewrite IH.
Qed.

Lemma trimLeft_trimRight s :
  trimLeft (trimRight (trimLeft s)) = trimRight (trimLeft s).
Proof.
  induction s as [|c s IH]; [done |]. cbn [trimLeft].
  destruct (isSpace c) eqn:Hc; [done |]. cbn [trimRight].
  destruct (trimRight s) as [|a r].
  - rewrite Hc. cbn [trimLeft]. by rewrite Hc.
  - cbn [trimLeft]. by rewrite Hc.
Qed.

(** The ASCII [TrimSpace] is idempotent. *)
Lemma TrimSpace_idempotent s : TrimSpace (TrimSpace s) = TrimSpace s.
Proof.
  unfold TrimSpace. by rewrite trimLeft_trimRight, trimRight_idempotent.
Qed.

Lemma Normalize_is_idempotent_witness :
  Normalize TrimSpace (Normalize TrimSpace entryB) = Normalize TrimSpace entryB
  ∧ (1 ≤ FAQChunkMetadata.Version (Normalize TrimSpace entryB))%Z
  ∧ FAQChunkMetadata.Version (Normalize TrimSpace entryB) = 3%Z.
Proof.
  pose proof (Normalize_is_idempotent TrimSpace entryB TrimSpace_idempotent)
    as (Hidem & Hversion & Hkept).
  split; [exact Hidem |]. split; [exact Hversion |].
  rewrite Hkept; [reflexivity |]. by vm_compute.
Defined.

Lemma content_hash_ignores_order_and_duplicates_witness :
  CalculateFAQContentHash TrimSpace sampleHash (Some entryA)
  = CalculateFAQContentHash TrimSpace sampleHash (Some entryB).
Proof.
  apply (content_hash_ignores_order_and_duplicates TrimSpace sampleHash
           entryA entryB).
  - by vm_compute.
  - assert (normalizeStrings TrimSpace (FAQChunkMetadata.SimilarQuestions entryA)
            = ["reset"; "password"]) as -> by (by vm_compute).
    assert (normalizeStrings TrimSpace (FAQChunkMetadata.SimilarQuestions entryB)
            = ["password"; "reset"]) as -> by (by vm_compute).
    intros x. rewrite !elem_of_cons. tauto.
  - assert (normalizeStrings TrimSpace (FAQChunkMetadata.NegativeQuestions entryA)
            = []) as -> by (by vm_compute).
    assert (normalizeStrings TrimSpace (FAQChunkMetadata.NegativeQuestions entryB)
            = []) as -> by (by vm_compute).
    done.
  - assert (normalizeStrings TrimSpace (FAQChunkMetadata.Answers entryA)
            = ["Click reset."]) as -> by (by vm_compute).
    assert (normalizeStrings TrimSpace (FAQChunkMetadata.Answers entryB)
            = ["Click reset."]) as -> by (by vm_compute).
    done.
Defined.

Lemma SetFAQMetadata_stores_content_hash_witness :
  SetFAQMetadata TrimSpace sampleHash sampleMarshal
    {| Chunk.Metadata := None; Chunk.ContentHash := "" |} (Some entryA)
  = ({| Chunk.Metadata := Some "How to reset?";
        Chunk.ContentHash :=
          CalculateFAQContentHash TrimSpace sampleHash (Some entryA) |},
     Some (Normalize TrimSpace entryA), None).
Proof.
  exact (proj1 (SetFAQMetadata_stores_content_hash TrimSpace sampleHash
                  sampleMarshal
                  {| Chunk.Metadata := None; Chunk.ContentHash := "" |}
                  entryA TrimSpace_idempotent)).
Defined.

Lemma FAQMetadata_reads_back_what_was_set_witness :
  FAQMetadata TrimSpace sampleUnmarshal
    (SetFAQMetadata TrimSpace sampleHash sampleMarshal
       {| Chunk.Metadata := None; Chunk.ContentHash := "" |} (Some entryB)).1.1
  = (Some (Normalize TrimSpace entryB), None).
Proof.
  refine (proj1 (FAQMetadata_reads_back_what_was_set TrimSpace sampleHash
                   sampleMarshal sampleUnmarshal
                   {| Chunk.Metadata := None; Chunk.ContentHash := "" |}
                   entryB "How to reset?" TrimSpace_idempotent _ _ _)).
  - by vm_compute.
  - discriminate.
  - by vm_compute.
Defined.

End faqFacts.

(** ** The authentication middleware *)

Module AuthFacts.

Import middleware AuthTerms AuthScenario.

Lemma eqb_true_iff (a b : string) : String.eqb a b = true ↔ a = b.
Proof. apply String.eqb_eq. Qed.

(** X21. The requests that need no authentication are exactly GET /health
    and POST to the register, login and refresh endpoints: the path and the
    method are compared as they are, so a longer path, a trailing slash or a
    method in lower case is not exempt, and no entry matches by prefix. *)
Theorem isNoAuthAPI_exact (path method : string) :
  isNoAuthAPI path method = true
  ↔ (path = "/health" ∧ method = "GET")
    ∨ (method = "POST"
       ∧ (path = "/api/v1/auth/register" ∨ path = "/api/v1/auth/login"
          ∨ path = "/api/v1/auth/refresh")).
Proof.
  unfold isNoAuthAPI, noAuthAPI. cbv [existsb slicesContains].
  change (HasSuffix "/health" "*") with false.
  change (HasSuffix "/api/v1/auth/register" "*") with false.
  change (HasSuffix "/api/v1/auth/login" "*") with false.
  change (HasSuffix "/api/v1/auth/refresh" "*") with false.
  cbv iota. rewrite !orb_false_r, !orb_true_iff, !andb_true_iff, !eqb_true_iff.
  tauto.
Qed.

Lemma canAccessTenant_value user target cfg :
  canAccessTenant user target cfg
  = crossTenantEnabled cfg && User.CanAccessAllTenants user.
Proof.
  unfold canAccessTenant, crossTenantEnabled.
  destruct cfg as [[[tenant|]]|]; [| done | done]. cbn.
  destruct (TenantConfig.EnableCrossTenantAccess tenant); [| done].
  destruct (User.CanAccessAllTenants user); [| done]. cbn.
  by destruct (User.TenantID user =? target)%Z.
Qed.

Lemma substring_all s : String.substring 0 (String.length s) s = s.
Proof. induction s as [|c s IH]; [done |]. cbn. by rewrite IH. Qed.

Lemma substring_after prefix : ∀ rest,
  String.substring (String.length prefix)
    (String.length (prefix +:+ rest) - String.length prefix) (prefix +:+ rest)
  = rest.
Proof.
  induction prefix as [|p prefix IH]; intros rest.
  - change ("" +:+ rest) with rest. cbn [String.length].
    rewrite Nat.sub_0_r. apply substring_all.
  - change (String p prefix +:+ rest) with (String p (prefix +:+ rest)).
    cbn [String.length String.substring Nat.sub]. apply IH.
Qed.

Lemma TrimPrefix_spec s prefix :
  strings.HasPrefix s prefix = true → s = prefix +:+ TrimPrefix s prefix.
Proof.
  intros Hp. unfold TrimPrefix. rewrite Hp.
  apply RequestFacts.HasPrefix_spec in Hp as [rest ->].
  by rewrite substring_after.
Qed.

Lemma ParseUint_nonEmpty s n : ParseUint s = Some n → nonEmpty s = true.
Proof.
  unfold ParseUint, nonEmpty. by destruct (String.eqb s "").
Qed.

Lemma authWithTenant_Next svc user target logs0 logs stored :
  authWithTenant svc user target logs0 = (logs, Next stored) →
  (Services.GetTenantByID svc target).2 = None
  ∧ stored = Some {| Stored.TenantID := target;
                     Stored.TenantInfo := (Services.GetTenantByID svc target).1;
                     Stored.User := Some user |}.
Proof.
  unfold authWithTenant.
  destruct (Services.GetTenantByID svc target) as [tenant [e|]]; [done |].
  intros [= _ <-]. done.
Qed.

Lemma authUser_Next svc cfg r user logs stored :
  authUser svc cfg r user = (logs, Next stored) →
  ∃ target,
    (Services.GetTenantByID svc target).2 = None
    ∧ stored = Some {| Stored.TenantID := target;
                       Stored.TenantInfo := (Services.GetTenantByID svc target).1;
                       Stored.User := Some user |}
    ∧ (target = User.TenantID user
       ∨ (ParseUint (GetHeader r "X-Tenant-ID") = Some target
          ∧ crossTenantEnabled cfg = true
          ∧ User.CanAccessAllTenants user = true
          ∧ is_Some (Services.GetTenantByID svc target).1)).
Proof.
  unfold authUser.
  destruct (nonEmpty (GetHeader r "X-Tenant-ID")).
  2:{ intros [? ?]%authWithTenant_Next. by exists (User.TenantID user); auto. }
  destruct (ParseUint (GetHeader r "X-Tenant-ID")) as [parsed|] eqn:Hparse.
  2:{ intros [? ?]%authWithTenant_Next. by exists (User.TenantID user); auto. }
  rewrite canAccessTenant_value.
  destruct (crossTenantEnabled cfg && User.CanAccessAllTenants user) eqn:Hcan;
    [| done].
  apply andb_prop in Hcan as [Hen Hall].
  destruct (Services.GetTenantByID svc parsed) as [[tenant|] [e|]] eqn:Hget;
    try done.
  intros [Herr Hstored]%authWithTenant_Next. exists parsed.
  split; [done |]. split; [done |]. right.
  rewrite Hget. cbn. eauto.
Qed.

Lemma authAPIKey_Next svc r logs stored :
  authAPIKey svc r = (logs, Next stored) →
  ∃ target tenant,
    GetHeader r "X-API-Key" ≠ ""
    ∧ Services.ExtractTenantIDFromAPIKey svc (GetHeader r "X-API-Key")
      = (target, None)
    ∧ Services.GetTenantByID svc target = (Some tenant, None)
    ∧ Tenant.APIKey tenant = GetHeader r "X-API-Key"
    ∧ stored = Some {| Stored.TenantID := target;
                       Stored.TenantInfo := Some tenant;
                       Stored.User := None |}.
Proof.
  unfold authAPIKey, nonEmpty.
  destruct (String.eqb_spec (GetHeader r "X-API-Key") "") as [| Hkey]; [done |].
  cbn [negb].
  destruct (Services.ExtractTenantIDFromAPIKey svc _) as [target [e|]]; [done |].
  destruct (Services.GetTenantByID svc target) as [[tenant|] [e|]] eqn:Hget;
    try done.
  destruct (String.eqb_spec (Tenant.APIKey tenant) (GetHeader r "X-API-Key"))
    as [Heq |]; [| done].
  cbn [negb]. intros [= _ <-]. by exists target, tenant.
Qed.

(** X22. What the middleware lets through. When it calls the next handler
    it has stored nothing for a preflight or an open endpoint, and
    otherwise either a bearer token that the user service validated, with
    a tenant that the tenant service found without error and that is the
    user's own or, named by a parsable X-Tenant-ID header, one that exists
    and that the user may switch to (the switch is enabled and the user may
    access all tenants); or an API key that is the key of the tenant it
    names. *)
Theorem Auth_lets_through_only_authenticated
    (svc : Services.t) (cfg : option Config.t) (r : Request.t)
    (logs : list LogLine) (stored : option Stored.t) :
  Auth svc cfg r = (logs, Next stored) →
  (stored = None
   ∧ (Request.Method r = "OPTIONS"
      ∨ isNoAuthAPI (Request.Path r) (Request.Method r) = true))
  ∨ (∃ token user target,
       GetHeader r "Authorization" = "Bearer " +:+ token
       ∧ Services.ValidateToken svc token = (Some user, None)
       ∧ (Services.GetTenantByID svc target).2 = None
       ∧ stored = Some {| Stored.TenantID := target;
                          Stored.TenantInfo :=
                            (Services.GetTenantByID svc target).1;
                          Stored.User := Some user |}
       ∧ (target = User.TenantID user
          ∨ (ParseUint (GetHeader r "X-Tenant-ID") = Some target
             ∧ crossTenantEnabled cfg = true
             ∧ User.CanAccessAllTenants user = true
             ∧ is_Some (Services.GetTenantByID svc target).1)))
  ∨ (∃ target tenant,
       GetHeader r "X-API-Key" ≠ ""
       ∧ Services.ExtractTenantIDFromAPIKey svc (GetHeader r "X-API-Key")
         = (target, None)
       ∧ Services.GetTenantByID svc target = (Some tenant, None)
       ∧ Tenant.APIKey tenant = GetHeader r "X-API-Key"
       ∧ stored = Some {| Stored.TenantID := target;
                          Stored.TenantInfo := Some tenant;
                          Stored.User := None |}).
Proof.
  unfold Auth.
  destruct (String.eqb_spec (Request.Method r) "OPTIONS") as [Hopt |].
  { intros [= _ <-]. left. auto. }
  destruct (isNoAuthAPI (Request.Path r) (Request.Method r)) eqn:Hopen.
  { intros [= _ <-]. left. auto. }
  cbv zeta.
  destruct (nonEmpty (GetHeader r "Authorization")
            && strings.HasPrefix (GetHeader r "Authorization") "Bearer ")
    eqn:Hbearer.
  2:{ intros H%authAPIKey_Next. right. by right. }
  apply andb_prop in Hbearer as [_ Hprefix].
  destruct (Services.ValidateToken svc
              (TrimPrefix (GetHeader r "Authorization") "Bearer "))
    as [[user|] [e|]] eqn:Hvalid;
    try (intros H%authAPIKey_Next; right; by right).
  intros (target & Herr & Hstored & Htarget)%authUser_Next.
  right. left.
  exists (TrimPrefix (GetHeader r "Authorization") "Bearer "), user, target.
  split; [by apply TrimPrefix_spec |]. done.
Qed.

(** X23. A bearer token that the user service does not validate is
    ignored: the request is treated as it would be without the
    Authorization header, so it can still pass with an API key and is
    otherwise refused for its missing or wrong API key. *)
Theorem rejected_token_is_ignored
    (svc : Services.t) (cfg : option Config.t) (r : Request.t) :
  (∀ user,
     Services.ValidateToken svc
       (TrimPrefix (GetHeader r "Authorization") "Bearer ")
     ≠ (Some user, None)) →
  Auth svc cfg r = Auth svc cfg (withoutHeader r "Authorization").
Proof.
  intros Hrejected. unfold Auth. cbn [withoutHeader Request.Method Request.Path].
  destruct (String.eqb (Request.Method r) "OPTIONS"); [done |].
  destruct (isNoAuthAPI (Request.Path r) (Request.Method r)); [done |].
  cbv zeta.
  assert (GetHeader (withoutHeader r "Authorization") "Authorization" = "")
    as ->.
  { unfold GetHeader, withoutHeader. cbn. by rewrite lookup_delete_eq. }
  assert (authAPIKey svc (withoutHeader r "Authorization") = authAPIKey svc r)
    as ->.
  { unfold authAPIKey, GetHeader, withoutHeader. cbn [Request.Header].
    by rewrite lookup_delete_ne. }
  change (nonEmpty "" && strings.HasPrefix "" "Bearer ") with false. cbv iota.
  destruct (nonEmpty (GetHeader r "Authorization")
            && strings.HasPrefix (GetHeader r "Authorization") "Bearer ");
    [| done].
  destruct (Services.ValidateToken svc _) as [[user|] [e|]] eqn:Hvalid;
    try done.
  by destruct (Hrejected user).
Qed.

(** X24. The X-Tenant-ID header of a user with a valid token. A header
    that parses as a tenant id is refused with 403 unless the cross-tenant
    switch is on and the user may access all tenants, also when it names the
    user's own tenant; with the permission it is refused with 400 when the
    tenant service reports an error or no tenant. A header that does not
    parse as an unsigned 64-bit decimal number is ignored. *)
Theorem tenant_header_of_a_valid_user
    (svc : Services.t) (cfg : option Config.t) (r : Request.t)
    (token : string) (user : User.t) :
  guarded r →
  GetHeader r "Authorization" = "Bearer " +:+ token →
  Services.ValidateToken svc token = (Some user, None) →
  (∀ target,
     ParseUint (GetHeader r "X-Tenant-ID") = Some target →
     (crossTenantEnabled cfg && User.CanAccessAllTenants user = false →
      (Auth svc cfg r).2
      = Abort 403 "Forbidden: insufficient permissions to access target tenant")
     ∧ (crossTenantEnabled cfg && User.CanAccessAllTenants user = true →
        (∀ tenant,
           Services.GetTenantByID svc target ≠ (Some tenant, None)) →
        (Auth svc cfg r).2 = Abort 400 "Invalid target tenant ID"))
  ∧ (ParseUint (GetHeader r "X-Tenant-ID") = None →
     Auth svc cfg r = Auth svc cfg (withoutHeader r "X-Tenant-ID")).
Proof.
  intros [Hmethod Hopen] Hauth Hvalid.
  assert (TrimPrefix (GetHeader r "Authorization") "Bearer " = token) as Htoken.
  { rewrite Hauth. unfold TrimPrefix.
    assert (strings.HasPrefix ("Bearer " +:+ token) "Bearer " = true) as ->
      by (apply RequestFacts.HasPrefix_spec; by exists token).
    apply substring_after. }
  assert (nonEmpty (GetHeader r "Authorization")
          && strings.HasPrefix (GetHeader r "Authorization") "Bearer " = true)
    as Hbearer.
  { rewrite Hauth. apply andb_true_intro. split.
    - unfold nonEmpty. by destruct token.
    - apply RequestFacts.HasPrefix_spec. by exists token. }
  assert (∀ r', Request.Method r' = Request.Method r →
                Request.Path r' = Request.Path r →
                GetHeader r' "Authorization" = GetHeader r "Authorization" →
                Auth svc cfg r' = authUser svc cfg r' user) as Hstep.
  { intros r' Hm Hp Ha. unfold Auth. rewrite Hm, Hp, Hopen.
    destruct (String.eqb_spec (Request.Method r) "OPTIONS"); [done |].
    cbv zeta. rewrite Ha, Hbearer, Htoken, Hvalid. done. }
  rewrite (Hstep r) by done. split.
  - intros target Hparse. unfold authUser.
    rewrite (ParseUint_nonEmpty _ _ Hparse), Hparse, canAccessTenant_value.
    split; intros Hcan; rewrite Hcan; [done |].
    intros Hmissing.
    destruct (Services.GetTenantByID svc target) as [[tenant|] [e|]] eqn:Hget;
      try done.
    by destruct (Hmissing tenant).
  - intros Hparse. rewrite (Hstep (withoutHeader r "X-Tenant-ID")); try done.
    2:{ unfold GetHeader, withoutHeader. cbn. by rewrite lookup_delete_ne. }
    unfold authUser.
    assert (GetHeader (withoutHeader r "X-Tenant-ID") "X-Tenant-ID" = "") as ->.
    { unfold GetHeader, withoutHeader. cbn. by rewrite lookup_delete_eq. }
    rewrite Hparse. change (nonEmpty "") with false. cbv iota.
    by destruct (nonEmpty (GetHeader r "X-Tenant-ID")).
Qed.

Lemma Auth_lets_through_only_authenticated_witness :
  Auth services (crossTenant true) switchRequest
  = ([("User %s switching to tenant %d", [ArgString "root"; ArgUint 5])],
     Next (Some {| Stored.TenantID := 5;
                   Stored.TenantInfo := Some (tenantOf 5);
                   Stored.User := Some root |}))
  ∧ ∃ user,
      Services.ValidateToken services "root-token" = (Some user, None)
      ∧ crossTenantEnabled (crossTenant true) = true
      ∧ User.CanAccessAllTenants user = true.
Proof.
  assert (Auth services (crossTenant true) switchRequest
          = ([("User %s switching to tenant %d", [ArgString "root"; ArgUint 5])],
             Next (Some {| Stored.TenantID := 5;
                           Stored.TenantInfo := Some (tenantOf 5);
                           Stored.User := Some root |}))) as Hrun
    by (by vm_compute).
  split; [exact Hrun |].
  destruct (Auth_lets_through_only_authenticated _ _ _ _ _ Hrun)
    as [[Hnone _] | [(token & user & target & Hauth & Hvalid & _ & Hstored & Hwhy)
                    | (target & tenant & _ & _ & _ & _ & Hstored)]].
  - discriminate Hnone.
  - injection Hstored as <- _ <-.
    destruct Hwhy as [Hown | (_ & Henabled & Hall & _)]; [discriminate Hown |].
    exists root. split; [by vm_compute |]. split; [exact Henabled | exact Hall].
  - discriminate Hstored.
Defined.

Lemma rejected_token_is_ignored_witness :
  Auth services None staleTokenRequest
  = Auth services None (withoutHeader staleTokenRequest "Authorization").
Proof.
  apply (rejected_token_is_ignored services None staleTokenRequest).
  intros user. vm_compute. discriminate.
Defined.

Lemma tenant_header_of_a_valid_user_witness :
  (Auth services (crossTenant false) ownTenantRequest).2
  = Abort 403 "Forbidden: insufficient permissions to access target tenant".
Proof.
  assert (guarded ownTenantRequest) as Hguarded
    by (split; [discriminate | by vm_compute]).
  assert (GetHeader ownTenantRequest "Authorization" = "Bearer " +:+ "alice-token")
    as Hauth by (by vm_compute).
  assert (Services.ValidateToken services "alice-token" = (Some alice, None))
    as Hvalid by (by vm_compute).
  pose proof (tenant_header_of_a_valid_user services (crossTenant false)
                ownTenantRequest "alice-token" alice Hguarded Hauth Hvalid)
    as [Hparsed _].
  apply (Hparsed 7%Z); by vm_compute.
Defined.

End AuthFacts.

(** ** The event bus *)

Module EventFacts.

Import event EventTerms.

Section Bus.

Context {S : Type}.
Implicit Types (eb : EventBus S) (h : EventHandler S) (ev : Event.t) (s : S).

Lemma GetHandlerCount_registered eb eventType :
  GetHandlerCount eb eventType = Z.of_nat (length (registered eb eventType)).
Proof.
  unfold GetHandlerCount, registered.
  by destruct (handlers eb !! eventType).
Qed.

Lemma registered_On eb eventType h eventType' :
  registered (On eb eventType h) eventType'
  = if decide (eventType = eventType')
    then registered eb eventType ++ [h]
    else registered eb eventType'.
Proof.
  unfold registered, On. cbn [handlers].
  destruct (decide (eventType = eventType')) as [<- | Hne].
  - by rewrite lookup_insert_eq.
  - by rewrite lookup_insert_ne.
Qed.

(** X25. The bookkeeping of the bus. [On] adds the handler after the
    handlers that the type already has and leaves the handlers of the other
    types as they are; [Off] removes the handlers of one type only;
    [Clear] removes all; and [HasHandlers] holds exactly when
    [GetHandlerCount] is positive. *)
Theorem registration_bookkeeping eb (eventType eventType' : string) h :
  registered (On eb eventType h) eventType = registered eb eventType ++ [h]
  ∧ GetHandlerCount (On eb eventType h) eventType'
    = (GetHandlerCount eb eventType'
       + if decide (eventType = eventType') then 1 else 0)%Z
  ∧ GetHandlerCount (Off eb eventType) eventType'
    = (if decide (eventType = eventType') then 0
       else GetHandlerCount eb eventType')%Z
  ∧ GetHandlerCount (Clear eb) eventType' = 0%Z
  ∧ HasHandlers eb eventType' = (0 <? GetHandlerCount eb eventType')%Z
  ∧ (eventType ≠ eventType' →
     registered (On eb eventType h) eventType' = registered eb eventType'
     ∧ registered (Off eb eventType) eventType' = registered eb eventType')
  ∧ registered (Off eb eventType) eventType = []
  ∧ registered (Clear eb) eventType' = [].
Proof.
  split; [| split; [| split; [| split; [| split; [| split; [| split]]]]]].
  - rewrite registered_On. by destruct (decide (eventType = eventType)).
  - rewrite !GetHandlerCount_registered, registered_On.
    destruct (decide (eventType = eventType')) as [<- | Hne]; [| lia].
    rewrite length_app. cbn [length]. lia.
  - unfold GetHandlerCount, Off. cbn [handlers].
    destruct (decide (eventType = eventType')) as [<- | Hne].
    + by rewrite lookup_delete_eq.
    + by rewrite lookup_delete_ne.
  - unfold GetHandlerCount, Clear. cbn [handlers]. by rewrite lookup_empty.
  - unfold HasHandlers, GetHandlerCount.
    by destruct (handlers eb !! eventType').
  - intros Hne. split.
    + rewrite registered_On. by destruct (decide (eventType = eventType')).
    + unfold registered, Off. cbn [handlers]. by rewrite lookup_delete_ne.
  - unfold registered, Off. cbn [handlers]. by rewrite lookup_delete_eq.
  - unfold registered, Clear. cbn [handlers]. by rewrite lookup_empty.
Qed.

Lemma withID_Type uuid ev : Event.Type_ (withID uuid ev) = Event.Type_ ev.
Proof. unfold withID. by destruct (String.eqb (Event.ID ev) ""). Qed.

Lemma Emit_registered uuid eb ev s :
  Emit uuid eb ev s
  = if asyncMode eb
    then (s, None,
          map (λ h, h (withID uuid ev)) (registered eb (Event.Type_ ev)))
    else (runHandlers (registered eb (Event.Type_ ev)) (withID uuid ev) s, []).
Proof.
  unfold Emit, registered. cbv zeta. rewrite withID_Type.
  destruct (handlers eb !! Event.Type_ ev) as [[|h hs]|];
    cbn [from_option id length Nat.eqb map].
  - by destruct (asyncMode eb).
  - destruct (asyncMode eb); [done |].
    by destruct (runHandlers (h :: hs) (withID uuid ev) s).
  - by destruct (asyncMode eb).
Qed.

Lemma runHandlers_Delivered ev (before rest : list (EventHandler S)) s s1 :
  Delivered ev before s s1 →
  runHandlers (before ++ rest) ev s = runHandlers rest ev s1.
Proof.
  induction 1 as [s | h hs s s1 s2 Hh _ IH]; [done |].
  cbn [app runHandlers]. by rewrite Hh.
Qed.

Lemma runHandlers_snoc (hs : list (EventHandler S)) h ev : ∀ s,
  runHandlers (hs ++ [h]) ev s
  = match runHandlers hs ev s with
    | (s1, Some err) => (s1, Some err)
    | (s1, None) => runHandlers [h] ev s1
    end.
Proof.
  induction hs as [|h0 hs IH]; intros s.
  - cbn [app runHandlers]. by destruct (h ev s) as [s1 [err|]].
  - cbn [app]. change (runHandlers (h0 :: hs ++ [h]) ev s)
      with (let '(s', err) := h0 ev s in
            match err with
            | Some err =>
                (s', Some (ErrWrap ("event handler failed for "
                                    +:+ Event.Type_ ev) err))
            | None => runHandlers (hs ++ [h]) ev s'
            end).
    cbn [runHandlers]. destruct (h0 ev s) as [s' [err|]]; [done |]. apply IH.
Qed.

(** X26. Delivery in the synchronous mode. The handlers of the type of the
    event run in the order of their registration, each on the state that the
    one before left, and all receive the event with its identifier filled
    in. When all return [nil], so does [Emit]. When one fails, the handlers
    after it do not run, and [Emit] returns its error wrapped with the type
    of the event. No goroutine is started. *)
Theorem sync_emit_stops_at_first_failure
    (uuid : string) eb ev s (hs : list (EventHandler S)) :
  asyncMode eb = false →
  registered eb (Event.Type_ ev) = hs →
  (∀ s', Delivered (withID uuid ev) hs s s' →
         Emit uuid eb ev s = (s', None, []))
  ∧ (∀ before h after s1 s2 err,
       hs = before ++ h :: after →
       Delivered (withID uuid ev) before s s1 →
       h (withID uuid ev) s1 = (s2, Some err) →
       Emit uuid eb ev s
       = (s2,
          Some (ErrWrap ("event handler failed for " +:+ Event.Type_ ev) err),
          [])).
Proof.
  intros Hsync Hhs. rewrite Emit_registered, Hsync, Hhs. split.
  - intros s' Hall.
    rewrite <- (app_nil_r hs), (runHandlers_Delivered _ _ _ _ _ Hall). done.
  - intros before h after s1 s2 err -> Hbefore Hfail.
    rewrite (runHandlers_Delivered _ _ _ _ _ Hbefore).
    cbn [runHandlers]. by rewrite Hfail, withID_Type.
Qed.

(** X27. What [Emit] does not wait for. In the asynchronous mode it
    returns [nil] with the state untouched, whatever the handlers do, having
    started one goroutine per handler of the type, in the order of
    registration, on the event with its identifier filled in. For a type
    without handlers it returns [nil], runs and starts nothing, in either
    mode. *)
Theorem async_emit_only_starts_handlers (uuid : string) eb ev s :
  (asyncMode eb = true →
   Emit uuid eb ev s
   = (s, None, map (λ h, h (withID uuid ev)) (registered eb (Event.Type_ ev))))
  ∧ (GetHandlerCount eb (Event.Type_ ev) = 0%Z →
     Emit uuid eb ev s = (s, None, []))
  ∧ (Event.ID ev ≠ "" → withID uuid ev = ev)
  ∧ (Event.ID ev = "" → Event.ID (withID uuid ev) = uuid).
Proof.
  rewrite Emit_registered. split; [| split; [| split]].
  - by intros ->.
  - rewrite GetHandlerCount_registered. intros Hcount.
    destruct (registered eb (Event.Type_ ev)) as [|h hs]; [| cbn in Hcount; lia].
    by destruct (asyncMode eb).
  - intros Hid. unfold withID.
    by destruct (String.eqb_spec (Event.ID ev) "").
  - intros Hid. unfold withID. by rewrite Hid.
Qed.

(** X28. Registering a handler on a synchronous bus adds it at the end of
    the delivery: an event of its type is first delivered as before, and
    the new handler runs on the state that leaves only when none of the
    earlier handlers failed. *)
Theorem registering_adds_last (uuid : string) eb ev s h :
  asyncMode eb = false →
  Emit uuid (On eb (Event.Type_ ev) h) ev s
  = match Emit uuid eb ev s with
    | (s1, Some err, _) => (s1, Some err, [])
    | (s1, None, _) =>
        match h (withID uuid ev) s1 with
        | (s2, Some err) =>
            (s2,
             Some (ErrWrap ("event handler failed for " +:+ Event.Type_ ev) err),
             [])
        | (s2, None) => (s2, None, [])
        end
    end.
Proof.
  intros Hsync. rewrite !Emit_registered. cbn [On asyncMode]. rewrite Hsync.
  rewrite registered_On.
  destruct (decide (Event.Type_ ev = Event.Type_ ev)); [| done].
  rewrite runHandlers_snoc.
  destruct (runHandlers (registered eb (Event.Type_ ev)) (withID uuid ev) s)
    as [s1 [err|]]; [done |].
  cbn [runHandlers]. rewrite withID_Type.
  by destruct (h (withID uuid ev) s1) as [s2 [err|]].
Qed.

End Bus.

Lemma sync_emit_stops_at_first_failure_witness :
  Emit "id-1" (bus false) (stop "") []
  = (["first:id-1"; "second"],
     Some (ErrWrap "event handler failed for stop" (ErrMsg "second")), []).
Proof.
  refine (proj2 (sync_emit_stops_at_first_failure "id-1" (bus false) (stop "") []
                   [note "first"; failing "second"; note "third"] _ _)
            [note "first"] (failing "second") [note "third"]
            ["first:id-1"] ["first:id-1"; "second"] (ErrMsg "second") _ _ _).
  - reflexivity.
  - by vm_compute.
  - reflexivity.
  - eapply Delivered_cons; [reflexivity | apply Delivered_nil].
  - reflexivity.
Defined.

Lemma registering_adds_last_witness :
  Emit "id-1" (On (On NewEventBus "stop" (note "first")) "stop" (note "last"))
    (stop "e-9") []
  = (["first:e-9"; "last:e-9"], None, []).
Proof.
  etrans.
  - exact (registering_adds_last "id-1" (On NewEventBus "stop" (note "first"))
             (stop "e-9") [] (note "last") eq_refl).
  - by vm_compute.
Defined.

End EventFacts.
